(** * Construction delay detector: feature derivation and confidence heuristics

    A shallow embedding of the feature-engineering function of
    [ml_system/ml_api.py], of the predictor of [ml_system/train_model.py]
    and of the predictor and HTTP handlers of [ml_training/], together with
    the properties that the specification states about them.

    Conventions of the embedding.
    - Python floats are exact rationals ([Q]); [nan] and the infinities are
      not represented.
    - Python strings are [string]; [str.lower] acts on the ASCII letters.
    - An exception is a value of [exn]; a computation that may raise has
      type [result A].
    - Library primitives ([datetime.fromisoformat], the wall clock, the
      square root behind [numpy.std], fitted scikit-learn estimators) are
      parameters of the functions that call them. *)

From Stdlib Require Import ZArith QArith Qround Qminmax List String Ascii Bool Lia Lqa.
From Stdlib Require Import DecimalString.
Import ListNotations.

Set Implicit Arguments.

(** ** Python primitives *)

Module Py.

Inductive exn : Type :=
| ZeroDivisionError
| TypeError (msg : string)
| ValueError (msg : string)
| IndexError (msg : string)
| KeyError (key : string).

Inductive result (A : Type) : Type :=
| Ok (a : A)
| Raise (e : exn).

Arguments Ok {A} a.
Arguments Raise {A} e.

Definition bind {A B : Type} (c : result A) (k : A -> result B) : result B :=
  match c with
  | Ok a => k a
  | Raise e => Raise e
  end.

Definition str_of_exn (e : exn) : string :=
  match e with
  | ZeroDivisionError => "division by zero"
  | TypeError msg => msg
  | ValueError msg => msg
  | IndexError msg => msg
  | KeyError key => "'" ++ key ++ "'"
  end.

(** [a < b] on floats, as a boolean. *)
Definition Qlt_bool (a b : Q) : bool := negb (Qle_bool b a).

(** [min(a, b)]: the first argument unless the second is strictly smaller. *)
Definition py_min (a b : Q) : Q := if Qlt_bool b a then b else a.

(** [max(a, b)]: the first argument unless the second is strictly larger. *)
Definition py_max (a b : Q) : Q := if Qlt_bool a b then b else a.

(** Nearest integer, ties to the even one. *)
Definition round_half_even (q : Q) : Z :=
  let f := Qfloor q in
  let r := q - inject_Z f in
  if Qlt_bool r (1 # 2) then f
  else if Qlt_bool (1 # 2) r then (f + 1)%Z
  else if Z.even f then f else (f + 1)%Z.

(** [round(q, ndigits)]. *)
Definition py_round (q : Q) (ndigits : nat) : Q :=
  let scale := Z.to_pos (10 ^ Z.of_nat ndigits) in
  Qmake (round_half_even (q * inject_Z (Zpos scale))) scale.

(** [a / b] on integers: true division. *)
Definition truediv (a b : Z) : result Q :=
  if (b =? 0)%Z then Raise ZeroDivisionError
  else Ok (inject_Z a / inject_Z b).

(** *** Strings *)

Definition ascii_lower (c : ascii) : ascii :=
  let n := nat_of_ascii c in
  if (65 <=? n)%nat && (n <=? 90)%nat then ascii_of_nat (n + 32) else c.

Fixpoint lower (s : string) : string :=
  match s with
  | EmptyString => EmptyString
  | String c t => String (ascii_lower c) (lower t)
  end.

(** [sub in s]. *)
Fixpoint contains (sub s : string) : bool :=
  String.prefix sub s ||
  match s with
  | EmptyString => false
  | String _ t => contains sub t
  end.

(** [s.replace(old, new)] for a one-character [old]. *)
Fixpoint replace (old : ascii) (new s : string) : string :=
  match s with
  | EmptyString => EmptyString
  | String c t =>
      if Ascii.eqb c old then String.append new (replace old new t)
      else String c (replace old new t)
  end.

(** Truth value of an optional string: [None] and [''] are false. *)
Definition truthy (s : option string) : bool :=
  match s with
  | None => false
  | Some EmptyString => false
  | Some (String _ _) => true
  end.

(** *** datetime *)

(** A [datetime]: microseconds of its wall-clock reading since the epoch
    and, when it is timezone-aware, its UTC offset in microseconds. *)
Record datetime : Type := mkDatetime {
  wall : Z;
  tzinfo : option Z
}.

Definition cannot_subtract : string :=
  "can't subtract offset-naive and offset-aware datetimes".

(** [a - b], a [timedelta] in microseconds. *)
Definition dt_sub (a b : datetime) : result Z :=
  match tzinfo a, tzinfo b with
  | None, None => Ok (wall a - wall b)%Z
  | Some oa, Some ob => Ok ((wall a - oa) - (wall b - ob))%Z
  | _, _ => Raise (TypeError cannot_subtract)
  end.

Definition us_per_day : Z := 86400000000.

(** [timedelta.days]: whole days, rounded towards minus infinity. *)
Definition days (td : Z) : Z := (td / us_per_day)%Z.

(** The wall clock: the UTC instant of the call and the local UTC offset. *)
Record clock : Type := mkClock {
  utc_now : Z;
  local_offset : Z
}.

(** [datetime.now(tz)]. *)
Definition now (c : clock) (tz : option Z) : datetime :=
  match tz with
  | None => mkDatetime (utc_now c + local_offset c) None
  | Some off => mkDatetime (utc_now c + off) (Some off)
  end.

End Py.

Export Py.

Declare Scope result_scope.
Notation "x <- c ;; k" := (bind c (fun x => k))
  (at level 61, c at next level, right associativity) : result_scope.
Notation "' pat <- c ;; k" := (bind c (fun x => match x with pat => k end))
  (at level 61, pat pattern, c at next level, right associativity) : result_scope.
Open Scope result_scope.
Open Scope Q_scope.
Open Scope string_scope.

(** The five engineered features. *)
Record features : Type := mkFeatures {
  progress_efficiency : Q;
  resource_availability : Q;
  project_complexity : Q;
  weather_impact : Q;
  timeline_pressure : Q
}.


(** ** An instance of the date-parsing primitive

    [fromisoformat_date] reads the date-only form [YYYY-MM-DD] and yields the
    naive midnight of that day; every other string is rejected. *)

Module IsoDate.

Definition digit (c : ascii) : option Z :=
  let n := nat_of_ascii c in
  if (48 <=? n)%nat && (n <=? 57)%nat then Some (Z.of_nat (n - 48)) else None.

Fixpoint number (acc : Z) (cs : list ascii) : option Z :=
  match cs with
  | [] => Some acc
  | c :: rest =>
      match digit c with
      | Some d => number (acc * 10 + d) rest
      | None => None
      end
  end.

Definition is_leap (y : Z) : bool :=
  ((y mod 4 =? 0) && (negb (y mod 100 =? 0) || (y mod 400 =? 0)))%Z.

Definition days_in_month (y m : Z) : Z :=
  if (m =? 2)%Z then (if is_leap y then 29 else 28)%Z
  else if ((m =? 4) || (m =? 6) || (m =? 9) || (m =? 11))%Z then 30%Z
  else 31%Z.

(** Days from 1970-01-01 to the given civil date. *)
Definition days_from_civil (y m d : Z) : Z :=
  let y' := (if m <=? 2 then y - 1 else y)%Z in
  let era := (y' / 400)%Z in
  let yoe := (y' - era * 400)%Z in
  let mp := (if 2 <? m then m - 3 else m + 9)%Z in
  let doy := ((153 * mp + 2) / 5 + d - 1)%Z in
  let doe := (yoe * 365 + yoe / 4 - yoe / 100 + doy)%Z in
  (era * 146097 + doe - 719468)%Z.

Definition midnight (y m d : Z) : Z := (days_from_civil y m d * us_per_day)%Z.

Definition invalid : exn := ValueError "Invalid isoformat string".

Definition fromisoformat_date (s : string) : result datetime :=
  match list_ascii_of_string s with
  | [y1; y2; y3; y4; "-"%char; m1; m2; "-"%char; d1; d2] =>
      match number 0 [y1; y2; y3; y4], number 0 [m1; m2], number 0 [d1; d2] with
      | Some y, Some m, Some d =>
          if ((1 <=? y) && (1 <=? m) && (m <=? 12) && (1 <=? d)
              && (d <=? days_in_month y m))%Z
          then Ok (mkDatetime (midnight y m d) None)
          else Raise invalid
      | _, _, _ => Raise invalid
      end
  | _ => Raise invalid
  end.

End IsoDate.

(** ** The predictor ([ml_system/train_model.py]) *)

Module TrainModel.

(** A fitted estimator as the predictor uses it: [predict] on one row. *)
Definition tree : Type := list Q -> Q.

(** [RandomForestRegressor]: its own [predict] and its [estimators_]. *)
Record RandomForestRegressor : Type := mkForest {
  rf_predict : list Q -> Q;
  estimators_ : list tree
}.

(** [GradientBoostingRegressor]: its own [predict] and the predictions of
    [staged_predict], one per boosting stage. *)
Record GradientBoostingRegressor : Type := mkBoosting {
  gb_predict : list Q -> Q;
  staged_predict : list Q -> list Q
}.

(** A fitted [StandardScaler]. *)
Record StandardScaler : Type := mkScaler {
  mean_ : list Q;
  scale_ : list Q
}.

Record ConstructionDelayPredictor : Type := mkPredictor {
  delay_model : option RandomForestRegressor;
  cost_model : option GradientBoostingRegressor;
  scaler : StandardScaler
}.

Definition feature_names : list string :=
  [ "progress_efficiency"; "resource_availability"; "project_complexity";
    "weather_impact"; "timeline_pressure" ].

(** [features[name]] on the feature dictionary. *)
Definition getitem (f : features) (name : string) : result Q :=
  if String.eqb name "progress_efficiency" then Ok (progress_efficiency f)
  else if String.eqb name "resource_availability" then Ok (resource_availability f)
  else if String.eqb name "project_complexity" then Ok (project_complexity f)
  else if String.eqb name "weather_impact" then Ok (weather_impact f)
  else if String.eqb name "timeline_pressure" then Ok (timeline_pressure f)
  else Raise (KeyError name).

Fixpoint sequence {A : Type} (l : list (result A)) : result (list A) :=
  match l with
  | [] => Ok []
  | c :: rest => x <- c ;; xs <- sequence rest ;; Ok (x :: xs)
  end.

Fixpoint zip3 (xs ms ss : list Q) : list Q :=
  match xs, ms, ss with
  | x :: xs', m :: ms', s :: ss' => (x - m) / s :: zip3 xs' ms' ss'
  | _, _, _ => []
  end.

Definition shape_mismatch : string :=
  "X has a different number of features than StandardScaler is expecting".

(** [scaler.transform] on one row. *)
Definition transform (sc : StandardScaler) (row : list Q) : result (list Q) :=
  if (List.length row =? List.length (mean_ sc))%nat
     && (List.length row =? List.length (scale_ sc))%nat
  then Ok (zip3 row (mean_ sc) (scale_ sc))
  else Raise (ValueError shape_mismatch).

Definition Qsum (l : list Q) : Q := fold_right Qplus 0 l.

(** [np.mean]. On an empty list numpy yields [nan], which has no rational
    counterpart; a fitted ensemble holds at least one estimator. *)
Definition np_mean (l : list Q) : Q := Qsum l / inject_Z (Z.of_nat (List.length l)).

(** [l[-n:]]. *)
Definition last_n {A : Type} (n : nat) (l : list A) : list A :=
  skipn (List.length l - n) l.

(** [l[-1]]. *)
Definition last_item {A : Type} (l : list A) : result A :=
  match rev l with
  | [] => Raise (IndexError "list index out of range")
  | x :: _ => Ok x
  end.

(** The input of [predict]: a feature dictionary or a plain array. *)
Inductive predict_input : Type :=
| FeatureDict (f : features)
| FeatureArray (row : list Q).

Record prediction : Type := mkPrediction {
  predicted_delay_days : Q;
  predicted_additional_cost : Q;
  delay_confidence_interval : Q * Q;
  cost_confidence_interval : Q * Q;
  model_confidence : Z
}.

Definition Zmin_py (a b : Z) : Z := if (b <? a)%Z then b else a.
Definition Zmax_py (a b : Z) : Z := if (a <? b)%Z then b else a.

(** [_calculate_overall_confidence]. *)
Definition _calculate_overall_confidence (features : list Q) : Z :=
  let base_confidence :=
    fold_left (fun base value =>
                 if Qlt_bool value 0.1 || Qlt_bool 0.9 value
                 then (base - 5)%Z else base)
              features 85%Z in
  Zmax_py 60 (Zmin_py 95 base_confidence).

Section Predictor.

(** The square root that [np.std] takes. *)
Variable sqrt : Q -> Q.

(** [np.std]: the root of the mean squared deviation from the mean. *)
Definition np_std (l : list Q) : Q :=
  let m := np_mean l in
  sqrt (np_mean (map (fun x => (x - m) * (x - m)) l)).

(** [_calculate_confidence]; [predict] calls it once both models are known
    to be present, and they are passed here. *)
Definition _calculate_confidence (rf : RandomForestRegressor)
    (gb : GradientBoostingRegressor) (features : list Q) (model_type : string)
    : result (Q * Q) :=
  ' (std, mean_pred) <-
    (if String.eqb model_type "delay" then
       let tree_predictions := map (fun t : tree => t features) (estimators_ rf) in
       Ok (np_std tree_predictions, np_mean tree_predictions)
     else
       let staged_preds := staged_predict gb features in
       let std := np_std (last_n 10 staged_preds) in
       mean_pred <- last_item staged_preds ;;
       Ok (std, mean_pred)) ;;
  let lower := py_max 0 (mean_pred - 1.96 * std) in
  let upper := mean_pred + 1.96 * std in
  Ok (lower, upper).

Variable self : ConstructionDelayPredictor.

Definition predict (input : predict_input) : result prediction :=
  match delay_model self, cost_model self with
  | Some rf, Some gb =>
      feature_array <-
        match input with
        | FeatureDict f => sequence (map (getitem f) feature_names)
        | FeatureArray row => Ok row
        end ;;
      features_scaled <- transform (scaler self) feature_array ;;
      let delay_pred := rf_predict rf features_scaled in
      let cost_pred := gb_predict gb features_scaled in
      delay_confidence <- _calculate_confidence rf gb features_scaled "delay" ;;
      cost_confidence <- _calculate_confidence rf gb features_scaled "cost" ;;
      Ok {| predicted_delay_days := py_max 0 delay_pred;
            predicted_additional_cost := py_max 0 cost_pred;
            delay_confidence_interval := delay_confidence;
            cost_confidence_interval := cost_confidence;
            model_confidence := _calculate_overall_confidence features_scaled |}
  | _, _ => Raise (ValueError "Models not trained yet!")
  end.

End Predictor.

(** The overall confidence as the specification words it: 85, less 5 for
    each of the five engineered features below 0.1 or above 0.9, clamped to
    [[60, 95]]. *)
Definition overall_confidence_spec (f : features) : Z :=
  let extreme (v : Q) : Z :=
    if Qlt_bool v 0.1 || Qlt_bool 0.9 v then 1%Z else 0%Z in
  let penalties :=
    (extreme (progress_efficiency f) + extreme (resource_availability f)
     + extreme (project_complexity f) + extreme (weather_impact f)
     + extreme (timeline_pressure f))%Z in
  Z.max 60 (Z.min 95 (85 - 5 * penalties)).

End TrainModel.

(** ** Feature derivation ([ml_system/ml_api.py]) *)

Module MlApi.

(** The project record of a request: the fields that
    [extract_features_from_project] reads, each possibly missing. Numeric
    fields hold the number that [float] yields, list fields hold the list. *)
Record project_data : Type := mkProject {
  currentProgress : option Q;
  startDate : option string;
  endDate : option string;
  humanResources : option (list string);
  materials : option (list string);
  equipment : option (list string);
  totalBudget : option Q;
  location : option string
}.

(** [d.get(key, default)]. *)
Definition get {A : Type} (field : option A) (default : A) : A :=
  match field with
  | Some v => v
  | None => default
  end.

Definition weather_risk_map : list (string * Q) :=
  [ ("delhi", 0.8); ("mumbai", 0.9); ("bangalore", 0.6); ("chennai", 0.8);
    ("kolkata", 0.9); ("hyderabad", 0.7); ("pune", 0.7); ("ahmedabad", 0.8) ].

(** The loop over [weather_risk_map.items()]: the risk of the first city
    whose name occurs in [location], the running default otherwise. *)
Fixpoint weather_lookup (items : list (string * Q)) (location : string)
    (weather_impact : Q) : Q :=
  match items with
  | [] => weather_impact
  | (city, risk) :: rest =>
      if contains city location then risk
      else weather_lookup rest location weather_impact
  end.

Definition len {A : Type} (l : list A) : Z := Z.of_nat (List.length l).

(** A scalar of the closed interval [[0,1]]. *)
Definition in_unit (q : Q) : Prop := 0 <= q /\ q <= 1.

(** No city of [weather_risk_map] occurs in the location. *)
Definition no_city_matches (location : string) : bool :=
  forallb (fun cr => negb (contains (fst cr) location)) weather_risk_map.

Section Features.

(** [datetime.fromisoformat] and the clock read by [datetime.now]. *)
Variable fromisoformat : string -> result datetime.
Variable clk : clock.

(** The first [if start_date and end_date] block: the progress efficiency
    and the names it leaves bound for the timeline-pressure block. *)
Definition progress_block (current_progress : Q) (start_date end_date : option string)
    : result (Q * option (datetime * datetime * Z)) :=
  if truthy start_date && truthy end_date then
    start <- fromisoformat (replace "Z" "+00:00" (get start_date "")) ;;
    end_ <- fromisoformat (replace "Z" "+00:00" (get end_date "")) ;;
    let now_ := now clk (tzinfo start) in
    total <- dt_sub end_ start ;;
    elapsed <- dt_sub now_ start ;;
    let total_days := days total in
    let elapsed_days := days elapsed in
    if (0 <? total_days)%Z then
      ratio <- truediv elapsed_days total_days ;;
      let expected_progress := py_min 1 (py_max 0 ratio) in
      let progress_variance := current_progress - expected_progress in
      Ok (py_max 0.1 (py_min 1 (1 + progress_variance)),
          Some (end_, now_, total_days))
    else Ok (0.8, Some (end_, now_, total_days))
  else Ok (0.8, None).

(** The second [if start_date and end_date] block. *)
Definition timeline_block (current_progress : Q)
    (dates : option (datetime * datetime * Z)) : result Q :=
  match dates with
  | Some (end_, now_, total_days) =>
      remaining <- dt_sub end_ now_ ;;
      ratio <- truediv (days remaining) total_days ;;
      let remaining_ratio := py_max 0 ratio in
      if Qlt_bool remaining_ratio 0.3 && Qlt_bool current_progress 0.8 then Ok 0.8
      else if Qlt_bool remaining_ratio 0.5 && Qlt_bool current_progress 0.7 then Ok 0.6
      else Ok 0.3
  | None => Ok 0.4
  end.

Definition extract_features_from_project (p : project_data) : result features :=
  let current_progress := get (currentProgress p) 0 / 100 in
  let start_date := startDate p in
  let end_date := endDate p in
  ' (progress_efficiency, dates) <- progress_block current_progress start_date end_date ;;
  let human_resources := get (humanResources p) [] in
  let materials := get (materials p) [] in
  let equipment := get (equipment p) [] in
  let total_resources := (len human_resources + len materials + len equipment)%Z in
  let budget := get (totalBudget p) 1000000 in
  let resource_availability :=
    if (0 <? total_resources)%Z then
      let resource_density := py_min 1 (inject_Z total_resources / 15) in
      let budget_factor := py_min 1 (budget / 10000000) in
      resource_density * 0.6 + budget_factor * 0.4
    else 0.5 in
  let budget_complexity := py_min 1 (budget / 50000000) in
  let resource_complexity := py_min 1 (inject_Z total_resources / 20) in
  let project_complexity := budget_complexity * 0.6 + resource_complexity * 0.4 in
  let location := lower (get (location p) "") in
  let weather_impact := weather_lookup weather_risk_map location 0.7 in
  timeline_pressure <- timeline_block current_progress dates ;;
  Ok {| progress_efficiency := py_round progress_efficiency 3;
        resource_availability := py_round resource_availability 3;
        project_complexity := py_round project_complexity 3;
        weather_impact := py_round weather_impact 3;
        timeline_pressure := py_round timeline_pressure 3 |}.

End Features.

(** *** The [/predict] handler *)

(** The parsed JSON body: the keys the handler reads. *)
Record payload : Type := mkPayload {
  project : option project_data
}.

(** A request: what [request.get_json()] does on it. [Ok None] is a body
    for which it returns [None]. *)
Record request : Type := mkRequest {
  get_json : result (option payload)
}.

Inductive body : Type :=
| ErrorBody (error : string)
| FailureBody (error : string)
| PredictionBody (delay_days additional_cost_usd : Q)
    (confidence_percentage : Z) (delay_range cost_range : Q * Q)
    (features_used : features) (feature_count : Z).

(** [jsonify(body), status]. *)
Record response : Type := mkResponse {
  status : Z;
  json : body
}.

Definition round_pair (ndigits : nat) (ci : Q * Q) : Q * Q :=
  (py_round (fst ci) ndigits, py_round (snd ci) ndigits).

Section Handler.

Variable fromisoformat : string -> result datetime.
Variable sqrt : Q -> Q.

(** The global [predictor] and the clock at the time of the request. *)
Variable predictor : TrainModel.ConstructionDelayPredictor.
Variable clk : clock.

(** The body of the [try] block. *)
Definition predict_delay_try (req : request) : result response :=
  data <- get_json req ;;
  match data with
  | None => Ok (mkResponse 400 (ErrorBody "Project data required"))
  | Some d =>
      match project d with
      | None => Ok (mkResponse 400 (ErrorBody "Project data required"))
      | Some project_data =>
          features <- extract_features_from_project fromisoformat clk project_data ;;
          prediction <- TrainModel.predict sqrt predictor (TrainModel.FeatureDict features) ;;
          Ok (mkResponse 200
                (PredictionBody
                   (py_round (TrainModel.predicted_delay_days prediction) 1)
                   (py_round (TrainModel.predicted_additional_cost prediction) 2)
                   (TrainModel.model_confidence prediction)
                   (round_pair 1 (TrainModel.delay_confidence_interval prediction))
                   (round_pair 2 (TrainModel.cost_confidence_interval prediction))
                   features 5))
      end
  end.

(** [predict_delay]: the [try] block under [except Exception]. *)
Definition predict_delay (req : request) : response :=
  match predict_delay_try req with
  | Ok r => r
  | Raise e => mkResponse 500 (FailureBody (str_of_exn e))
  end.

End Handler.

End MlApi.

(** ** The training-side predictor ([ml_training/delay_predictor.py]) *)

(** Methods of an object: computations that read and update the object and
    may raise. An exception leaves the updates made before it in place. *)
Module Method.

Definition M (S A : Type) : Type := S -> result A * S.

Definition ret {S A : Type} (a : A) : M S A := fun s => (Ok a, s).

Definition bind {S A B : Type} (c : M S A) (k : A -> M S B) : M S B :=
  fun s =>
    match c s with
    | (Ok a, s') => k a s'
    | (Raise e, s') => (Raise e, s')
    end.

Definition gets {S A : Type} (f : S -> A) : M S A := fun s => (Ok (f s), s).

Definition modify {S : Type} (f : S -> S) : M S unit := fun s => (Ok tt, f s).

(** A computation that does not touch the object. *)
Definition lift {S A : Type} (r : result A) : M S A := fun s => (r, s).

(** A computation that leaves the object as it found it. *)
Definition read_only {S A : Type} (c : M S A) : Prop := forall s, snd (c s) = s.

End Method.

Declare Scope method_scope.
Delimit Scope method_scope with method.
Notation "x <- c ;; k" := (Method.bind c (fun x => k))
  (at level 61, c at next level, right associativity) : method_scope.
Notation "c ;;; k" := (Method.bind c (fun _ => k))
  (at level 61, right associativity) : method_scope.

Module DelayPredictor.

Import Method.

(** A value of a data frame or of a project dictionary. *)
Inductive cell : Type :=
| Num (q : Q)
| Str (s : string).

Definition Series : Type := list cell.

(** A data frame: its columns, in order. *)
Definition DataFrame : Type := list (string * Series).

(** The dictionary of one project, or a data frame of one row. *)
Definition record : Type := list (string * cell).

Fixpoint lookup {A : Type} (key : string) (d : list (string * A)) : option A :=
  match d with
  | [] => None
  | (k, v) :: rest => if String.eqb k key then Some v else lookup key rest
  end.

(** [d[key] = v]. *)
Fixpoint assign {A : Type} (key : string) (v : A) (d : list (string * A))
    : list (string * A) :=
  match d with
  | [] => [(key, v)]
  | (k, v') :: rest =>
      if String.eqb k key then (k, v) :: rest else (k, v') :: assign key v rest
  end.

Definition mem (x : string) (l : list string) : bool := existsb (String.eqb x) l.

(** [d[key]]. *)
Definition getitem {A : Type} (d : list (string * A)) (key : string) : result A :=
  match lookup key d with
  | Some v => Ok v
  | None => Raise (KeyError key)
  end.

(** [dict(items)]. *)
Definition dict_of {A : Type} (items : list (string * A)) : list (string * A) :=
  fold_left (fun d kv => assign (fst kv) (snd kv) d) items [].

(** [l[:n]]. *)
Definition slice_to {A : Type} (n : Z) (l : list A) : list A :=
  if (n <? 0)%Z then firstn (List.length l - Z.to_nat (- n)) l
  else firstn (Z.to_nat n) l.

(** *** Label encoders *)

(** A fitted [LabelEncoder]: its [classes_]. *)
Definition LabelEncoder : Type := list string.

Fixpoint insert_class (x : string) (l : list string) : list string :=
  match l with
  | [] => [x]
  | y :: rest =>
      if String.eqb x y then l
      else if String.ltb x y then x :: l
      else y :: insert_class x rest
  end.

(** [LabelEncoder().fit(values)]: the distinct values, sorted. *)
Definition fit_classes (values : list string) : LabelEncoder :=
  fold_right insert_class [] values.

Fixpoint index_of (x : string) (l : list string) (i : Z) : option Z :=
  match l with
  | [] => None
  | y :: rest => if String.eqb x y then Some i else index_of x rest (i + 1)%Z
  end.

Definition unseen_label : string := "y contains previously unseen labels".

(** [encoder.transform(values)]. *)
Fixpoint le_transform (classes_ : LabelEncoder) (values : list string)
    : result (list cell) :=
  match values with
  | [] => Ok []
  | v :: rest =>
      match index_of v classes_ 0 with
      | Some i => Py.bind (le_transform classes_ rest)
                          (fun cs => Ok (Num (inject_Z i) :: cs))
      | None => Raise (ValueError unseen_label)
      end
  end.

Definition categorical_cols : list string :=
  [ "project_type"; "location"; "climate_zone"; "season_started" ].

Definition target_col : string := "actual_delay_days".

(** *** The library *)

Record metrics : Type := mkMetrics {
  train_mae : Q; test_mae : Q;
  train_rmse : Q; test_rmse : Q;
  train_r2 : Q; test_r2 : Q;
  cv_mae : Q; cv_std : Q
}.

(** The split of [train_test_split]. *)
Record split : Type := mkSplit {
  X_train : DataFrame; X_test : DataFrame;
  y_train : Series; y_test : Series
}.

(** What the predictor calls from pandas, scikit-learn, joblib and the
    operating system. *)
Class Library : Type := {
  Estimator : Type;
  Scaler : Type;
  (** [StandardScaler()] and the two regressors of [initialize_models]. *)
  StandardScaler : Scaler;
  RandomForestRegressor : Estimator;
  GradientBoostingRegressor : Estimator;
  (** [str] of a number, as [astype(str)] prints it. *)
  str_of_num : Q -> string;
  read_csv : string -> result DataFrame;
  path_exists : string -> bool;
  joblib_dump : string -> result unit;
  train_test_split : DataFrame -> Series -> result split;
  (** [scaler.fit_transform(X)]: the fitted scaler and the scaled frame. *)
  fit_transform : Scaler -> DataFrame -> result (Scaler * DataFrame);
  transform : Scaler -> DataFrame -> result DataFrame;
  transform_row : Scaler -> list Q -> result (list Q);
  (** [model.fit], the two [model.predict], the metrics and
      [cross_val_score] of one iteration of the training loop: the fitted
      model, its scores and its test predictions. *)
  fit_and_score : Estimator -> DataFrame -> DataFrame -> Series -> Series ->
                  result (Estimator * metrics * list Q);
  (** [model.feature_importances_], when the model has the attribute. *)
  feature_importances_ : Estimator -> option (list Q);
  (** [model.predict] on one row. *)
  predict : Estimator -> list Q -> result Q
}.

Section Predictor.

Context {lib : Library}.

(** One entry of [results], and so of [training_history]. *)
Record history_entry : Type := mkEntry {
  model : Estimator;
  scores : metrics;
  predictions : list Q;
  actual : Series
}.

Record ConstructionDelayPredictor : Type := mkPredictor {
  models : list (string * Estimator);
  best_model : option Estimator;
  best_model_name : option string;
  scaler : Scaler;
  label_encoders : list (string * LabelEncoder);
  feature_importance : list (string * list (string * Q));
  feature_names : list string;
  training_history : list (string * history_entry)
}.

(** [ConstructionDelayPredictor()]. *)
Definition __init__ : ConstructionDelayPredictor :=
  mkPredictor [] None None StandardScaler [] [] [] [].

Definition set_models v (self : ConstructionDelayPredictor) :=
  mkPredictor v (best_model self) (best_model_name self) (scaler self)
    (label_encoders self) (feature_importance self) (feature_names self)
    (training_history self).

Definition set_best_model v (self : ConstructionDelayPredictor) :=
  mkPredictor (models self) v (best_model_name self) (scaler self)
    (label_encoders self) (feature_importance self) (feature_names self)
    (training_history self).

Definition set_best_model_name v (self : ConstructionDelayPredictor) :=
  mkPredictor (models self) (best_model self) v (scaler self)
    (label_encoders self) (feature_importance self) (feature_names self)
    (training_history self).

Definition set_scaler v (self : ConstructionDelayPredictor) :=
  mkPredictor (models self) (best_model self) (best_model_name self) v
    (label_encoders self) (feature_importance self) (feature_names self)
    (training_history self).

Definition set_label_encoders v (self : ConstructionDelayPredictor) :=
  mkPredictor (models self) (best_model self) (best_model_name self)
    (scaler self) v (feature_importance self) (feature_names self)
    (training_history self).

Definition set_feature_importance v (self : ConstructionDelayPredictor) :=
  mkPredictor (models self) (best_model self) (best_model_name self)
    (scaler self) (label_encoders self) v (feature_names self)
    (training_history self).

Definition set_feature_names v (self : ConstructionDelayPredictor) :=
  mkPredictor (models self) (best_model self) (best_model_name self)
    (scaler self) (label_encoders self) (feature_importance self) v
    (training_history self).

Definition set_training_history v (self : ConstructionDelayPredictor) :=
  mkPredictor (models self) (best_model self) (best_model_name self)
    (scaler self) (label_encoders self) (feature_importance self)
    (feature_names self) v.

Definition method (A : Type) : Type := M ConstructionDelayPredictor A.

(** [series.astype(str)]. *)
Definition astype_str (c : cell) : string :=
  match c with
  | Str s => s
  | Num q => str_of_num q
  end.

Local Open Scope method_scope.

(** The loop of [load_and_preprocess_data] over the categorical columns:
    each one present in the frame gets a fresh encoder, fitted on the
    column, and is replaced by its codes. *)
Fixpoint encode_columns (cols : list string) (df : DataFrame) : method DataFrame :=
  match cols with
  | [] => ret df
  | col :: rest =>
      match lookup col df with
      | Some values =>
          let strings := map astype_str values in
          let encoder := fit_classes strings in
          modify (fun self =>
                    set_label_encoders (assign col encoder (label_encoders self)) self) ;;;
          codes <- lift (le_transform encoder strings) ;;
          encode_columns rest (assign col codes df)
      | None => encode_columns rest df
      end
  end.

Definition load_and_preprocess_data (csv_path : string)
    : method (DataFrame * Series * DataFrame) :=
  df <- lift (read_csv csv_path) ;;
  df <- encode_columns categorical_cols df ;;
  let feature_cols :=
    filter (fun col => negb (mem col ["project_id"; target_col])) (map fst df) in
  let X := filter (fun kv => mem (fst kv) feature_cols) df in
  y <- lift (getitem df target_col) ;;
  modify (set_feature_names feature_cols) ;;;
  ret (X, y, df).

Definition initialize_models : method unit :=
  modify (set_models [ ("random_forest", RandomForestRegressor);
                       ("gradient_boost", GradientBoostingRegressor) ]).

(** Insertion of [x] before the first item of smaller importance. *)
Fixpoint insert_by_importance (x : string * Q) (l : list (string * Q))
    : list (string * Q) :=
  match l with
  | [] => [x]
  | y :: rest =>
      if Qlt_bool (snd y) (snd x) then x :: l
      else y :: insert_by_importance x rest
  end.

(** [sorted(items, key=lambda x: x[1], reverse=True)]: by decreasing
    importance, equal items in their original order. *)
Definition sorted_by_importance (items : list (string * Q)) : list (string * Q) :=
  fold_right insert_by_importance [] items.

(** The scan of [min]: the best entry so far is replaced only by a
    strictly smaller one. *)
Fixpoint min_scan (best : string * history_entry)
    (rest : list (string * history_entry)) : string * history_entry :=
  match rest with
  | [] => best
  | x :: rest' =>
      min_scan (if Qlt_bool (cv_mae (scores (snd x))) (cv_mae (scores (snd best)))
                then x else best) rest'
  end.

(** [min(results.keys(), key=lambda x: results[x]['cv_mae'])]. *)
Definition min_by_cv_mae (results : list (string * history_entry))
    : result string :=
  match results with
  | [] => Raise (ValueError "min() arg is an empty sequence")
  | x :: rest => Ok (fst (min_scan x rest))
  end.

(** The loop of [train_models] over [self.models.items()]; [results] is the
    dictionary built so far. Fitting updates the model object, which the
    [models] dictionary holds. *)
Fixpoint training_loop (items : list (string * Estimator)) (s : split)
    (X_train_scaled X_test_scaled : DataFrame)
    (results : list (string * history_entry))
    : method (list (string * history_entry)) :=
  match items with
  | [] => ret results
  | (name, unfitted) :: rest =>
      let '(train_X, test_X) :=
        if mem name ["random_forest"; "gradient_boost"]
        then (X_train s, X_test s) else (X_train_scaled, X_test_scaled) in
      fitted <- lift (fit_and_score unfitted train_X test_X (y_train s) (y_test s)) ;;
      let '(fitted_model, fitted_scores, test_pred) := fitted in
      modify (fun self => set_models (assign name fitted_model (models self)) self) ;;;
      let results :=
        assign name (mkEntry fitted_model fitted_scores test_pred (y_test s)) results in
      match feature_importances_ fitted_model with
      | Some importances =>
          modify (fun self =>
            let importance_dict :=
              dict_of (combine (feature_names self) importances) in
            set_feature_importance
              (assign name (sorted_by_importance importance_dict)
                      (feature_importance self)) self)
      | None => ret tt
      end ;;;
      training_loop rest s X_train_scaled X_test_scaled results
  end.

Definition train_models (X : DataFrame) (y : Series)
    : method (list (string * history_entry)) :=
  s <- lift (train_test_split X y) ;;
  old_scaler <- gets scaler ;;
  fitted <- lift (fit_transform old_scaler (X_train s)) ;;
  let '(fitted_scaler, X_train_scaled) := fitted in
  modify (set_scaler fitted_scaler) ;;;
  X_test_scaled <- lift (transform fitted_scaler (X_test s)) ;;
  items <- gets models ;;
  results <- training_loop items s X_train_scaled X_test_scaled [] ;;
  best_name <- lift (min_by_cv_mae results) ;;
  best <- lift (getitem results best_name) ;;
  modify (set_best_model (Some (model best))) ;;;
  modify (set_best_model_name (Some best_name)) ;;;
  modify (set_training_history results) ;;;
  ret results.

(** [save_model]: the pickle goes to the file system. *)
Definition save_model (filepath : string) : method unit :=
  lift (joblib_dump filepath).

(** *** [predict_delay] *)

Record delay_prediction : Type := mkDelayPrediction {
  predicted_delay_days : Q;
  confidence_interval : Q * Q;
  confidence_percentage : Q;
  model_used : option string;
  model_mae : Q;
  top_feature_importance : list (string * Q)
}.

(** [d[key]] for a key that may be [None]. *)
Definition getitem_opt {A : Type} (d : list (string * A)) (key : option string)
    : result A :=
  match key with
  | Some k => getitem d k
  | None => Raise (KeyError "None")
  end.

(** [classes_[0]]. *)
Definition first_class (classes_ : LabelEncoder) : result string :=
  match classes_ with
  | c :: _ => Ok c
  | [] => Raise (IndexError "index 0 is out of bounds for axis 0 with size 0")
  end.

(** The encoding of one categorical value of the project, with the
    fallback of the [except ValueError] branch. *)
Definition encode_value (classes_ : LabelEncoder) (v : cell) : result cell :=
  match le_transform classes_ [astype_str v] with
  | Ok codes => Ok (hd v codes)
  | Raise (ValueError _) =>
      Py.bind (first_class classes_) (fun most_frequent =>
      let replaced :=
        match v with
        | Str s => if mem s classes_ then v else Str most_frequent
        | Num _ => Str most_frequent
        end in
      Py.bind (le_transform classes_ [astype_str replaced]) (fun codes =>
      Ok (hd replaced codes)))
  | Raise e => Raise e
  end.

(** The loop of [predict_delay] over the categorical columns. *)
Fixpoint encode_record (cols : list string)
    (encoders : list (string * LabelEncoder)) (df : record) : result record :=
  match cols with
  | [] => Ok df
  | col :: rest =>
      match lookup col df, lookup col encoders with
      | Some v, Some classes_ =>
          Py.bind (encode_value classes_ v) (fun code =>
          encode_record rest encoders (assign col code df))
      | _, _ => encode_record rest encoders df
      end
  end.

(** The default of the features that the project lacks. *)
Definition fill_missing (names : list string) (df : record) : record :=
  fold_left (fun d name => if mem name (map fst d) then d else assign name (Num 0) d)
            names df.

Definition to_float (c : cell) : result Q :=
  match c with
  | Num q => Ok q
  | Str s => Raise (ValueError "could not convert string to float")
  end.

(** [df[self.feature_names]], as the row that the model receives. *)
Fixpoint select_row (names : list string) (df : record) : result (list Q) :=
  match names with
  | [] => Ok []
  | name :: rest =>
      Py.bind (getitem df name) (fun c =>
      Py.bind (to_float c) (fun q =>
      Py.bind (select_row rest df) (fun qs => Ok (q :: qs))))
  end.

Definition not_trained : string := "Model not trained yet. Call train_models() first.".

Definition predict_delay (project_features : record) : method delay_prediction :=
  trained <- gets best_model ;;
  match trained with
  | None => lift (Raise (ValueError not_trained))
  | Some best =>
      encoders <- gets label_encoders ;;
      df <- lift (encode_record categorical_cols encoders project_features) ;;
      names <- gets feature_names ;;
      let df := fill_missing names df in
      row <- lift (select_row names df) ;;
      name <- gets best_model_name ;;
      prediction <-
        (if match name with
            | Some n => mem n ["random_forest"; "gradient_boost"]
            | None => false
            end
         then lift (predict best row)
         else
           sc <- gets scaler ;;
           df_scaled <- lift (transform_row sc row) ;;
           lift (predict best df_scaled)) ;;
      history <- gets training_history ;;
      entry <- lift (getitem_opt history name) ;;
      let model_mae := cv_mae (scores entry) in
      let confidence_interval :=
        (py_max 0 (prediction - model_mae), prediction + model_mae) in
      let confidence_pct :=
        py_max 60 (py_min 95 (100 - (model_mae / py_max 1 prediction) * 100)) in
      importance <- gets feature_importance ;;
      ranked <- lift (getitem_opt importance name) ;;
      ret {| predicted_delay_days := py_max 0 (py_round prediction 1);
             confidence_interval :=
               (py_round (fst confidence_interval) 1,
                py_round (snd confidence_interval) 1);
             confidence_percentage := py_round confidence_pct 1;
             model_used := name;
             model_mae := py_round model_mae 2;
             top_feature_importance := dict_of (slice_to 10 ranked) |}
  end.

End Predictor.

End DelayPredictor.

(** ** The training-side HTTP handlers ([ml_training/ml_api.py]) *)

Module TrainingApi.

Import Method DelayPredictor.

(** The JSON body of [/retrain]. *)
Record retrain_params : Type := mkRetrainParams {
  dataset_path : option string
}.

(** The value under ['projects'] in the body of [/batch-predict]. *)
Inductive projects_value : Type :=
| NotAList
| Projects (l : list record).

Record batch_payload : Type := mkBatchPayload {
  projects : option projects_value
}.

(** A request; a JSON body is what [request.json] does on it, [Ok None]
    when it evaluates to [None]. *)
Inductive request : Type :=
| GetHealth
| PostPredictDelay (json : result (option record))
| GetModelInfo
| PostRetrain (json : result (option retrain_params))
| GetFeatureImportance (top_n : Z)
| PostBatchPredict (json : result (option batch_payload))
| UnknownRoute.

Inductive batch_entry : Type :=
| Predicted (project_index : Z) (project_id : cell) (prediction : delay_prediction)
| Failed (project_index : Z) (project_id : cell) (error : string).

Inductive body : Type :=
| ErrorBody (error : string)
| FailureBody (error : string)
| HealthBody (model_loaded : bool) (model_name : option string)
| PredictionBody (prediction : delay_prediction)
| ModelInfoBody (model_name : option string) (feature_count : Z)
    (features : list string) (top_features : option (list (string * Q)))
| RetrainBody (results : list (string * (Q * Q * Q))) (best_model : option string)
| FeatureImportanceBody (model_name : option string)
    (feature_importance : list (string * Q))
| BatchBody (predictions : list batch_entry) (total_projects : Z)
    (successful_predictions : Z).

Record response : Type := mkResponse {
  status : Z;
  json : body
}.

Section Api.

Context {lib : Library}.

(** A handler reads the global [predictor], [None] when initialisation
    failed, and may update the object it holds. *)
Definition handler : Type :=
  option ConstructionDelayPredictor -> response * option ConstructionDelayPredictor.

Definition not_initialized (msg : string) : response := mkResponse 500 (ErrorBody msg).

(** A [try] block run on the predictor object, under an [except Exception]
    that answers with [on_error]. *)
Definition try_except (self : ConstructionDelayPredictor) (block : method response)
    (on_error : exn -> response) : response * option ConstructionDelayPredictor :=
  match block self with
  | (Ok r, self') => (r, Some self')
  | (Raise e, self') => (on_error e, Some self')
  end.

Definition failure (e : exn) : response := mkResponse 500 (FailureBody (str_of_exn e)).

Definition error_500 (e : exn) : response := mkResponse 500 (ErrorBody (str_of_exn e)).

Local Open Scope method_scope.

Definition health_check : handler := fun predictor =>
  (mkResponse 200
     (HealthBody (match predictor with Some _ => true | None => false end)
                 (match predictor with
                  | Some self => best_model_name self
                  | None => None
                  end)),
   predictor).

(** The [timestamp] of the success body is left out. *)
Definition predict_delay (json : result (option record)) : handler := fun predictor =>
  match predictor with
  | None => (not_initialized "ML model not initialized", predictor)
  | Some self =>
      try_except self
        (project_data <- lift json ;;
         match project_data with
         | None | Some [] =>
             ret (mkResponse 400 (ErrorBody "No project data provided"))
         | Some project =>
             prediction <- DelayPredictor.predict_delay project ;;
             ret (mkResponse 200 (PredictionBody prediction))
         end)
        failure
  end.

Definition not_serializable : string :=
  "Object of type RandomForestRegressor is not JSON serializable".

(** [jsonify] of the training history: its entries hold estimator
    objects. *)
Definition jsonify_history (history : list (string * history_entry)) : result unit :=
  match history with
  | [] => Ok tt
  | _ :: _ => Raise (TypeError not_serializable)
  end.

Definition model_info : handler := fun predictor =>
  match predictor with
  | None => (not_initialized "ML model not initialized", predictor)
  | Some self =>
      try_except self
        (name <- gets best_model_name ;;
         names <- gets feature_names ;;
         history <- gets training_history ;;
         importance <- gets feature_importance ;;
         let top_features :=
           match name with
           | Some n =>
               match lookup n importance with
               | Some ranked => Some (dict_of (slice_to 10 ranked))
               | None => None
               end
           | None => None
           end in
         lift (jsonify_history history) ;;;
         ret (mkResponse 200
                (ModelInfoBody name (Z.of_nat (List.length names)) names top_features)))
        error_500
  end.

Definition default_dataset : string := "construction_delay_dataset.csv".

Definition model_file : string := "construction_delay_model.pkl".

Definition retrain_model (json : result (option retrain_params)) : handler :=
  fun predictor =>
  match predictor with
  | None => (not_initialized "ML predictor not initialized", predictor)
  | Some self =>
      try_except self
        (params <- lift json ;;
         let path :=
           match params with
           | Some p =>
               match dataset_path p with
               | Some path => path
               | None => default_dataset
               end
           | None => default_dataset
           end in
         if negb (path_exists path) then
           ret (mkResponse 400 (ErrorBody ("Dataset file not found: " ++ path)))
         else
           loaded <- load_and_preprocess_data path ;;
           let '(X, y, _) := loaded in
           initialize_models ;;;
           results <- train_models X y ;;
           save_model model_file ;;;
           best <- gets best_model_name ;;
           ret (mkResponse 200
                  (RetrainBody
                     (map (fun kv =>
                             (fst kv,
                              (cv_mae (scores (snd kv)), test_mae (scores (snd kv)),
                               test_r2 (scores (snd kv)))))
                          results)
                     best)))
        failure
  end.

Definition get_feature_importance (top_n : Z) : handler := fun predictor =>
  match predictor with
  | None => (not_initialized "ML model not initialized", predictor)
  | Some self =>
      try_except self
        (name <- gets best_model_name ;;
         importance <- gets feature_importance ;;
         match name with
         | Some n =>
             match lookup n importance with
             | Some ranked =>
                 ret (mkResponse 200 (FeatureImportanceBody name (slice_to top_n ranked)))
             | None =>
                 ret (mkResponse 400 (ErrorBody "Feature importance not available"))
             end
         | None => ret (mkResponse 400 (ErrorBody "Feature importance not available"))
         end)
        error_500
  end.

(** [project.get('project_id', f'project_{i}')]. *)
Definition project_id (project : record) (i : Z) : cell :=
  match lookup "project_id" project with
  | Some id => id
  | None => Str ("project_" ++ NilZero.string_of_int (Z.to_int i))
  end.

(** The loop of [batch_predict], each project under its own [try]. *)
Fixpoint batch_loop (l : list record) (i : Z) : method (list batch_entry) :=
  match l with
  | [] => ret []
  | project :: rest =>
      entry <- (fun self =>
                  match DelayPredictor.predict_delay project self with
                  | (Ok prediction, self') =>
                      (Ok (Predicted i (project_id project i) prediction), self')
                  | (Raise e, self') =>
                      (Ok (Failed i (project_id project i) (str_of_exn e)), self')
                  end) ;;
      entries <- batch_loop rest (i + 1)%Z ;;
      ret (entry :: entries)
  end.

Definition is_predicted (e : batch_entry) : bool :=
  match e with
  | Predicted _ _ _ => true
  | Failed _ _ _ => false
  end.

Definition batch_predict (json : result (option batch_payload)) : handler :=
  fun predictor =>
  match predictor with
  | None => (not_initialized "ML model not initialized", predictor)
  | Some self =>
      try_except self
        (batch_data <- lift json ;;
         match batch_data with
         | None => ret (mkResponse 400 (ErrorBody "No projects data provided"))
         | Some data =>
             match projects data with
             | None => ret (mkResponse 400 (ErrorBody "No projects data provided"))
             | Some NotAList => ret (mkResponse 400 (ErrorBody "Projects must be a list"))
             | Some (Projects l) =>
                 entries <- batch_loop l 0 ;;
                 ret (mkResponse 200
                        (BatchBody entries (Z.of_nat (List.length l))
                           (Z.of_nat (List.length (filter is_predicted entries)))))
             end
         end)
        error_500
  end.

Definition not_found : handler := fun predictor =>
  (mkResponse 404 (ErrorBody "Endpoint not found"), predictor).

(** The dispatch of a request to its route. *)
Definition handle (req : request) : handler :=
  match req with
  | GetHealth => health_check
  | PostPredictDelay json => predict_delay json
  | GetModelInfo => model_info
  | PostRetrain json => retrain_model json
  | GetFeatureImportance top_n => get_feature_importance top_n
  | PostBatchPredict json => batch_predict json
  | UnknownRoute => not_found
  end.

(** The requests other than [POST /retrain]. *)
Definition is_retrain (req : request) : bool :=
  match req with
  | PostRetrain _ => true
  | _ => false
  end.

End Api.

End TrainingApi.

(** ** Sample inputs *)

Module Examples.

Import MlApi.

Definition no_project : project_data :=
  mkProject None None None None None None None None.

(** One listed worker and a budget of minus ten million. *)
Definition negative_budget_project : project_data :=
  mkProject None None None (Some ["mason"]) None None (Some (-10000000)) None.

(** A project that starts and ends on the same day. *)
Definition zero_duration_project : project_data :=
  mkProject (Some 45) (Some "2024-01-01") (Some "2024-01-01")
            None None None (Some 5000000) (Some "Delhi").

(** The project of the handler's docstring, half done. *)
Definition year_project : project_data :=
  mkProject (Some 50) (Some "2024-01-01") (Some "2024-12-31")
            (Some ["mason"; "welder"]) (Some ["cement"]) None
            (Some 5000000) (Some "Delhi").

Definition mumbai_project : project_data :=
  mkProject None None None None None None None (Some "Navi MUMBAI").

(** A clock that reads midnight UTC of the given day, in a UTC locale. *)
Definition clock_at (y m d : Z) : clock := mkClock (IsoDate.midnight y m d) 0.

(** A square root to six decimals, rounded down. *)
Definition sqrt_micro (q : Q) : Q :=
  Qmake (Z.sqrt (Qfloor (q * 1000000000000))) 1000000.

(** A forest of two trees that predict -4 and -6 on every row. *)
Definition negative_forest : TrainModel.RandomForestRegressor :=
  TrainModel.mkForest (fun _ => -5) [fun _ => -4; fun _ => -6].

(** A forest of two trees that predict 10 and 14 days on every row. *)
Definition steady_forest : TrainModel.RandomForestRegressor :=
  TrainModel.mkForest (fun _ => 12) [fun _ => 10; fun _ => 14].

(** A boosting model whose three stages predict 900, 1000 and 1100. *)
Definition steady_boosting : TrainModel.GradientBoostingRegressor :=
  TrainModel.mkBoosting (fun _ => 1100) (fun _ => [900; 1000; 1100]).

(** A scaler fitted on features of mean 0.5 and standard deviation 0.2. *)
Definition centred_scaler : TrainModel.StandardScaler :=
  TrainModel.mkScaler [0.5; 0.5; 0.5; 0.5; 0.5] [0.2; 0.2; 0.2; 0.2; 0.2].

Definition steady_predictor : TrainModel.ConstructionDelayPredictor :=
  TrainModel.mkPredictor (Some steady_forest) (Some steady_boosting) centred_scaler.

(** Five engineered features in the middle of the unit interval. *)
Definition middle_features : features := mkFeatures 0.5 0.5 0.5 0.5 0.5.

(** A library whose regressors are constants: an estimator is the number
    it predicts, fitting keeps it, and the only file is a data set of two
    projects. *)
Definition toy_dataset : DelayPredictor.DataFrame :=
  [ ("project_id", [DelayPredictor.Str "P1"; DelayPredictor.Str "P2"]);
    ("crew_size", [DelayPredictor.Num 12; DelayPredictor.Num 30]);
    ("actual_delay_days", [DelayPredictor.Num 4; DelayPredictor.Num 9]) ].

Definition toy_metrics : DelayPredictor.metrics :=
  DelayPredictor.mkMetrics 1 2 1 2 0.9 0.8 3 0.5.

Definition toy_library : DelayPredictor.Library :=
  {| DelayPredictor.Estimator := Q;
     DelayPredictor.Scaler := unit;
     DelayPredictor.StandardScaler := tt;
     DelayPredictor.RandomForestRegressor := 7;
     DelayPredictor.GradientBoostingRegressor := 8;
     DelayPredictor.str_of_num := fun _ => "0";
     DelayPredictor.read_csv := fun path =>
       if String.eqb path TrainingApi.default_dataset then Ok toy_dataset
       else Raise (ValueError "No such file");
     DelayPredictor.path_exists := fun path =>
       String.eqb path TrainingApi.default_dataset;
     DelayPredictor.joblib_dump := fun _ => Ok tt;
     DelayPredictor.train_test_split := fun X y =>
       Ok (DelayPredictor.mkSplit X X y y);
     DelayPredictor.fit_transform := fun sc X => Ok (sc, X);
     DelayPredictor.transform := fun _ X => Ok X;
     DelayPredictor.transform_row := fun _ row => Ok row;
     DelayPredictor.fit_and_score := fun est _ _ _ _ => Ok (est, toy_metrics, []);
     DelayPredictor.feature_importances_ := fun _ => Some [1];
     DelayPredictor.predict := fun est _ => Ok est |}.

(** A predictor as loaded at startup: a forest that predicts -3 days, with a
    cross-validated error of 3 days, trained on the feature [budget]. *)
Definition loaded_predictor
    : @DelayPredictor.ConstructionDelayPredictor toy_library :=
  @DelayPredictor.mkPredictor toy_library
    [] (Some (-3)) (Some "random_forest") tt [] [("random_forest", [("budget", 1)])]
    ["budget"]
    [("random_forest",
      @DelayPredictor.mkEntry toy_library (-3) toy_metrics [] [])].

Definition toy_project : DelayPredictor.record :=
  [ ("project_id", DelayPredictor.Str "P7"); ("budget", DelayPredictor.Num 5000000) ].

End Examples.

(** ** The other routes of [ml_system/ml_api.py] *)

Module MlApiRoutes.

Import MlApi.

(** The empty dictionary [{}] as a project. *)
Definition empty_project : project_data :=
  mkProject None None None None None None None None.

(** A project of a batch: its ['id'] and the keys that the feature
    extraction reads. *)
Record batch_project : Type := mkBatchProject {
  id : option string;
  fields : project_data
}.

Record batch_payload : Type := mkBatchPayload {
  projects : option (list batch_project)
}.

Record batch_request : Type := mkBatchRequest {
  batch_json : result (option batch_payload)
}.

Record batch_entry : Type := mkBatchEntry {
  project_id : string;
  delay_days : Q;
  additional_cost_usd : Q;
  confidence : Z
}.

(** The values that [explain_features] prints into its
    [calculation_details] strings. *)
Record calculation_details : Type := mkDetails {
  shown_progress : Q;
  shown_resources : Z * Z * Z;
  shown_budget : Q;
  shown_location : string
}.

Inductive body : Type :=
| HealthBody (models_loaded : bool)
| ErrorBody (error : string)
| FailureBody (error : string)
| BatchBody (predictions : list batch_entry) (total_projects : Z)
| ExplainBody (features : features) (details : calculation_details).

Record response : Type := mkResponse {
  status : Z;
  json : body
}.

Definition no_get : string := "'NoneType' object has no attribute 'get'".

Section Routes.

Variable fromisoformat : string -> result datetime.
Variable sqrt : Q -> Q.
Variable predictor : TrainModel.ConstructionDelayPredictor.
Variable clk : clock.

Definition health_check : response :=
  mkResponse 200
    (HealthBody (match TrainModel.delay_model predictor with
                 | Some _ => true
                 | None => false
                 end)).

(** The loop of [predict_batch]; [predictions] is the list built so far. *)
Fixpoint batch_loop (l : list batch_project) (predictions : list batch_entry)
    : result (list batch_entry) :=
  match l with
  | [] => Ok predictions
  | project :: rest =>
      features <- extract_features_from_project fromisoformat clk (fields project) ;;
      prediction <- TrainModel.predict sqrt predictor (TrainModel.FeatureDict features) ;;
      batch_loop rest
        (predictions ++
         [ {| project_id := get (id project) "unknown";
              delay_days := py_round (TrainModel.predicted_delay_days prediction) 1;
              additional_cost_usd :=
                py_round (TrainModel.predicted_additional_cost prediction) 2;
              confidence := TrainModel.model_confidence prediction |} ])
  end.

(** One iteration of that loop on its own: the entry of one project. *)
Definition project_entry (project : batch_project) : result batch_entry :=
  features <- extract_features_from_project fromisoformat clk (fields project) ;;
  prediction <- TrainModel.predict sqrt predictor (TrainModel.FeatureDict features) ;;
  Ok {| project_id := get (id project) "unknown";
        delay_days := py_round (TrainModel.predicted_delay_days prediction) 1;
        additional_cost_usd :=
          py_round (TrainModel.predicted_additional_cost prediction) 2;
        confidence := TrainModel.model_confidence prediction |}.

Definition predict_batch_try (req : batch_request) : result response :=
  data <- batch_json req ;;
  match data with
  | None => Ok (mkResponse 400 (ErrorBody "Projects array required"))
  | Some d =>
      match projects d with
      | None => Ok (mkResponse 400 (ErrorBody "Projects array required"))
      | Some l =>
          predictions <- batch_loop l [] ;;
          Ok (mkResponse 200 (BatchBody predictions (len predictions)))
      end
  end.

Definition predict_batch (req : batch_request) : response :=
  match predict_batch_try req with
  | Ok r => r
  | Raise e => mkResponse 500 (FailureBody (str_of_exn e))
  end.

(** [explain_features]; [data.get] on [None] raises inside the [try]. *)
Definition explain_features (req : request) : response :=
  match get_json req with
  | Raise e => mkResponse 500 (ErrorBody (str_of_exn e))
  | Ok None => mkResponse 500 (ErrorBody no_get)
  | Ok (Some data) =>
      let project_data := get (project data) empty_project in
      match extract_features_from_project fromisoformat clk project_data with
      | Raise e => mkResponse 500 (ErrorBody (str_of_exn e))
      | Ok features =>
          mkResponse 200
            (ExplainBody features
               {| shown_progress := get (currentProgress project_data) 0;
                  shown_resources :=
                    (len (get (humanResources project_data) []),
                     len (get (materials project_data) []),
                     len (get (equipment project_data) []));
                  shown_budget := get (totalBudget project_data) 0;
                  shown_location := get (location project_data) "Unknown" |})
      end
  end.

End Routes.

End MlApiRoutes.

(** ** Saving and loading the model ([ml_training/delay_predictor.py]) *)

Module ModelFile.

Import Method.

Section File.

Context {lib : DelayPredictor.Library}.

(** The dictionary that [save_model] pickles, its time stamp left out. *)
Record model_data : Type := mkModelData {
  best_model : option DelayPredictor.Estimator;
  best_model_name : option string;
  scaler : DelayPredictor.Scaler;
  label_encoders : list (string * DelayPredictor.LabelEncoder);
  feature_names : list string;
  feature_importance : list (string * list (string * Q));
  training_history : list (string * DelayPredictor.history_entry)
}.

(** The [model_data] that [save_model] builds from the predictor. *)
Definition model_data_of (self : DelayPredictor.ConstructionDelayPredictor)
    : model_data :=
  {| best_model := DelayPredictor.best_model self;
     best_model_name := DelayPredictor.best_model_name self;
     scaler := DelayPredictor.scaler self;
     label_encoders := DelayPredictor.label_encoders self;
     feature_names := DelayPredictor.feature_names self;
     feature_importance := DelayPredictor.feature_importance self;
     training_history := DelayPredictor.training_history self |}.

Local Open Scope method_scope.

(** [load_model]; [joblib_load] is what [joblib.load] yields for a path. *)
Definition load_model (joblib_load : string -> result model_data)
    (filepath : string) : DelayPredictor.method unit :=
  data <- lift (joblib_load filepath) ;;
  modify (DelayPredictor.set_best_model (best_model data)) ;;;
  modify (DelayPredictor.set_best_model_name (best_model_name data)) ;;;
  modify (DelayPredictor.set_scaler (scaler data)) ;;;
  modify (DelayPredictor.set_label_encoders (label_encoders data)) ;;;
  modify (DelayPredictor.set_feature_names (feature_names data)) ;;;
  modify (DelayPredictor.set_feature_importance (feature_importance data)) ;;;
  modify (DelayPredictor.set_training_history (training_history data)).

End File.

End ModelFile.

(** ** The dataset generator ([ml_system/realistic_dataset_generator.py]) *)

Module RealisticDataset.

Local Open Scope result_scope.

Record type_data : Type := mkTypeData {
  avg_budget : Q;
  avg_duration : Q;
  complexity_factor : Q;
  weather_sensitivity : Q
}.

Record location_data : Type := mkLocationData {
  weather_risk : Q;
  labor_availability : Q;
  material_cost_factor : Q
}.

Definition project_types : list (string * type_data) :=
  [ ("residential_building", mkTypeData 2500000 180 1.0 0.7);
    ("commercial_building", mkTypeData 8500000 365 1.5 0.6);
    ("highway_construction", mkTypeData 15000000 540 2.0 0.9);
    ("bridge_construction", mkTypeData 25000000 720 2.5 0.8);
    ("industrial_facility", mkTypeData 45000000 900 3.0 0.5) ].

Definition locations : list (string * location_data) :=
  [ ("Delhi", mkLocationData 0.8 0.9 1.0);
    ("Mumbai", mkLocationData 0.9 0.8 1.1);
    ("Bangalore", mkLocationData 0.6 0.9 1.05);
    ("Chennai", mkLocationData 0.8 0.8 1.0);
    ("Kolkata", mkLocationData 0.9 0.7 0.95);
    ("Hyderabad", mkLocationData 0.7 0.8 1.0);
    ("Pune", mkLocationData 0.7 0.9 1.05);
    ("Ahmedabad", mkLocationData 0.8 0.8 0.98) ].

(** What the calls of [random] return in one iteration of the loop, in the
    order of the calls. *)
Record draws : Type := mkDraws {
  chosen_type : string;            (* random.choice(list(project_types.keys())) *)
  chosen_location : string;        (* random.choice(list(locations.keys())) *)
  budget_draw : Q;                 (* random.uniform(0.7, 1.5) *)
  duration_draw : Q;               (* random.uniform(0.8, 1.3) *)
  efficiency_draw : Q;             (* random.uniform(0.6, 1.0) *)
  material_draw : Q;               (* random.uniform(0.7, 1.0) *)
  equipment_draw : Q;              (* random.uniform(0.6, 0.95) *)
  complexity_draw : Q;             (* random.uniform(0.5, 1.0) *)
  seasonal_draw : Q;               (* random.uniform(0.5, 1.0) *)
  progress_draw : Q;               (* random.uniform(0.1, 0.9) *)
  elapsed_draw : Q;                (* random.uniform(0.1, 0.8) *)
  factor_draw : Q                  (* random.uniform(0.7, 1.4) *)
}.

Definition between (a b x : Q) : Prop := a <= x /\ x <= b.

(** The draws are values that [random.choice] and [random.uniform] can
    return for the arguments of the calls. *)
Definition possible (d : draws) : Prop :=
  In (chosen_type d) (map fst project_types) /\
  In (chosen_location d) (map fst locations) /\
  between 0.7 1.5 (budget_draw d) /\
  between 0.8 1.3 (duration_draw d) /\
  between 0.6 1.0 (efficiency_draw d) /\
  between 0.7 1.0 (material_draw d) /\
  between 0.6 0.95 (equipment_draw d) /\
  between 0.5 1.0 (complexity_draw d) /\
  between 0.5 1.0 (seasonal_draw d) /\
  between 0.1 0.9 (progress_draw d) /\
  between 0.1 0.8 (elapsed_draw d) /\
  between 0.7 1.4 (factor_draw d).

(** [a / b] on floats. *)
Definition float_div (a b : Q) : result Q :=
  if Qeq_bool b 0 then Raise ZeroDivisionError else Ok (a / b).

(** [f'{n:04d}'] for a natural number. *)
Definition format_04d (n : nat) : string :=
  let digits := NilZero.string_of_uint (Nat.to_uint n) in
  (string_of_list_ascii (List.repeat "0"%char (4 - String.length digits))
   ++ digits)%string.

Record project : Type := mkProject {
  project_id : string;
  project_type : string;
  location : string;
  budget : Q;
  planned_duration_days : Z;
  current_progress_pct : Q;
  time_elapsed_pct : Q;
  progress_efficiency : Q;
  resource_availability : Q;
  project_complexity : Q;
  weather_impact : Q;
  timeline_pressure : Q;
  delay_days : Q;
  additional_cost_usd : Q;
  progress_variance : Q;
  row_labor_availability : Q;
  weather_risk_location : Q;
  row_material_cost_factor : Q
}.

(** The body of the loop, for the iteration [i] and its draws. *)
Definition generate_project (i : nat) (d : draws) : result project :=
  let project_type := chosen_type d in
  let location := chosen_location d in
  type_data <- DelayPredictor.getitem project_types project_type ;;
  location_data <- DelayPredictor.getitem locations location ;;
  let budget := avg_budget type_data * budget_draw d in
  let planned_duration := avg_duration type_data * duration_draw d in
  let base_efficiency := efficiency_draw d in
  let progress_efficiency := base_efficiency * labor_availability location_data in
  let resource_availability :=
    labor_availability location_data * 0.4 +
    material_draw d * 0.3 +
    equipment_draw d * 0.3 in
  let budget_complexity := py_min 1 (budget / 50000000) in
  let project_complexity :=
    (complexity_factor type_data * 0.4 +
     budget_complexity * 0.3 +
     complexity_draw d * 0.3) / 3 in
  let seasonal_factor := seasonal_draw d in
  let weather_impact :=
    (weather_risk location_data * 0.6 +
     weather_sensitivity type_data * 0.4) * seasonal_factor in
  let current_progress := progress_draw d in
  let time_elapsed := elapsed_draw d in
  let expected_progress := time_elapsed in
  let progress_variance := current_progress - expected_progress in
  let timeline_pressure :=
    py_max 0 (- progress_variance) + (if Qlt_bool 0.7 time_elapsed then 0.3 else 0) in
  let timeline_pressure := py_min 1 timeline_pressure in
  let base_delay :=
    0 + py_max 0 (1 - progress_efficiency) * 30
      + py_max 0 (1 - resource_availability) * 25
      + project_complexity * 20
      + weather_impact * 15
      + timeline_pressure * 10 in
  let random_factor := factor_draw d in
  let actual_delay := py_max 0 (base_delay * random_factor) in
  let max_reasonable_delay := planned_duration * 0.5 in
  let actual_delay := py_min actual_delay max_reasonable_delay in
  daily_cost <- float_div budget planned_duration ;;
  let cost_escalation_rate := 1.2 in
  let additional_cost := actual_delay * daily_cost * cost_escalation_rate in
  Ok {| project_id := ("PROJ_" ++ format_04d (i + 1))%string;
        project_type := project_type;
        location := location;
        budget := py_round budget 2;
        planned_duration_days := round_half_even planned_duration;
        current_progress_pct := py_round (current_progress * 100) 1;
        time_elapsed_pct := py_round (time_elapsed * 100) 1;
        progress_efficiency := py_round progress_efficiency 3;
        resource_availability := py_round resource_availability 3;
        project_complexity := py_round project_complexity 3;
        weather_impact := py_round weather_impact 3;
        timeline_pressure := py_round timeline_pressure 3;
        delay_days := py_round actual_delay 1;
        additional_cost_usd := py_round additional_cost 2;
        progress_variance := py_round progress_variance 3;
        row_labor_availability := labor_availability location_data;
        weather_risk_location := weather_risk location_data;
        row_material_cost_factor := material_cost_factor location_data |}.

(** The loop [for i in range(num_projects)], from the iteration [i] on, with
    the rows appended so far; [rng i] holds the draws of the iteration [i]. *)
Fixpoint generate_loop (rng : nat -> draws) (remaining i : nat)
    (projects : list project) : result (list project) :=
  match remaining with
  | O => Ok projects
  | S remaining' =>
      row <- generate_project i (rng i) ;;
      generate_loop rng remaining' (S i) (projects ++ [row])
  end.

(** The rows of the data frame that the generator returns. *)
Definition generate_realistic_construction_dataset (rng : nat -> draws)
    (num_projects : nat) : result (list project) :=
  generate_loop rng num_projects 0 [].

End RealisticDataset.

Module MoreExamples.

Import MlApi.

(** Twenty listed workers and a budget of sixty million. *)
Definition large_project : project_data :=
  mkProject (Some 10) None None (Some (List.repeat "mason" 20)) None None
            (Some 60000000) (Some "Pune").

(** The year project, nine tenths done. *)
Definition advanced_project : project_data :=
  mkProject (Some 90) (Some "2024-01-01") (Some "2024-12-31")
            (Some ["mason"; "welder"]) (Some ["cement"]) None
            (Some 5000000) (Some "Delhi").

(** A batch of two projects, the second of zero duration. *)
Definition mixed_batch : list MlApiRoutes.batch_project :=
  [ MlApiRoutes.mkBatchProject (Some "A-1") Examples.year_project;
    MlApiRoutes.mkBatchProject None Examples.zero_duration_project ].

(** The loaded predictor once [initialize_models] has run. *)
Definition initialized_predictor
    : @DelayPredictor.ConstructionDelayPredictor Examples.toy_library :=
  @DelayPredictor.set_models Examples.toy_library
    [("random_forest", 7); ("gradient_boost", 8)] Examples.loaded_predictor.

Definition crew_frame : DelayPredictor.DataFrame :=
  [("crew_size", [DelayPredictor.Num 12; DelayPredictor.Num 30])].

Definition crew_delays : DelayPredictor.Series :=
  [DelayPredictor.Num 4; DelayPredictor.Num 9].

(** A residential project in Pune with every uniform draw at its lower end. *)
Definition low_draws : RealisticDataset.draws :=
  RealisticDataset.mkDraws "residential_building" "Pune"
    0.7 0.8 0.6 0.7 0.6 0.5 0.5 0.1 0.1 0.7.

(** A bridge in Kolkata, behind schedule, with a large random factor. *)
Definition late_draws : RealisticDataset.draws :=
  RealisticDataset.mkDraws "bridge_construction" "Kolkata"
    1.5 1.3 0.6 0.7 0.6 1.0 1.0 0.1 0.8 1.4.

(** The generator's randomness: [low_draws] at even iterations,
    [late_draws] at odd ones. *)
Definition alternating (i : nat) : RealisticDataset.draws :=
  if Nat.even i then low_draws else late_draws.

End MoreExamples.

(** * Properties *)

(** ** Arithmetic of the Python primitives *)

(** Inversion of [bind c k = Ok r]: [c] returned a value. *)
Tactic Notation "bind_inv" hyp(H) "as" simple_intropattern(pat) ident(E) :=
  match type of H with
  | bind ?c _ = Ok _ =>
      destruct c as [pat |] eqn:E; cbn [bind] in H; [| discriminate H]
  end.

Ltac bind_inv_all H :=
  repeat match type of H with
         | bind ?c _ = Ok _ =>
             let E := fresh "E" in
             destruct c as [? |] eqn:E; cbn [bind] in H; [| discriminate H]
         end.

Section PyFacts.

Lemma Ok_inj (A : Type) (a b : A) : Ok a = Ok b -> a = b.
Proof. congruence. Qed.

Lemma Qlt_bool_true (a b : Q) : Qlt_bool a b = true -> a < b.
Proof.
  unfold Qlt_bool. intros H. apply negb_true_iff in H.
  apply Qnot_le_lt. intros Hle. apply Qle_bool_iff in Hle. congruence.
Qed.

Lemma Qlt_bool_false (a b : Q) : Qlt_bool a b = false -> b <= a.
Proof.
  unfold Qlt_bool. intros H. apply negb_false_iff in H.
  now apply Qle_bool_iff.
Qed.

Lemma py_max_lower_l (a b : Q) : a <= py_max a b.
Proof.
  unfold py_max. destruct (Qlt_bool a b) eqn:E.
  - apply Qlt_le_weak. now apply Qlt_bool_true.
  - apply Qle_refl.
Qed.

Lemma py_max_lower_r (a b : Q) : b <= py_max a b.
Proof.
  unfold py_max. destruct (Qlt_bool a b) eqn:E.
  - apply Qle_refl.
  - now apply Qlt_bool_false.
Qed.

Lemma py_max_upper (a b c : Q) : a <= c -> b <= c -> py_max a b <= c.
Proof. unfold py_max. now destruct (Qlt_bool a b). Qed.

Lemma py_min_upper_l (a b : Q) : py_min a b <= a.
Proof.
  unfold py_min. destruct (Qlt_bool b a) eqn:E.
  - apply Qlt_le_weak. now apply Qlt_bool_true.
  - apply Qle_refl.
Qed.

Lemma py_min_upper_r (a b : Q) : py_min a b <= b.
Proof.
  unfold py_min. destruct (Qlt_bool b a) eqn:E.
  - apply Qle_refl.
  - now apply Qlt_bool_false.
Qed.

Lemma py_min_lower (a b c : Q) : c <= a -> c <= b -> c <= py_min a b.
Proof. unfold py_min. now destruct (Qlt_bool b a). Qed.

Lemma round_half_even_cases (q : Q) :
  round_half_even q = Qfloor q \/
  (round_half_even q = (Qfloor q + 1)%Z /\ 1 # 2 <= q - inject_Z (Qfloor q)).
Proof.
  unfold round_half_even.
  destruct (Qlt_bool (q - inject_Z (Qfloor q)) (1 # 2)) eqn:E1; [now left|].
  apply Qlt_bool_false in E1.
  destruct (Qlt_bool (1 # 2) (q - inject_Z (Qfloor q))); [now right|].
  destruct (Z.even (Qfloor q)); [now left | now right].
Qed.

Lemma round_half_even_lower (n : Z) (q : Q) :
  inject_Z n <= q -> (n <= round_half_even q)%Z.
Proof.
  intros H. apply Qfloor_resp_le in H. rewrite Qfloor_Z in H.
  destruct (round_half_even_cases q) as [-> | [-> _]]; lia.
Qed.

Lemma round_half_even_upper (n : Z) (q : Q) :
  q <= inject_Z n -> (round_half_even q <= n)%Z.
Proof.
  intros H. pose proof (Qfloor_le q) as Hf.
  destruct (round_half_even_cases q) as [-> | [-> Hr]].
  - rewrite Zle_Qle. now apply Qle_trans with q.
  - assert (Hlt : inject_Z (Qfloor q) < inject_Z n) by lra.
    rewrite <- Zlt_Qlt in Hlt. lia.
Qed.

Lemma py_round_nonneg (q : Q) (n : nat) : 0 <= q -> 0 <= py_round q n.
Proof.
  intros H. unfold py_round.
  set (scale := Z.to_pos (10 ^ Z.of_nat n)).
  assert (Hr : (0 <= round_half_even (q * inject_Z (Z.pos scale)))%Z).
  { apply round_half_even_lower. change (inject_Z 0) with 0.
    apply Qmult_le_0_compat; [exact H|].
    change 0 with (inject_Z 0). rewrite <- Zle_Qle. lia. }
  unfold Qle. simpl. lia.
Qed.

Lemma py_round_le_1 (q : Q) (n : nat) : q <= 1 -> py_round q n <= 1.
Proof.
  intros H. unfold py_round.
  set (scale := Z.to_pos (10 ^ Z.of_nat n)).
  assert (Hr : (round_half_even (q * inject_Z (Z.pos scale)) <= Z.pos scale)%Z).
  { apply round_half_even_upper.
    assert (Hs : 0 <= inject_Z (Z.pos scale)).
    { change 0 with (inject_Z 0). rewrite <- Zle_Qle. lia. }
    nra. }
  unfold Qle. simpl. lia.
Qed.

End PyFacts.

(** ** Feature derivation *)

Module MlApiFacts.

Import MlApi.

Lemma py_round_in_unit (q : Q) (n : nat) : in_unit q -> in_unit (py_round q n).
Proof.
  intros [H0 H1]. split; [now apply py_round_nonneg | now apply py_round_le_1].
Qed.

Lemma weather_lookup_in_unit (items : list (string * Q)) (loc : string) (d : Q) :
  Forall (fun cr => in_unit (snd cr)) items -> in_unit d ->
  in_unit (weather_lookup items loc d).
Proof.
  intros Hall Hd. induction Hall as [| [city risk] rest Hrisk _ IH]; simpl.
  - exact Hd.
  - destruct (contains city loc); [exact Hrisk | exact IH].
Qed.

Lemma weather_risk_map_in_unit :
  Forall (fun cr => in_unit (snd cr)) weather_risk_map.
Proof. unfold weather_risk_map. repeat constructor; simpl; lra. Qed.

Section Features.

Variable fromisoformat : string -> result datetime.
Variable clk : clock.

Lemma progress_block_in_unit cp sd ed pe dates :
  progress_block fromisoformat clk cp sd ed = Ok (pe, dates) -> in_unit pe.
Proof.
  unfold progress_block. intros H.
  destruct (truthy sd && truthy ed).
  - bind_inv_all H.
    destruct (0 <? _)%Z.
    + bind_inv_all H. injection H as <- _. split.
      * apply Qle_trans with 0.1; [lra | apply py_max_lower_l].
      * apply py_max_upper; [lra | apply py_min_upper_l].
    + injection H as <- _. split; lra.
  - injection H as <- _. split; lra.
Qed.

Lemma progress_block_no_dates cp sd ed :
  truthy sd && truthy ed = false ->
  progress_block fromisoformat clk cp sd ed = Ok (0.8, None).
Proof. unfold progress_block. now intros ->. Qed.

Lemma timeline_block_values cp dates tp :
  timeline_block cp dates = Ok tp -> tp = 0.8 \/ tp = 0.6 \/ tp = 0.3 \/ tp = 0.4.
Proof.
  unfold timeline_block. intros H.
  destruct dates as [[[end_ now_] total_days] |].
  - bind_inv_all H.
    destruct (_ && _); [injection H as <-; tauto|].
    destruct (_ && _); injection H as <-; tauto.
  - injection H as <-. tauto.
Qed.

Lemma timeline_block_in_unit cp dates tp :
  timeline_block cp dates = Ok tp -> in_unit tp.
Proof.
  intros H. apply timeline_block_values in H.
  destruct H as [-> | [-> | [-> | ->]]]; split; lra.
Qed.

Lemma extract_inv p f :
  extract_features_from_project fromisoformat clk p = Ok f ->
  exists pe dates tp,
    progress_block fromisoformat clk (get (currentProgress p) 0 / 100)
                   (startDate p) (endDate p) = Ok (pe, dates) /\
    timeline_block (get (currentProgress p) 0 / 100) dates = Ok tp /\
    progress_efficiency f = py_round pe 3 /\
    timeline_pressure f = py_round tp 3 /\
    weather_impact f =
      py_round (weather_lookup weather_risk_map (lower (get (location p) "")) 0.7) 3.
Proof.
  unfold extract_features_from_project. intros H.
  bind_inv H as [pe dates] Epe. bind_inv H as tp Etp.
  apply Ok_inj in H. subst f. exists pe, dates, tp. auto.
Qed.

End Features.

(** C1, as stated, fails: with one listed resource and a total budget of
    minus ten million the function returns a resource availability of
    -0.36, which is not in [[0,1]]. *)
Lemma extract_features_negative_budget :
  exists f,
    extract_features_from_project IsoDate.fromisoformat_date
      (Examples.clock_at 2024 6 1) Examples.negative_budget_project = Ok f /\
    resource_availability f == -0.36 /\
    ~ in_unit (resource_availability f).
Proof.
  eexists. split; [vm_compute; reflexivity|]. split; [reflexivity|].
  intros [H _]. revert H. vm_compute. intros H. now apply H.
Qed.

(** C1, amended: for every project record whose total budget is not
    negative, each of the five engineered features that
    [extract_features_from_project] returns lies in the closed interval
    [[0,1]]. *)
Theorem extract_features_in_unit
    (fromisoformat : string -> result datetime) (clk : clock)
    (p : project_data) (f : features) :
  0 <= get (totalBudget p) 1000000 ->
  extract_features_from_project fromisoformat clk p = Ok f ->
  in_unit (progress_efficiency f) /\
  in_unit (resource_availability f) /\
  in_unit (project_complexity f) /\
  in_unit (weather_impact f) /\
  in_unit (timeline_pressure f).
Proof.
  intros Hb H. unfold extract_features_from_project in H.
  bind_inv H as [pe dates] Epe. bind_inv H as tp Etp. apply Ok_inj in H. subst f.
  unfold progress_efficiency, resource_availability, project_complexity,
    weather_impact, timeline_pressure.
  set (total := (len (get (humanResources p) []) + len (get (materials p) [])
                 + len (get (equipment p) []))%Z).
  set (budget := get (totalBudget p) 1000000) in *.
  assert (Htotal : 0 <= inject_Z total).
  { change 0 with (inject_Z 0). rewrite <- Zle_Qle. unfold total, len. lia. }
  assert (Hmin : forall c : positive, in_unit (py_min 1 (budget * (1 # c)))).
  { intros c. split; [| apply py_min_upper_l].
    apply py_min_lower; [lra|]. apply Qmult_le_0_compat; [exact Hb | easy]. }
  assert (Hres : forall c : positive, in_unit (py_min 1 (inject_Z total * (1 # c)))).
  { intros c. split; [| apply py_min_upper_l].
    apply py_min_lower; [lra|]. apply Qmult_le_0_compat; [exact Htotal | easy]. }
  split; [| split; [| split; [| split]]]; apply py_round_in_unit.
  - exact (progress_block_in_unit _ _ _ _ _ Epe).
  - destruct (0 <? total)%Z; [| split; lra].
    pose proof (Hres 15%positive) as [? ?]. pose proof (Hmin 10000000%positive) as [? ?].
    unfold Qdiv. change (/ 15) with (1 # 15). change (/ 10000000) with (1 # 10000000).
    split; lra.
  - pose proof (Hres 20%positive) as [? ?]. pose proof (Hmin 50000000%positive) as [? ?].
    unfold Qdiv. change (/ 20) with (1 # 20). change (/ 50000000) with (1 # 50000000).
    split; lra.
  - apply weather_lookup_in_unit; [apply weather_risk_map_in_unit | split; lra].
  - exact (timeline_block_in_unit _ _ Etp).
Qed.

Lemma extract_features_in_unit_witness :
  exists f,
    0 <= get (totalBudget Examples.year_project) 1000000 /\
    extract_features_from_project IsoDate.fromisoformat_date
      (Examples.clock_at 2024 3 1) Examples.year_project = Ok f /\
    (in_unit (progress_efficiency f) /\
     in_unit (resource_availability f) /\
     in_unit (project_complexity f) /\
     in_unit (weather_impact f) /\
     in_unit (timeline_pressure f)).
Proof.
  eexists. split; [simpl; lra|]. split; [vm_compute; reflexivity|].
  apply (extract_features_in_unit IsoDate.fromisoformat_date
           (Examples.clock_at 2024 3 1) Examples.year_project).
  - simpl. lra.
  - vm_compute. reflexivity.
Defined.

(** C4: the code divides by the planned duration without the guard that
    the progress block has. For a project whose startDate and endDate are
    the same valid ISO date, [extract_features_from_project] raises
    [ZeroDivisionError], whatever the clock reads. *)
Theorem extract_features_zero_duration_raises (clk : clock) :
  extract_features_from_project IsoDate.fromisoformat_date clk
    Examples.zero_duration_project = Raise ZeroDivisionError.
Proof. destruct clk as [utc off]. vm_compute. reflexivity. Qed.

(** C5, as stated, fails: the same record yields a timeline pressure of
    0.3 on 2024-03-01 and of 0.8 on 2024-12-01. *)
Lemma extract_features_depends_on_clock :
  exists f1 f2,
    extract_features_from_project IsoDate.fromisoformat_date
      (Examples.clock_at 2024 3 1) Examples.year_project = Ok f1 /\
    extract_features_from_project IsoDate.fromisoformat_date
      (Examples.clock_at 2024 12 1) Examples.year_project = Ok f2 /\
    timeline_pressure f1 == 0.3 /\ timeline_pressure f2 == 0.8 /\
    f1 <> f2.
Proof.
  eexists. eexists.
  split; [vm_compute; reflexivity|]. split; [vm_compute; reflexivity|].
  split; [reflexivity|]. split; [reflexivity|]. discriminate.
Qed.

(** C5, amended: feature derivation is deterministic in the project record
    and the reading of the clock. Two calls on the same record return the
    same result when the clock reads the same, and at any two readings when
    startDate or endDate is missing or empty. *)
Theorem extract_features_deterministic
    (fromisoformat : string -> result datetime) (clk1 clk2 : clock)
    (p : project_data) :
  truthy (startDate p) && truthy (endDate p) = false \/ clk1 = clk2 ->
  extract_features_from_project fromisoformat clk1 p =
  extract_features_from_project fromisoformat clk2 p.
Proof.
  intros [Hdates | ->]; [| reflexivity].
  unfold extract_features_from_project.
  now rewrite !progress_block_no_dates.
Qed.

Lemma extract_features_deterministic_witness :
  (truthy (startDate Examples.mumbai_project)
   && truthy (endDate Examples.mumbai_project) = false
   \/ Examples.clock_at 2024 3 1 = Examples.clock_at 2024 12 1) /\
  extract_features_from_project IsoDate.fromisoformat_date
    (Examples.clock_at 2024 3 1) Examples.mumbai_project =
  extract_features_from_project IsoDate.fromisoformat_date
    (Examples.clock_at 2024 12 1) Examples.mumbai_project.
Proof.
  split; [left; reflexivity|].
  apply (extract_features_deterministic IsoDate.fromisoformat_date).
  left. reflexivity.
Defined.

(** C7: missing inputs are replaced by literal defaults. If startDate or
    endDate is absent (or empty) the function returns, with
    progress_efficiency 0.8 and timeline_pressure 0.4; whenever it returns,
    resource_availability is 0.5 if no resource is listed and
    weather_impact is 0.7 if no city of the table occurs in the location. *)
Theorem extract_features_defaults
    (fromisoformat : string -> result datetime) (clk : clock)
    (p : project_data) :
  (truthy (startDate p) = false \/ truthy (endDate p) = false ->
   exists f,
     extract_features_from_project fromisoformat clk p = Ok f /\
     progress_efficiency f == 0.8 /\ timeline_pressure f == 0.4) /\
  (forall f,
     extract_features_from_project fromisoformat clk p = Ok f ->
     (len (get (humanResources p) []) + len (get (materials p) [])
      + len (get (equipment p) []) = 0)%Z ->
     resource_availability f == 0.5) /\
  (forall f,
     extract_features_from_project fromisoformat clk p = Ok f ->
     no_city_matches (lower (get (location p) "")) = true ->
     weather_impact f == 0.7).
Proof.
  split; [| split].
  - intros Hdates.
    assert (Hboth : truthy (startDate p) && truthy (endDate p) = false).
    { destruct Hdates as [-> | ->]; [reflexivity | apply andb_false_r]. }
    unfold extract_features_from_project.
    rewrite (progress_block_no_dates _ _ _ _ _ Hboth). cbn [bind timeline_block].
    eexists. split; [reflexivity|]. split; reflexivity.
  - intros f H Hzero. unfold extract_features_from_project in H.
    bind_inv H as [pe dates] Epe. bind_inv H as tp Etp. apply Ok_inj in H. subst f.
    unfold resource_availability. rewrite Hzero. reflexivity.
  - intros f H Hnone. apply extract_inv in H.
    destruct H as (pe & dates & tp & _ & _ & _ & _ & ->).
    revert Hnone. unfold no_city_matches, weather_risk_map.
    cbn [forallb weather_lookup fst].
    repeat (destruct (contains _ _); [discriminate|]).
    intros _. reflexivity.
Qed.

Lemma extract_features_defaults_witness :
  exists f,
    (truthy (startDate Examples.no_project) = false
     \/ truthy (endDate Examples.no_project) = false) /\
    extract_features_from_project IsoDate.fromisoformat_date
      (Examples.clock_at 2024 3 1) Examples.no_project = Ok f /\
    (len (get (humanResources Examples.no_project) [])
     + len (get (materials Examples.no_project) [])
     + len (get (equipment Examples.no_project) []) = 0)%Z /\
    no_city_matches (lower (get (location Examples.no_project) "")) = true /\
    progress_efficiency f == 0.8 /\ timeline_pressure f == 0.4 /\
    resource_availability f == 0.5 /\ weather_impact f == 0.7.
Proof.
  pose proof (extract_features_defaults IsoDate.fromisoformat_date
                (Examples.clock_at 2024 3 1) Examples.no_project)
    as (Hdates & Hres & Hcity).
  destruct (Hdates (or_introl eq_refl)) as (f & Hf & Hpe & Htp).
  exists f. repeat split; try assumption; try reflexivity.
  - left. reflexivity.
  - apply Hres; [assumption | reflexivity].
  - apply Hcity; [assumption | reflexivity].
Defined.

(** C9: for every project record whose location is 'Mumbai' in any letter
    case, the weather impact that [extract_features_from_project] returns
    is 0.9, the entry of the table for that city. *)
Theorem extract_features_mumbai
    (fromisoformat : string -> result datetime) (clk : clock)
    (p : project_data) (loc : string) (f : features) :
  location p = Some loc -> lower loc = "mumbai" ->
  extract_features_from_project fromisoformat clk p = Ok f ->
  weather_impact f == 0.9.
Proof.
  intros Hloc Hlower H. apply extract_inv in H.
  destruct H as (pe & dates & tp & _ & _ & _ & _ & ->).
  rewrite Hloc. cbn [get]. rewrite Hlower. reflexivity.
Qed.

Lemma extract_features_mumbai_witness :
  exists f,
    location (mkProject None None None None None None None (Some "MuMbAI"))
      = Some "MuMbAI" /\
    lower "MuMbAI" = "mumbai" /\
    extract_features_from_project IsoDate.fromisoformat_date
      (Examples.clock_at 2024 3 1)
      (mkProject None None None None None None None (Some "MuMbAI")) = Ok f /\
    weather_impact f == 0.9.
Proof.
  eexists. split; [reflexivity|]. split; [reflexivity|].
  split; [vm_compute; reflexivity|].
  apply (extract_features_mumbai IsoDate.fromisoformat_date
           (Examples.clock_at 2024 3 1)
           (mkProject None None None None None None None (Some "MuMbAI"))
           (loc := "MuMbAI")); [reflexivity | reflexivity |].
  vm_compute. reflexivity.
Defined.

End MlApiFacts.

(** ** The predictor of [train_model.py] *)

Module TrainModelFacts.

Import TrainModel.

Lemma sqrt_micro_nonneg (q : Q) : 0 <= Examples.sqrt_micro q.
Proof.
  unfold Examples.sqrt_micro, Qle. cbn [Qnum Qden].
  rewrite Z.mul_0_l, Z.mul_1_r. apply Z.sqrt_nonneg.
Qed.

Lemma Zmax_py_lower (a b : Z) : (a <= Zmax_py a b)%Z.
Proof. unfold Zmax_py. destruct (a <? b)%Z eqn:E; [apply Z.ltb_lt in E|]; lia. Qed.

Lemma Zmax_py_upper (a b c : Z) : (a <= c -> b <= c -> Zmax_py a b <= c)%Z.
Proof. unfold Zmax_py. now destruct (a <? b)%Z. Qed.

Lemma Zmin_py_upper (a b : Z) : (Zmin_py a b <= a)%Z.
Proof. unfold Zmin_py. destruct (b <? a)%Z eqn:E; [apply Z.ltb_lt in E|]; lia. Qed.

(** The score of [_calculate_overall_confidence] lies between 60 and 95,
    on every row. *)
Lemma overall_confidence_bounds (row : list Q) :
  (60 <= _calculate_overall_confidence row <= 95)%Z.
Proof.
  unfold _calculate_overall_confidence. split.
  - apply Zmax_py_lower.
  - apply Zmax_py_upper; [lia | apply Zmin_py_upper].
Qed.

Section Confidence.

Variable sqrt : Q -> Q.

Lemma calculate_confidence_inv rf gb row model_type lo hi :
  _calculate_confidence sqrt rf gb row model_type = Ok (lo, hi) ->
  exists m s, lo = py_max 0 (m - 1.96 * s) /\ hi = m + 1.96 * s.
Proof.
  unfold _calculate_confidence. intros H.
  bind_inv H as [s m] E. apply Ok_inj in H. apply pair_equal_spec in H.
  destruct H as [<- <-]. exists m, s. split; reflexivity.
Qed.

Lemma calculate_confidence_lower_nonneg rf gb row model_type lo hi :
  _calculate_confidence sqrt rf gb row model_type = Ok (lo, hi) -> 0 <= lo.
Proof.
  intros H. apply calculate_confidence_inv in H.
  destruct H as (m & s & -> & _). apply py_max_lower_l.
Qed.

End Confidence.

(** C2, as stated, fails: for a forest whose two trees predict -4 and -6
    the mean is -5 and the standard deviation 1; the returned interval is
    [0, -3.04], whose lower bound exceeds the upper one. *)
Lemma calculate_confidence_inverted :
  exists lo hi,
    _calculate_confidence Examples.sqrt_micro Examples.negative_forest
      Examples.steady_boosting [] "delay" = Ok (lo, hi) /\
    lo == 0 /\ hi == -3.04 /\ ~ lo <= hi.
Proof.
  eexists. eexists. split; [vm_compute; reflexivity|].
  split; [reflexivity|]. split; [reflexivity|].
  vm_compute. intros H. now apply H.
Qed.

(** C2, amended: for every fitted ensemble (a forest of at least one tree,
    a boosting model of at least one stage) and input row,
    [_calculate_confidence] returns [max(0, m - 1.96 s), m + 1.96 s], where
    for the delay model [m] and [s] are the mean and the standard deviation
    of the per-tree predictions of the forest, and for the cost model [m] is
    the last staged prediction and [s] the standard deviation of the last
    ten staged predictions. The lower bound is not negative, and it does
    not exceed the upper bound whenever [m + 1.96 s] is not negative. *)
Theorem calculate_confidence_interval
    (sqrt : Q -> Q) (rf : RandomForestRegressor)
    (gb : GradientBoostingRegressor) (row : list Q) :
  (forall q, 0 <= sqrt q) ->
  estimators_ rf <> [] -> staged_predict gb row <> [] ->
  (let tree_predictions := map (fun t : tree => t row) (estimators_ rf) in
   let m := np_mean tree_predictions in
   let s := np_std sqrt tree_predictions in
   _calculate_confidence sqrt rf gb row "delay"
     = Ok (py_max 0 (m - 1.96 * s), m + 1.96 * s) /\
   0 <= py_max 0 (m - 1.96 * s) /\
   (0 <= m + 1.96 * s -> py_max 0 (m - 1.96 * s) <= m + 1.96 * s)) /\
  (exists m,
     let s := np_std sqrt (last_n 10 (staged_predict gb row)) in
     last_item (staged_predict gb row) = Ok m /\
     _calculate_confidence sqrt rf gb row "cost"
       = Ok (py_max 0 (m - 1.96 * s), m + 1.96 * s) /\
     0 <= py_max 0 (m - 1.96 * s) /\
     (0 <= m + 1.96 * s -> py_max 0 (m - 1.96 * s) <= m + 1.96 * s)).
Proof.
  intros Hsqrt _ Hstaged.
  assert (Hbounds : forall m l,
             0 <= py_max 0 (m - 1.96 * np_std sqrt l) /\
             (0 <= m + 1.96 * np_std sqrt l ->
              py_max 0 (m - 1.96 * np_std sqrt l) <= m + 1.96 * np_std sqrt l)).
  { intros m l. split; [apply py_max_lower_l|].
    intros Hup. apply py_max_upper; [exact Hup|].
    assert (0 <= np_std sqrt l) by apply Hsqrt. lra. }
  split.
  - cbv zeta. split; [reflexivity | apply Hbounds].
  - assert (Hlast : exists m, last_item (staged_predict gb row) = Ok m).
    { unfold last_item. destruct (rev (staged_predict gb row)) as [| x l] eqn:E.
      - apply (f_equal (@rev Q)) in E. rewrite rev_involutive in E.
        now destruct Hstaged.
      - now exists x. }
    destruct Hlast as [m Hm]. exists m. cbv zeta.
    split; [exact Hm|]. split; [| apply Hbounds].
    unfold _calculate_confidence. cbn [String.eqb Ascii.eqb Bool.eqb].
    rewrite Hm. reflexivity.
Qed.

Lemma calculate_confidence_interval_witness :
  (forall q, 0 <= Examples.sqrt_micro q) /\
  estimators_ Examples.steady_forest <> [] /\
  staged_predict Examples.steady_boosting [] <> [] /\
  (exists lo hi,
     _calculate_confidence Examples.sqrt_micro Examples.steady_forest
       Examples.steady_boosting [] "delay" = Ok (lo, hi) /\
     lo == 8.08 /\ hi == 15.92 /\ 0 <= lo /\ lo <= hi) /\
  (exists lo hi,
     _calculate_confidence Examples.sqrt_micro Examples.steady_forest
       Examples.steady_boosting [] "cost" = Ok (lo, hi) /\
     0 <= lo /\ lo <= hi).
Proof.
  assert (Hne1 : estimators_ Examples.steady_forest <> []) by discriminate.
  assert (Hne2 : staged_predict Examples.steady_boosting [] <> []) by discriminate.
  destruct (@calculate_confidence_interval Examples.sqrt_micro
              Examples.steady_forest Examples.steady_boosting []
              sqrt_micro_nonneg Hne1 Hne2)
    as [(Hdelay & Hlo & Hle) (m & Hm & Hcost & Hlo' & Hle')].
  split; [exact sqrt_micro_nonneg|].
  split; [exact Hne1|]. split; [exact Hne2|]. split.
  - eexists. eexists. split; [exact Hdelay|].
    split; [vm_compute; reflexivity|]. split; [vm_compute; reflexivity|].
    split; [exact Hlo|]. apply Hle. vm_compute. discriminate.
  - eexists. eexists. split; [exact Hcost|].
    split; [exact Hlo'|]. apply Hle'.
    apply Ok_inj in Hm. subst m. vm_compute. discriminate.
Defined.

(** C3: the penalty is counted on the standardised row that [predict]
    passes on, not on the engineered features. For five features of 0.5 and
    a scaler fitted on mean 0.5 the row is all zeros, every value is below
    0.1 and the reported confidence is 60, where the claim gives 85. *)
Theorem overall_confidence_of_scaled_row :
  exists r,
    predict Examples.sqrt_micro Examples.steady_predictor
      (FeatureDict Examples.middle_features) = Ok r /\
    model_confidence r = 60%Z /\
    overall_confidence_spec Examples.middle_features = 85%Z.
Proof.
  eexists. split; [vm_compute; reflexivity|]. split; reflexivity.
Qed.

End TrainModelFacts.

(** ** The training-side predictor and its handlers *)

Module TrainingFacts.

Import Method DelayPredictor TrainingApi.

Section ReadOnly.

Variables S : Type.

Lemma read_only_ret (A : Type) (a : A) : read_only (S := S) (ret a).
Proof. intros s. reflexivity. Qed.

Lemma read_only_gets (A : Type) (f : S -> A) : read_only (gets f).
Proof. intros s. reflexivity. Qed.

Lemma read_only_lift (A : Type) (r : result A) : read_only (S := S) (lift r).
Proof. intros s. reflexivity. Qed.

Lemma read_only_bind (A B : Type) (c : M S A) (k : A -> M S B) :
  read_only c -> (forall a, read_only (k a)) -> read_only (Method.bind c k).
Proof.
  intros Hc Hk s. unfold Method.bind. specialize (Hc s).
  destruct (c s) as [[a | e] s']; simpl in Hc; subst s'.
  - apply Hk.
  - reflexivity.
Qed.

End ReadOnly.

Ltac read_only_step :=
  first
    [ apply read_only_ret
    | apply read_only_gets
    | apply read_only_lift
    | apply read_only_bind; [| intros ?]
    | match goal with
      | |- read_only (match ?x with _ => _ end) => destruct x
      end ].

Section Training.

Context {lib : Library}.

Lemma predict_delay_read_only (project_features : record) :
  read_only (DelayPredictor.predict_delay project_features).
Proof. unfold DelayPredictor.predict_delay. repeat read_only_step. Qed.

Lemma batch_loop_read_only (l : list record) (i : Z) : read_only (batch_loop l i).
Proof.
  revert i. induction l as [| project rest IH]; intros i; cbn [batch_loop].
  - apply read_only_ret.
  - apply read_only_bind.
    + intros self. pose proof (predict_delay_read_only project self) as Hp.
      destruct (DelayPredictor.predict_delay project self) as [[r | e] self'];
        exact Hp.
    + intros entry. apply read_only_bind; [apply IH | intros ?; apply read_only_ret].
Qed.

Lemma try_except_read_only self (block : method response) on_error :
  read_only block -> snd (try_except self block on_error) = Some self.
Proof.
  intros Hb. unfold try_except. specialize (Hb self).
  destruct (block self) as [[r | e] self']; simpl in Hb; now subst self'.
Qed.

Lemma predict_delay_inv project_features self r self' :
  DelayPredictor.predict_delay project_features self = (Ok r, self') ->
  exists prediction mae,
    predicted_delay_days r = py_max 0 (py_round prediction 1) /\
    fst (confidence_interval r) = py_round (py_max 0 (prediction - mae)) 1.
Proof.
  unfold DelayPredictor.predict_delay, Method.bind, gets, lift, ret.
  intros H.
  repeat match type of H with
         | context [match ?x with _ => _ end] =>
             destruct x eqn:?; try discriminate H
         end;
    apply pair_equal_spec in H; destruct H as [H _];
    apply Ok_inj in H; subst r; eexists; eexists; split; reflexivity.
Qed.

End Training.

(** C6, as stated, fails: [POST /retrain] refits the process-wide predictor
    in place. On a predictor loaded with the feature [budget], retraining on
    the default data set leaves a predictor whose only feature is
    [crew_size]. *)
Lemma retrain_changes_predictor :
  exists self',
    snd (handle (lib := Examples.toy_library) (PostRetrain (Ok None))
           (Some Examples.loaded_predictor)) = Some self' /\
    feature_names Examples.loaded_predictor = ["budget"] /\
    feature_names self' = ["crew_size"] /\
    Some self' <> Some Examples.loaded_predictor.
Proof.
  eexists. split; [vm_compute; reflexivity|].
  split; [reflexivity|]. split; [reflexivity|]. discriminate.
Qed.

(** C6, amended: every request other than [POST /retrain] leaves the
    process-wide predictor as it was: its models, scaler, label encoders,
    feature names, feature importances and training history are unchanged
    by the handler. *)
Theorem requests_preserve_predictor
    (lib : Library) (req : request)
    (predictor : option ConstructionDelayPredictor) :
  is_retrain req = false ->
  snd (handle req predictor) = predictor.
Proof.
  intros Hreq.
  destruct req as [| json | | json | top_n | json |]; try discriminate Hreq;
    cbn [handle]; clear Hreq.
  - reflexivity.
  - unfold TrainingApi.predict_delay. destruct predictor as [self |]; [| reflexivity].
    apply try_except_read_only.
    repeat first [apply predict_delay_read_only | read_only_step].
  - unfold model_info. destruct predictor as [self |]; [| reflexivity].
    apply try_except_read_only. repeat read_only_step.
  - unfold get_feature_importance. destruct predictor as [self |]; [| reflexivity].
    apply try_except_read_only. repeat read_only_step.
  - unfold batch_predict. destruct predictor as [self |]; [| reflexivity].
    apply try_except_read_only.
    repeat first [apply batch_loop_read_only | read_only_step].
  - reflexivity.
Qed.

Lemma requests_preserve_predictor_witness :
  is_retrain (PostPredictDelay (Ok (Some Examples.toy_project))) = false /\
  snd (handle (lib := Examples.toy_library)
         (PostPredictDelay (Ok (Some Examples.toy_project)))
         (Some Examples.loaded_predictor)) = Some Examples.loaded_predictor.
Proof.
  split; [reflexivity|].
  apply (@requests_preserve_predictor Examples.toy_library). reflexivity.
Defined.

End TrainingFacts.

(** ** The public interface *)

Module ServiceFacts.

(** C8: the prediction handlers always answer and let no exception
    through. [POST /predict] answers 400 with an error body when the JSON
    body is empty or has no ['project'] key, 500 with the message of the
    exception when reading the body, the feature extraction or the
    prediction raises, and 200 with a prediction body otherwise;
    [POST /predict-delay] of the training-side service answers alike. *)
Theorem predict_handlers_always_respond :
  (forall (fromisoformat : string -> result datetime) (sqrt : Q -> Q)
          (predictor : TrainModel.ConstructionDelayPredictor) (clk : clock)
          (req : MlApi.request),
     let resp := MlApi.predict_delay fromisoformat sqrt predictor clk req in
     match MlApi.get_json req with
     | Raise e => resp = MlApi.mkResponse 500 (MlApi.FailureBody (str_of_exn e))
     | Ok None => resp = MlApi.mkResponse 400 (MlApi.ErrorBody "Project data required")
     | Ok (Some data) =>
         match MlApi.project data with
         | None =>
             resp = MlApi.mkResponse 400 (MlApi.ErrorBody "Project data required")
         | Some project_data =>
             match
               Py.bind (MlApi.extract_features_from_project fromisoformat clk project_data)
                       (fun features =>
                          TrainModel.predict sqrt predictor (TrainModel.FeatureDict features))
             with
             | Raise e => resp = MlApi.mkResponse 500 (MlApi.FailureBody (str_of_exn e))
             | Ok _ =>
                 MlApi.status resp = 200%Z /\
                 exists d c pct dr cr f n,
                   MlApi.json resp = MlApi.PredictionBody d c pct dr cr f n
             end
         end
     end) /\
  (forall (lib : DelayPredictor.Library) (json : result (option DelayPredictor.record))
          (predictor : option DelayPredictor.ConstructionDelayPredictor),
     let resp := fst (TrainingApi.predict_delay json predictor) in
     match predictor with
     | None =>
         resp = TrainingApi.mkResponse 500
                  (TrainingApi.ErrorBody "ML model not initialized")
     | Some self =>
         match json with
         | Raise e =>
             resp = TrainingApi.mkResponse 500 (TrainingApi.FailureBody (str_of_exn e))
         | Ok None | Ok (Some []) =>
             resp = TrainingApi.mkResponse 400
                      (TrainingApi.ErrorBody "No project data provided")
         | Ok (Some project) =>
             match fst (DelayPredictor.predict_delay project self) with
             | Raise e =>
                 resp = TrainingApi.mkResponse 500
                          (TrainingApi.FailureBody (str_of_exn e))
             | Ok prediction =>
                 resp = TrainingApi.mkResponse 200 (TrainingApi.PredictionBody prediction)
             end
         end
     end).
Proof.
  split.
  - intros fromisoformat sqrt predictor clk req. cbv zeta.
    unfold MlApi.predict_delay, MlApi.predict_delay_try.
    destruct (MlApi.get_json req) as [[data |] | e]; cbn [Py.bind]; try reflexivity.
    destruct (MlApi.project data) as [project_data |]; [| reflexivity].
    destruct (MlApi.extract_features_from_project _ _ _) as [features | e];
      cbn [Py.bind]; [| reflexivity].
    destruct (TrainModel.predict _ _ _) as [prediction | e];
      cbn [Py.bind]; [| reflexivity].
    split; [reflexivity|]. repeat eexists.
  - intros lib json predictor. cbv zeta.
    destruct predictor as [self |]; [| reflexivity].
    unfold TrainingApi.predict_delay, TrainingApi.try_except, Method.bind, Method.lift.
    destruct json as [[project |] | e]; try reflexivity.
    destruct project as [| kv rest]; [reflexivity|].
    destruct (DelayPredictor.predict_delay (kv :: rest) self) as [[prediction | e] self'];
      reflexivity.
Qed.

Lemma predict_nonneg (sqrt : Q -> Q) self input r :
  TrainModel.predict sqrt self input = Ok r ->
  0 <= TrainModel.predicted_delay_days r /\
  0 <= TrainModel.predicted_additional_cost r /\
  0 <= fst (TrainModel.delay_confidence_interval r) /\
  0 <= fst (TrainModel.cost_confidence_interval r).
Proof.
  unfold TrainModel.predict. intros H.
  destruct (TrainModel.delay_model self) as [rf |]; [| discriminate H].
  destruct (TrainModel.cost_model self) as [gb |]; [| discriminate H].
  bind_inv H as feature_array Ea. bind_inv H as features_scaled Es.
  bind_inv H as [dlo dhi] E1. bind_inv H as [clo chi] E2.
  apply Ok_inj in H. subst r.
  unfold TrainModel.predicted_delay_days, TrainModel.predicted_additional_cost,
    TrainModel.delay_confidence_interval, TrainModel.cost_confidence_interval.
  split; [apply py_max_lower_l|]. split; [apply py_max_lower_l|].
  split.
  - exact (TrainModelFacts.calculate_confidence_lower_nonneg _ _ _ _ _ E1).
  - exact (TrainModelFacts.calculate_confidence_lower_nonneg _ _ _ _ _ E2).
Qed.

(** C10: the predictions that leave the predictors and the [/predict]
    handler are clamped at zero, whatever the regressors return: the
    predicted delay, the predicted additional cost and the lower bound of
    every confidence interval are not negative. *)
Theorem predictions_clamped_nonneg :
  (forall (sqrt : Q -> Q) (self : TrainModel.ConstructionDelayPredictor)
          (input : TrainModel.predict_input) (r : TrainModel.prediction),
     TrainModel.predict sqrt self input = Ok r ->
     0 <= TrainModel.predicted_delay_days r /\
     0 <= TrainModel.predicted_additional_cost r /\
     0 <= fst (TrainModel.delay_confidence_interval r) /\
     0 <= fst (TrainModel.cost_confidence_interval r)) /\
  (forall (fromisoformat : string -> result datetime) (sqrt : Q -> Q)
          (predictor : TrainModel.ConstructionDelayPredictor) (clk : clock)
          (req : MlApi.request) d c pct dr cr f n,
     MlApi.json (MlApi.predict_delay fromisoformat sqrt predictor clk req)
       = MlApi.PredictionBody d c pct dr cr f n ->
     0 <= d /\ 0 <= c /\ 0 <= fst dr /\ 0 <= fst cr) /\
  (forall (lib : DelayPredictor.Library) (project : DelayPredictor.record)
          (self self' : DelayPredictor.ConstructionDelayPredictor)
          (r : DelayPredictor.delay_prediction),
     DelayPredictor.predict_delay project self = (Ok r, self') ->
     0 <= DelayPredictor.predicted_delay_days r /\
     0 <= fst (DelayPredictor.confidence_interval r)).
Proof.
  split; [exact predict_nonneg|]. split.
  - intros fromisoformat sqrt predictor clk req d c pct dr cr f n.
    unfold MlApi.predict_delay, MlApi.predict_delay_try.
    destruct (MlApi.get_json req) as [[data |] | e]; cbn [Py.bind]; try discriminate.
    destruct (MlApi.project data) as [project_data |]; [| discriminate].
    destruct (MlApi.extract_features_from_project _ _ _) as [features | e];
      cbn [Py.bind]; [| discriminate].
    destruct (TrainModel.predict _ _ _) as [prediction | e] eqn:E;
      cbn [Py.bind]; [| discriminate].
    apply predict_nonneg in E. destruct E as (Hd & Hc & Hdr & Hcr).
    cbn [MlApi.json]. intros H.
    injection H as <- <- _ <- <- _ _. unfold MlApi.round_pair. cbn [fst].
    repeat split; now apply py_round_nonneg.
  - intros lib project self self' r H.
    apply TrainingFacts.predict_delay_inv in H.
    destruct H as (prediction & mae & -> & ->). split.
    + apply py_max_lower_l.
    + apply py_round_nonneg. apply py_max_lower_l.
Qed.

Lemma predictions_clamped_nonneg_witness :
  (exists r,
     TrainModel.predict Examples.sqrt_micro Examples.steady_predictor
       (TrainModel.FeatureDict Examples.middle_features) = Ok r /\
     0 <= TrainModel.predicted_delay_days r /\
     0 <= TrainModel.predicted_additional_cost r /\
     0 <= fst (TrainModel.delay_confidence_interval r) /\
     0 <= fst (TrainModel.cost_confidence_interval r)) /\
  (exists r self',
     DelayPredictor.predict_delay (lib := Examples.toy_library)
       Examples.toy_project Examples.loaded_predictor = (Ok r, self') /\
     DelayPredictor.predicted_delay_days r == 0 /\
     0 <= DelayPredictor.predicted_delay_days r /\
     0 <= fst (DelayPredictor.confidence_interval r)).
Proof.
  destruct predictions_clamped_nonneg as (Hpredict & _ & Htraining).
  split.
  - eexists. split; [vm_compute; reflexivity|].
    apply (Hpredict Examples.sqrt_micro Examples.steady_predictor
                    (TrainModel.FeatureDict Examples.middle_features)).
    vm_compute. reflexivity.
  - eexists. eexists. split; [vm_compute; reflexivity|].
    split; [vm_compute; reflexivity|].
    apply (Htraining Examples.toy_library Examples.toy_project
                     Examples.loaded_predictor Examples.loaded_predictor).
    vm_compute. reflexivity.
Defined.

End ServiceFacts.

(** ** Rounding *)

From Stdlib Require OrderedTypeEx.
From Stdlib Require Import Sorted Permutation.

Unset Implicit Arguments.

Module RoundFacts.

Lemma round_half_even_mono (q1 q2 : Q) :
  q1 <= q2 -> (round_half_even q1 <= round_half_even q2)%Z.
Proof.
  intros Hle.
  pose proof (Qfloor_resp_le _ _ Hle) as Hfloor.
  pose proof (Qfloor_le q2) as Hf2.
  destruct (round_half_even_cases q1) as [E1 | [E1 Hr1]]; rewrite E1.
  - destruct (round_half_even_cases q2) as [-> | [-> _]]; lia.
  - destruct (Z.eq_dec (Qfloor q1) (Qfloor q2)) as [Heq | Hneq].
    + unfold round_half_even at 1. rewrite <- Heq.
      destruct (Qlt_bool (q2 - inject_Z (Qfloor q1)) (1 # 2)) eqn:E2.
      { apply Qlt_bool_true in E2. lra. }
      destruct (Qlt_bool (1 # 2) (q2 - inject_Z (Qfloor q1))) eqn:E3; [lia|].
      apply Qlt_bool_false in E3.
      revert E1. unfold round_half_even.
      destruct (Qlt_bool (q1 - inject_Z (Qfloor q1)) (1 # 2)) eqn:E4.
      { apply Qlt_bool_true in E4. lra. }
      destruct (Qlt_bool (1 # 2) (q1 - inject_Z (Qfloor q1))) eqn:E5.
      { apply Qlt_bool_true in E5. lra. }
      destruct (Z.even (Qfloor q1)); lia.
    + destruct (round_half_even_cases q2) as [-> | [-> _]]; lia.
Qed.

Lemma scale_nonneg (n : nat) : 0 <= inject_Z (Z.pos (Z.to_pos (10 ^ Z.of_nat n))).
Proof. change 0 with (inject_Z 0). rewrite <- Zle_Qle. lia. Qed.

Lemma py_round_mono (q1 q2 : Q) (n : nat) :
  q1 <= q2 -> py_round q1 n <= py_round q2 n.
Proof.
  intros Hle. unfold py_round.
  set (scale := Z.to_pos (10 ^ Z.of_nat n)).
  assert (Hr : (round_half_even (q1 * inject_Z (Z.pos scale))
                <= round_half_even (q2 * inject_Z (Z.pos scale)))%Z).
  { apply round_half_even_mono. pose proof (scale_nonneg n). fold scale in H. nra. }
  unfold Qle. cbn [Qnum Qden]. nia.
Qed.

Lemma py_round_lower (k : Z) (q : Q) (n : nat) :
  inject_Z k <= q -> inject_Z k <= py_round q n.
Proof.
  intros Hle. unfold py_round.
  set (scale := Z.to_pos (10 ^ Z.of_nat n)).
  assert (Hr : (k * Z.pos scale <= round_half_even (q * inject_Z (Z.pos scale)))%Z).
  { apply round_half_even_lower. rewrite inject_Z_mult.
    pose proof (scale_nonneg n). fold scale in H. nra. }
  unfold Qle. cbn [Qnum Qden inject_Z]. lia.
Qed.

Lemma py_round_upper (k : Z) (q : Q) (n : nat) :
  q <= inject_Z k -> py_round q n <= inject_Z k.
Proof.
  intros Hle. unfold py_round.
  set (scale := Z.to_pos (10 ^ Z.of_nat n)).
  assert (Hr : (round_half_even (q * inject_Z (Z.pos scale)) <= k * Z.pos scale)%Z).
  { apply round_half_even_upper. rewrite inject_Z_mult.
    pose proof (scale_nonneg n). fold scale in H. nra. }
  unfold Qle. cbn [Qnum Qden inject_Z]. lia.
Qed.

Lemma py_max_eq_l (a b : Q) : b <= a -> py_max a b = a.
Proof.
  intros H. unfold py_max. destruct (Qlt_bool a b) eqn:E; [| reflexivity].
  apply Qlt_bool_true in E. lra.
Qed.

Lemma py_max_eq_r (a b : Q) : a < b -> py_max a b = b.
Proof.
  intros H. unfold py_max. destruct (Qlt_bool a b) eqn:E; [reflexivity|].
  apply Qlt_bool_false in E. lra.
Qed.

Lemma py_min_eq_l (a b : Q) : a <= b -> py_min a b = a.
Proof.
  intros H. unfold py_min. destruct (Qlt_bool b a) eqn:E; [| reflexivity].
  apply Qlt_bool_true in E. lra.
Qed.

Lemma py_min_eq_r (a b : Q) : b < a -> py_min a b = b.
Proof.
  intros H. unfold py_min. destruct (Qlt_bool b a) eqn:E; [reflexivity|].
  apply Qlt_bool_false in E. lra.
Qed.

Lemma py_min_mono_r (a b1 b2 : Q) : b1 <= b2 -> py_min a b1 <= py_min a b2.
Proof.
  intros H. apply py_min_lower.
  - apply py_min_upper_l.
  - apply Qle_trans with b1; [apply py_min_upper_r | exact H].
Qed.

Lemma py_max_mono_r (a b1 b2 : Q) : b1 <= b2 -> py_max a b1 <= py_max a b2.
Proof.
  intros H. apply py_max_upper.
  - apply py_max_lower_l.
  - apply Qle_trans with b2; [exact H | apply py_max_lower_r].
Qed.

Lemma Qlt_bool_iff_false (a b : Q) : b <= a -> Qlt_bool a b = false.
Proof.
  intros H. destruct (Qlt_bool a b) eqn:E; [| reflexivity].
  apply Qlt_bool_true in E. lra.
Qed.

Lemma Qlt_bool_iff_true (a b : Q) : a < b -> Qlt_bool a b = true.
Proof.
  intros H. destruct (Qlt_bool a b) eqn:E; [reflexivity|].
  apply Qlt_bool_false in E. lra.
Qed.

End RoundFacts.

(** ** More on feature derivation *)

Module MlApiMore.

Import MlApi RoundFacts.

Section Features.

Variable fromisoformat : string -> result datetime.
Variable clk : clock.



Lemma truediv_ok (a b : Z) :
  b <> 0%Z -> truediv a b = Ok (inject_Z a / inject_Z b).
Proof.
  intros Hb. unfold truediv. destruct (b =? 0)%Z eqn:E; [| reflexivity].
  apply Z.eqb_eq in E. contradiction.
Qed.


(** The progress block once the dates are known to parse. *)
Lemma progress_block_dates cp sd ed s e total elapsed :
  truthy sd && truthy ed = true ->
  fromisoformat (replace "Z" "+00:00" (get sd "")) = Ok s ->
  fromisoformat (replace "Z" "+00:00" (get ed "")) = Ok e ->
  dt_sub e s = Ok total ->
  dt_sub (now clk (tzinfo s)) s = Ok elapsed ->
  progress_block fromisoformat clk cp sd ed =
  Ok (if (0 <? days total)%Z
      then py_max 0.1
             (py_min 1
                (1 + (cp - py_min 1
                             (py_max 0 (inject_Z (days elapsed)
                                        / inject_Z (days total))))))
      else 0.8,
      Some (e, now clk (tzinfo s), days total)).
Proof.
  intros Hdates Hs He Htotal Helapsed. unfold progress_block.
  rewrite Hdates. rewrite Hs. cbn [bind].
  rewrite He. cbn [bind]. rewrite Htotal. cbn [bind].
  rewrite Helapsed. cbn [bind].
  destruct (0 <? days total)%Z eqn:E; [| reflexivity].
  rewrite truediv_ok; [reflexivity|]. apply Z.ltb_lt in E. lia.
Qed.

Lemma progress_block_inv cp sd ed pe dates :
  truthy sd && truthy ed = true ->
  progress_block fromisoformat clk cp sd ed = Ok (pe, dates) ->
  exists s e total,
    fromisoformat (replace "Z" "+00:00" (get sd "")) = Ok s /\
    fromisoformat (replace "Z" "+00:00" (get ed "")) = Ok e /\
    dt_sub e s = Ok total /\
    dates = Some (e, now clk (tzinfo s), days total).
Proof.
  intros Hdates H. unfold progress_block in H. rewrite Hdates in H.
  bind_inv H as s Hs. bind_inv H as e He. bind_inv H as total Htotal.
  bind_inv H as elapsed Helapsed.
  exists s, e, total. repeat split; try assumption.
  destruct (0 <? days total)%Z.
  - bind_inv H as ratio Hratio. apply Ok_inj in H. congruence.
  - apply Ok_inj in H. congruence.
Qed.

Lemma extract_unfold p :
  extract_features_from_project fromisoformat clk p =
  bind (progress_block fromisoformat clk (get (currentProgress p) 0 / 100)
          (startDate p) (endDate p))
    (fun pd =>
       bind (timeline_block (get (currentProgress p) 0 / 100) (snd pd))
         (fun tp =>
            let total :=
              (len (get (humanResources p) []) + len (get (materials p) [])
               + len (get (equipment p) []))%Z in
            let budget := get (totalBudget p) 1000000 in
            Ok {| progress_efficiency := py_round (fst pd) 3;
                  resource_availability :=
                    py_round
                      (if (0 <? total)%Z
                       then py_min 1 (inject_Z total / 15) * 0.6
                            + py_min 1 (budget / 10000000) * 0.4
                       else 0.5) 3;
                  project_complexity :=
                    py_round (py_min 1 (budget / 50000000) * 0.6
                              + py_min 1 (inject_Z total / 20) * 0.4) 3;
                  weather_impact :=
                    py_round (weather_lookup weather_risk_map
                                (lower (get (location p) "")) 0.7) 3;
                  timeline_pressure := py_round tp 3 |})).
Proof.
  unfold extract_features_from_project.
  destruct (progress_block _ _ _ _ _) as [[pe dates] |]; reflexivity.
Qed.

End Features.


Ltac extract_inv H pe dates Hpe tp Htp :=
  rewrite extract_unfold in H;
  bind_inv H as [pe dates] Hpe; cbn [snd fst] in H;
  bind_inv H as tp Htp; apply Ok_inj in H;
  match type of H with _ = ?f => subst f end;
  unfold progress_efficiency, resource_availability, project_complexity,
    weather_impact, timeline_pressure.

Lemma weather_lookup_values (loc : string) :
  let w := weather_lookup weather_risk_map loc 0.7 in
  w = 0.6 \/ w = 0.7 \/ w = 0.8 \/ w = 0.9.
Proof.
  unfold weather_risk_map. cbn [weather_lookup].
  repeat (destruct (contains _ loc); [tauto|]). tauto.
Qed.

(** X2: whenever the function returns, progress_efficiency is at least 0.1,
    weather_impact is one of 0.6, 0.7, 0.8 and 0.9, and timeline_pressure
    is one of 0.3, 0.4, 0.6 and 0.8. *)
Theorem extract_features_value_sets
    (fromisoformat : string -> result datetime) (clk : clock)
    (p : project_data) (f : features) :
  extract_features_from_project fromisoformat clk p = Ok f ->
  0.1 <= progress_efficiency f /\
  (weather_impact f == 0.6 \/ weather_impact f == 0.7 \/
   weather_impact f == 0.8 \/ weather_impact f == 0.9) /\
  (timeline_pressure f == 0.3 \/ timeline_pressure f == 0.4 \/
   timeline_pressure f == 0.6 \/ timeline_pressure f == 0.8).
Proof.
  intros H. extract_inv H pe dates Hpe tp Htp.
  split; [| split].
  - apply Qle_trans with (py_round 0.1 3); [vm_compute; discriminate|].
    apply py_round_mono.
    unfold progress_block in Hpe.
    destruct (truthy (startDate p) && truthy (endDate p)).
    + bind_inv_all Hpe. destruct (0 <? _)%Z.
      * bind_inv_all Hpe. apply Ok_inj in Hpe. injection Hpe as <- _.
        apply py_max_lower_l.
      * apply Ok_inj in Hpe. injection Hpe as <- _. lra.
    + apply Ok_inj in Hpe. injection Hpe as <- _. lra.
  - destruct (weather_lookup_values (lower (get (location p) "")))
      as [-> | [-> | [-> | ->]]]; [left | right; left | do 2 right; left | do 3 right];
      reflexivity.
  - destruct (MlApiFacts.timeline_block_values _ _ Htp) as [-> | [-> | [-> | ->]]];
      [do 3 right | do 2 right; left | left | right; left]; reflexivity.
Qed.

Lemma extract_features_value_sets_witness :
  exists f,
    extract_features_from_project IsoDate.fromisoformat_date
      (Examples.clock_at 2024 12 1) Examples.year_project = Ok f /\
    0.1 <= progress_efficiency f /\
    (weather_impact f == 0.6 \/ weather_impact f == 0.7 \/
     weather_impact f == 0.8 \/ weather_impact f == 0.9) /\
    (timeline_pressure f == 0.3 \/ timeline_pressure f == 0.4 \/
     timeline_pressure f == 0.6 \/ timeline_pressure f == 0.8).
Proof.
  eexists. split; [vm_compute; reflexivity|].
  apply (extract_features_value_sets IsoDate.fromisoformat_date
           (Examples.clock_at 2024 12 1) Examples.year_project).
  vm_compute. reflexivity.
Defined.

(** X3: the normalisations saturate. With at least 15 listed resources and
    a budget of at least ten million, resource_availability is 1; with at
    least 20 resources and at least fifty million, project_complexity is
    1. *)
Theorem extract_features_saturation
    (fromisoformat : string -> result datetime) (clk : clock)
    (p : project_data) (f : features) :
  extract_features_from_project fromisoformat clk p = Ok f ->
  let total := (len (get (humanResources p) []) + len (get (materials p) [])
                + len (get (equipment p) []))%Z in
  let budget := get (totalBudget p) 1000000 in
  ((15 <= total)%Z -> 10000000 <= budget -> resource_availability f == 1) /\
  ((20 <= total)%Z -> 50000000 <= budget -> project_complexity f == 1).
Proof.
  intros H total budget. extract_inv H pe dates Hpe tp Htp.
  fold total. fold budget.
  assert (Hdiv : forall (c : positive) (x : Q),
             inject_Z (Z.pos c) <= x -> 1 <= x / inject_Z (Z.pos c)).
  { intros c x Hx. apply Qle_shift_div_l; [reflexivity | lra]. }
  split.
  - intros Ht Hb.
    assert (Hpos : (0 <? total)%Z = true) by (apply Z.ltb_lt; lia).
    rewrite Hpos.
    rewrite (py_min_eq_l 1 (inject_Z total / 15)).
    2:{ apply (Hdiv 15%positive). rewrite <- Zle_Qle. exact Ht. }
    rewrite (py_min_eq_l 1 (budget / 10000000)).
    2:{ apply (Hdiv 10000000%positive). exact Hb. }
    reflexivity.
  - intros Ht Hb.
    rewrite (py_min_eq_l 1 (inject_Z total / 20)).
    2:{ apply (Hdiv 20%positive). rewrite <- Zle_Qle. exact Ht. }
    rewrite (py_min_eq_l 1 (budget / 50000000)).
    2:{ apply (Hdiv 50000000%positive). exact Hb. }
    reflexivity.
Qed.

Lemma extract_features_saturation_witness :
  exists f,
    extract_features_from_project IsoDate.fromisoformat_date
      (Examples.clock_at 2024 3 1) MoreExamples.large_project = Ok f /\
    (15 <= 20)%Z /\ (20 <= 20)%Z /\
    10000000 <= 60000000 /\ 50000000 <= 60000000 /\
    resource_availability f == 1 /\ project_complexity f == 1.
Proof.
  eexists. split; [vm_compute; reflexivity|].
  assert (H15 : (15 <= 20)%Z) by lia. assert (H20 : (20 <= 20)%Z) by lia.
  assert (Hb1 : 10000000 <= 60000000) by lra.
  assert (Hb2 : 50000000 <= 60000000) by lra.
  destruct (extract_features_saturation IsoDate.fromisoformat_date
              (Examples.clock_at 2024 3 1) MoreExamples.large_project _ eq_refl)
    as [Hra Hpc].
  exact (conj H15 (conj H20 (conj Hb1 (conj Hb2
           (conj (Hra H15 Hb1) (Hpc H20 Hb2)))))).
Defined.

(** X4: the budget enters only resource_availability and
    project_complexity, and neither decreases when the budget grows: for two
    records that differ in totalBudget alone, the larger budget gives values
    at least as large, and the other three features are the same. *)
Theorem extract_features_budget_monotone
    (fromisoformat : string -> result datetime) (clk : clock)
    (cp : option Q) (sd ed : option string) (hr mt eq : option (list string))
    (loc : option string) (b1 b2 : Q) (f1 f2 : features) :
  b1 <= b2 ->
  extract_features_from_project fromisoformat clk
    (mkProject cp sd ed hr mt eq (Some b1) loc) = Ok f1 ->
  extract_features_from_project fromisoformat clk
    (mkProject cp sd ed hr mt eq (Some b2) loc) = Ok f2 ->
  resource_availability f1 <= resource_availability f2 /\
  project_complexity f1 <= project_complexity f2 /\
  progress_efficiency f1 = progress_efficiency f2 /\
  weather_impact f1 = weather_impact f2 /\
  timeline_pressure f1 = timeline_pressure f2.
Proof.
  intros Hb H1 H2.
  extract_inv H1 pe1 dates1 Hpe1 tp1 Htp1.
  extract_inv H2 pe2 dates2 Hpe2 tp2 Htp2.
  cbn [currentProgress startDate endDate humanResources materials equipment
       totalBudget location get] in *.
  rewrite Hpe1 in Hpe2. apply Ok_inj in Hpe2.
  apply pair_equal_spec in Hpe2. destruct Hpe2 as [<- <-].
  rewrite Htp1 in Htp2. apply Ok_inj in Htp2. subst tp2.
  assert (Hmin : forall c : Q, 0 < c -> py_min 1 (b1 / c) <= py_min 1 (b2 / c)).
  { intros c Hc. apply py_min_mono_r. unfold Qdiv.
    apply Qmult_le_compat_r; [exact Hb|]. apply Qlt_le_weak.
    now apply Qinv_lt_0_compat. }
  split; [| split; [| repeat split]].
  - apply py_round_mono. destruct (0 <? _)%Z; [| lra].
    assert (H10 : py_min 1 (b1 / 10000000) <= py_min 1 (b2 / 10000000))
      by (apply Hmin; reflexivity).
    lra.
  - apply py_round_mono.
    assert (H50 : py_min 1 (b1 / 50000000) <= py_min 1 (b2 / 50000000))
      by (apply Hmin; reflexivity).
    lra.
Qed.

Lemma extract_features_budget_monotone_witness :
  exists f1 f2,
    1000000 <= 30000000 /\
    extract_features_from_project IsoDate.fromisoformat_date
      (Examples.clock_at 2024 3 1)
      (mkProject (Some 50) None None (Some ["mason"]) None None
                 (Some 1000000) (Some "Pune")) = Ok f1 /\
    extract_features_from_project IsoDate.fromisoformat_date
      (Examples.clock_at 2024 3 1)
      (mkProject (Some 50) None None (Some ["mason"]) None None
                 (Some 30000000) (Some "Pune")) = Ok f2 /\
    resource_availability f1 <= resource_availability f2 /\
    project_complexity f1 <= project_complexity f2.
Proof.
  eexists. eexists. split; [lra|].
  split; [vm_compute; reflexivity|]. split; [vm_compute; reflexivity|].
  assert (Hb : 1000000 <= 30000000) by lra.
  destruct (extract_features_budget_monotone IsoDate.fromisoformat_date
              (Examples.clock_at 2024 3 1) (Some 50) None None
              (Some ["mason"]) None None (Some "Pune") 1000000 30000000
              _ _ Hb eq_refl eq_refl) as (Hra & Hpc & _).
  split; assumption.
Defined.

(** X5: a project that has not started (fewer than one whole day elapsed
    since startDate, or none), with a planned duration of at least one day
    and a progress that is not negative, has progress_efficiency 1. *)
Theorem extract_features_not_started
    (fromisoformat : string -> result datetime) (clk : clock)
    (p : project_data) (s e : datetime) (total elapsed : Z) (f : features) :
  truthy (startDate p) && truthy (endDate p) = true ->
  fromisoformat (replace "Z" "+00:00" (get (startDate p) "")) = Ok s ->
  fromisoformat (replace "Z" "+00:00" (get (endDate p) "")) = Ok e ->
  dt_sub e s = Ok total -> (0 < days total)%Z ->
  dt_sub (now clk (tzinfo s)) s = Ok elapsed -> (days elapsed <= 0)%Z ->
  0 <= get (currentProgress p) 0 ->
  extract_features_from_project fromisoformat clk p = Ok f ->
  progress_efficiency f == 1.
Proof.
  intros Hdates Hs He Htotal Hpos Helapsed Hneg Hcp H.
  extract_inv H pe dates Hpe tp Htp.
  rewrite (progress_block_dates fromisoformat clk _ _ _ _ _ _ _
             Hdates Hs He Htotal Helapsed) in Hpe.
  apply Ok_inj in Hpe. apply pair_equal_spec in Hpe. destruct Hpe as [<- _].
  assert (Hlt : (0 <? days total)%Z = true) by now apply Z.ltb_lt.
  rewrite Hlt.
  assert (Hratio : inject_Z (days elapsed) / inject_Z (days total) <= 0).
  { apply Qle_shift_div_r.
    - change 0 with (inject_Z 0). now rewrite <- Zlt_Qlt.
    - rewrite Qmult_0_l. change 0 with (inject_Z 0). now rewrite <- Zle_Qle. }
  rewrite (py_max_eq_l 0 _ Hratio).
  rewrite (py_min_eq_r 1 0) by lra.
  rewrite (py_min_eq_l 1 (1 + (get (currentProgress p) 0 / 100 - 0))).
  2:{ assert (0 <= get (currentProgress p) 0 / 100).
      { apply Qle_shift_div_l; [reflexivity | lra]. }
      lra. }
  reflexivity.
Qed.

Lemma extract_features_not_started_witness :
  exists f,
    extract_features_from_project IsoDate.fromisoformat_date
      (Examples.clock_at 2023 6 1) Examples.year_project = Ok f /\
    progress_efficiency f == 1.
Proof.
  eexists. split; [vm_compute; reflexivity|].
  apply (extract_features_not_started IsoDate.fromisoformat_date
           (Examples.clock_at 2023 6 1) Examples.year_project
           (mkDatetime (IsoDate.midnight 2024 1 1) None)
           (mkDatetime (IsoDate.midnight 2024 12 31) None)
           (IsoDate.midnight 2024 12 31 - IsoDate.midnight 2024 1 1)
           (IsoDate.midnight 2023 6 1 + 0 - IsoDate.midnight 2024 1 1));
    try (vm_compute; reflexivity); try (vm_compute; discriminate).
Defined.

(** X6: for a project past its endDate (no whole day remaining), with a
    planned duration of at least one day, timeline_pressure is 0.8 when the
    progress is below 80 per cent and 0.3 otherwise. *)
Theorem extract_features_overdue
    (fromisoformat : string -> result datetime) (clk : clock)
    (p : project_data) (s e : datetime) (total remaining : Z) (f : features) :
  truthy (startDate p) && truthy (endDate p) = true ->
  fromisoformat (replace "Z" "+00:00" (get (startDate p) "")) = Ok s ->
  fromisoformat (replace "Z" "+00:00" (get (endDate p) "")) = Ok e ->
  dt_sub e s = Ok total -> (0 < days total)%Z ->
  dt_sub e (now clk (tzinfo s)) = Ok remaining -> (days remaining <= 0)%Z ->
  extract_features_from_project fromisoformat clk p = Ok f ->
  (get (currentProgress p) 0 < 80 -> timeline_pressure f == 0.8) /\
  (80 <= get (currentProgress p) 0 -> timeline_pressure f == 0.3).
Proof.
  intros Hdates Hs He Htotal Hpos Hrem Hneg H.
  extract_inv H pe dates Hpe tp Htp.
  destruct (progress_block_inv fromisoformat clk _ _ _ _ _ Hdates Hpe)
    as (s' & e' & total' & Hs' & He' & Htotal' & ->).
  rewrite Hs in Hs'. apply Ok_inj in Hs'. subst s'.
  rewrite He in He'. apply Ok_inj in He'. subst e'.
  rewrite Htotal in Htotal'. apply Ok_inj in Htotal'. subst total'.
  unfold timeline_block in Htp. rewrite Hrem in Htp. cbn [bind] in Htp.
  rewrite truediv_ok in Htp by lia. cbn [bind] in Htp.
  assert (Hratio : inject_Z (days remaining) / inject_Z (days total) <= 0).
  { apply Qle_shift_div_r.
    - change 0 with (inject_Z 0). now rewrite <- Zlt_Qlt.
    - rewrite Qmult_0_l. change 0 with (inject_Z 0). now rewrite <- Zle_Qle. }
  rewrite (py_max_eq_l 0 _ Hratio) in Htp.
  change (Qlt_bool 0 0.3) with true in Htp.
  change (Qlt_bool 0 0.5) with true in Htp.
  cbn [andb] in Htp.
  split; intros Hcp.
  - rewrite Qlt_bool_iff_true in Htp.
    + apply Ok_inj in Htp. subst tp. reflexivity.
    + apply Qlt_shift_div_r; [reflexivity | lra].
  - rewrite Qlt_bool_iff_false in Htp.
    + rewrite Qlt_bool_iff_false in Htp.
      * apply Ok_inj in Htp. subst tp. reflexivity.
      * apply Qle_shift_div_l; [reflexivity | lra].
    + apply Qle_shift_div_l; [reflexivity | lra].
Qed.

Lemma extract_features_overdue_witness :
  exists f,
    extract_features_from_project IsoDate.fromisoformat_date
      (Examples.clock_at 2025 3 1) Examples.year_project = Ok f /\
    get (currentProgress Examples.year_project) 0 < 80 /\
    timeline_pressure f == 0.8.
Proof.
  eexists. split; [vm_compute; reflexivity|]. split; [vm_compute; reflexivity|].
  apply (extract_features_overdue IsoDate.fromisoformat_date
           (Examples.clock_at 2025 3 1) Examples.year_project
           (mkDatetime (IsoDate.midnight 2024 1 1) None)
           (mkDatetime (IsoDate.midnight 2024 12 31) None)
           (IsoDate.midnight 2024 12 31 - IsoDate.midnight 2024 1 1)
           (IsoDate.midnight 2024 12 31 - (IsoDate.midnight 2025 3 1 + 0)));
    try (vm_compute; reflexivity); try (vm_compute; discriminate).
Defined.

(** X7: a project whose progress is at least 80 per cent never gets a
    raised timeline pressure: the value is 0.3, or 0.4 when a date is
    missing. *)
Theorem extract_features_advanced_progress
    (fromisoformat : string -> result datetime) (clk : clock)
    (p : project_data) (f : features) :
  80 <= get (currentProgress p) 0 ->
  extract_features_from_project fromisoformat clk p = Ok f ->
  timeline_pressure f == 0.3 \/ timeline_pressure f == 0.4.
Proof.
  intros Hcp H. extract_inv H pe dates Hpe tp Htp.
  assert (H8 : Qlt_bool (get (currentProgress p) 0 / 100) 0.8 = false).
  { apply Qlt_bool_iff_false. apply Qle_shift_div_l; [reflexivity | lra]. }
  assert (H7 : Qlt_bool (get (currentProgress p) 0 / 100) 0.7 = false).
  { apply Qlt_bool_iff_false. apply Qle_shift_div_l; [reflexivity | lra]. }
  unfold timeline_block in Htp.
  destruct dates as [[[e now_] total_days] |].
  - bind_inv_all Htp. rewrite H8, H7, !andb_false_r in Htp.
    apply Ok_inj in Htp. subst tp. left. reflexivity.
  - apply Ok_inj in Htp. subst tp. right. reflexivity.
Qed.

Lemma extract_features_advanced_progress_witness :
  exists f,
    80 <= get (currentProgress MoreExamples.advanced_project) 0 /\
    extract_features_from_project IsoDate.fromisoformat_date
      (Examples.clock_at 2024 12 1) MoreExamples.advanced_project = Ok f /\
    (timeline_pressure f == 0.3 \/ timeline_pressure f == 0.4).
Proof.
  eexists. split; [vm_compute; discriminate|].
  split; [vm_compute; reflexivity|].
  apply (extract_features_advanced_progress IsoDate.fromisoformat_date
           (Examples.clock_at 2024 12 1) MoreExamples.advanced_project).
  - vm_compute. discriminate.
  - vm_compute. reflexivity.
Defined.

End MlApiMore.

(** ** More on the predictor of [train_model.py] *)

Module TrainModelMore.

Import TrainModel RoundFacts.

Lemma penalty_fold (row : list Q) (base : Z) :
  fold_left (fun base value =>
               if Qlt_bool value 0.1 || Qlt_bool 0.9 value
               then (base - 5)%Z else base) row base =
  (base - 5 * Z.of_nat
            (List.length
               (filter (fun v => Qlt_bool v 0.1 || Qlt_bool 0.9 v) row)))%Z.
Proof.
  revert base. induction row as [| v row IH]; intros base; cbn [fold_left filter].
  - cbn [List.length]. lia.
  - rewrite IH. destruct (Qlt_bool v 0.1 || Qlt_bool 0.9 v).
    + cbn [List.length]. lia.
    + reflexivity.
Qed.

(** X8: [_calculate_overall_confidence] is 85 less 5 for each value of the
    row below 0.1 or above 0.9, and never less than 60. The cap of 95 is
    never reached: the score is at most 85. *)
Theorem overall_confidence_formula (row : list Q) :
  let extreme :=
    Z.of_nat (List.length
                (filter (fun v => Qlt_bool v 0.1 || Qlt_bool 0.9 v) row)) in
  _calculate_overall_confidence row = Z.max 60 (85 - 5 * extreme) /\
  (_calculate_overall_confidence row <= 85)%Z.
Proof.
  cbv zeta. unfold _calculate_overall_confidence. rewrite penalty_fold.
  set (k := Z.of_nat _). assert (0 <= k)%Z by (unfold k; lia).
  unfold Zmax_py, Zmin_py.
  destruct (85 - 5 * k <? 95)%Z eqn:E1; [| apply Z.ltb_ge in E1; lia].
  destruct (60 <? 85 - 5 * k)%Z eqn:E2;
    [apply Z.ltb_lt in E2 | apply Z.ltb_ge in E2]; lia.
Qed.


Lemma last_item_nil (A : Type) (x : A) : last_item (@nil A) = Ok x -> False.
Proof. discriminate. Qed.


End TrainModelMore.

(** ** The other routes of [ml_system/ml_api.py] *)

Module MlApiRoutesFacts.

Import MlApi MlApiRoutes.

Section Routes.

Variable fromisoformat : string -> result datetime.
Variable sqrt : Q -> Q.
Variable predictor : TrainModel.ConstructionDelayPredictor.
Variable clk : clock.

Lemma batch_loop_step project rest predictions :
  batch_loop fromisoformat sqrt predictor clk (project :: rest) predictions =
  bind (project_entry fromisoformat sqrt predictor clk project) (fun e => batch_loop fromisoformat sqrt predictor clk rest (predictions ++ [e])%list).
Proof.
  cbn [batch_loop]. unfold project_entry.
  destruct (extract_features_from_project _ _ _) as [features |]; [| reflexivity].
  cbn [bind]. destruct (TrainModel.predict _ _ _) as [prediction |]; reflexivity.
Qed.

Lemma batch_loop_all l entries predictions :
  map (project_entry fromisoformat sqrt predictor clk) l = map Ok entries ->
  batch_loop fromisoformat sqrt predictor clk l predictions = Ok (predictions ++ entries)%list.
Proof.
  revert entries predictions.
  induction l as [| project rest IH]; intros entries predictions H.
  - destruct entries; [| discriminate H]. now rewrite app_nil_r.
  - destruct entries as [| e entries]; [discriminate H|].
    cbn [map] in H. injection H as He Hrest.
    rewrite batch_loop_step, He. cbn [bind].
    rewrite (IH entries _ Hrest). now rewrite <- app_assoc.
Qed.

Lemma batch_loop_first_failure before project after entries e predictions :
  map (project_entry fromisoformat sqrt predictor clk) before = map Ok entries ->
  project_entry fromisoformat sqrt predictor clk project = Raise e ->
  batch_loop fromisoformat sqrt predictor clk (before ++ project :: after) predictions = Raise e.
Proof.
  revert entries predictions.
  induction before as [| b before IH]; intros entries predictions Hb Hp.
  - cbn [app]. rewrite batch_loop_step, Hp. reflexivity.
  - destruct entries as [| x entries]; [discriminate Hb|].
    cbn [map] in Hb. injection Hb as Hx Hrest.
    cbn [app]. rewrite batch_loop_step, Hx. cbn [bind].
    exact (IH entries _ Hrest Hp).
Qed.

End Routes.

(** X10: [POST /predict/batch] is all or nothing. When every project of the
    list yields an entry the answer is 200 with the entries in the order of
    the projects and their number as total; when a project fails, the
    answer is 500 with the message of the first failing project and the
    entries already computed are dropped. *)
Theorem predict_batch_all_or_nothing
    (fromisoformat : string -> result datetime) (sqrt : Q -> Q)
    (predictor : TrainModel.ConstructionDelayPredictor) (clk : clock)
    (l : list batch_project) :
  let req := mkBatchRequest (Ok (Some (mkBatchPayload (Some l)))) in
  let entry := project_entry fromisoformat sqrt predictor clk in
  (forall entries,
     map entry l = map Ok entries ->
     predict_batch fromisoformat sqrt predictor clk req
       = mkResponse 200 (BatchBody entries (len l))) /\
  (forall before project after entries e,
     l = (before ++ project :: after)%list ->
     map entry before = map Ok entries ->
     entry project = Raise e ->
     predict_batch fromisoformat sqrt predictor clk req
       = mkResponse 500 (FailureBody (str_of_exn e))).
Proof.
  cbv zeta. unfold predict_batch, predict_batch_try.
  cbn [batch_json bind projects]. split.
  - intros entries H.
    rewrite (batch_loop_all fromisoformat sqrt predictor clk l entries [] H).
    cbn [bind app]. unfold len.
    assert (Hlen : List.length entries = List.length l).
    { apply (f_equal (@List.length _)) in H. now rewrite !length_map in H. }
    now rewrite Hlen.
  - intros before project after entries e -> Hb Hp.
    now rewrite (batch_loop_first_failure fromisoformat sqrt predictor clk
                   before project after entries e [] Hb Hp).
Qed.

Lemma predict_batch_all_or_nothing_witness :
  (exists entry,
     predict_batch IsoDate.fromisoformat_date Examples.sqrt_micro
       Examples.steady_predictor (Examples.clock_at 2024 3 1)
       (mkBatchRequest
          (Ok (Some (mkBatchPayload
                       (Some [mkBatchProject (Some "A-1") Examples.year_project])))))
     = mkResponse 200 (BatchBody [entry] 1)) /\
  predict_batch IsoDate.fromisoformat_date Examples.sqrt_micro
    Examples.steady_predictor (Examples.clock_at 2024 3 1)
    (mkBatchRequest (Ok (Some (mkBatchPayload (Some MoreExamples.mixed_batch)))))
  = mkResponse 500 (FailureBody "division by zero").
Proof.
  split.
  - eexists.
    refine (proj1 (predict_batch_all_or_nothing IsoDate.fromisoformat_date
                     Examples.sqrt_micro Examples.steady_predictor
                     (Examples.clock_at 2024 3 1) _) [_] _).
    vm_compute. reflexivity.
  - refine (proj2 (predict_batch_all_or_nothing IsoDate.fromisoformat_date
                     Examples.sqrt_micro Examples.steady_predictor
                     (Examples.clock_at 2024 3 1) MoreExamples.mixed_batch)
              [mkBatchProject (Some "A-1") Examples.year_project]
              (mkBatchProject None Examples.zero_duration_project) []
              [_] ZeroDivisionError eq_refl _ _).
    + vm_compute. reflexivity.
    + vm_compute. reflexivity.
Defined.

(** X11: [/features/explain] reports the features that [/predict] uses:
    whenever [/predict] answers with a prediction for a body that carries a
    project, [/features/explain] answers 200 for the same body at the same
    time with the same features. *)
Theorem explain_features_matches_predict
    (fromisoformat : string -> result datetime) (sqrt : Q -> Q)
    (predictor : TrainModel.ConstructionDelayPredictor) (clk : clock)
    (data : payload) (p : project_data)
    (d c : Q) (pct : Z) (dr cr : Q * Q) (f : features) (n : Z) :
  project data = Some p ->
  MlApi.json (predict_delay fromisoformat sqrt predictor clk
                (mkRequest (Ok (Some data))))
    = PredictionBody d c pct dr cr f n ->
  exists details,
    explain_features fromisoformat clk (mkRequest (Ok (Some data)))
      = mkResponse 200 (ExplainBody f details).
Proof.
  intros Hp. unfold predict_delay, predict_delay_try, explain_features.
  cbn [get_json bind]. rewrite Hp. cbn [get].
  destruct (extract_features_from_project fromisoformat clk p) as [features | e];
    cbn [bind]; [| discriminate].
  destruct (TrainModel.predict _ _ _) as [prediction | e]; cbn [bind MlApi.json];
    [| discriminate].
  intros H. injection H as _ _ _ _ _ <- _. eauto.
Qed.

Lemma explain_features_matches_predict_witness :
  exists d c pct dr cr f n details,
    project (mkPayload (Some Examples.year_project)) = Some Examples.year_project /\
    MlApi.json (predict_delay IsoDate.fromisoformat_date Examples.sqrt_micro
                  Examples.steady_predictor (Examples.clock_at 2024 3 1)
                  (mkRequest (Ok (Some (mkPayload (Some Examples.year_project))))))
      = PredictionBody d c pct dr cr f n /\
    explain_features IsoDate.fromisoformat_date (Examples.clock_at 2024 3 1)
      (mkRequest (Ok (Some (mkPayload (Some Examples.year_project)))))
      = mkResponse 200 (ExplainBody f details).
Proof.
  assert (H : exists d c pct dr cr f n,
             MlApi.json (predict_delay IsoDate.fromisoformat_date Examples.sqrt_micro
                  Examples.steady_predictor (Examples.clock_at 2024 3 1)
                  (mkRequest (Ok (Some (mkPayload (Some Examples.year_project))))))
             = PredictionBody d c pct dr cr f n).
  { do 7 eexists. vm_compute. reflexivity. }
  destruct H as (d & c & pct & dr & cr & f & n & H).
  destruct (explain_features_matches_predict IsoDate.fromisoformat_date
              Examples.sqrt_micro Examples.steady_predictor
              (Examples.clock_at 2024 3 1)
              (mkPayload (Some Examples.year_project)) Examples.year_project
              d c pct dr cr f n eq_refl H) as [details Hd].
  exists d, c, pct, dr, cr, f, n, details. repeat split; assumption.
Defined.

(** X12: a body without a ['project'] key is answered differently by the
    two routes. [/predict] refuses it with 400; [/features/explain] explains
    the empty project and answers 200 with the default features 0.8, 0.5,
    0.012, 0.7 and 0.4, whatever the clock reads. *)
Theorem explain_features_without_project
    (fromisoformat : string -> result datetime) (sqrt : Q -> Q)
    (predictor : TrainModel.ConstructionDelayPredictor) (clk : clock) :
  let req := mkRequest (Ok (Some (mkPayload None))) in
  MlApi.status (predict_delay fromisoformat sqrt predictor clk req) = 400%Z /\
  exists f details,
    explain_features fromisoformat clk req = mkResponse 200 (ExplainBody f details) /\
    progress_efficiency f == 0.8 /\ resource_availability f == 0.5 /\
    project_complexity f == 0.012 /\ weather_impact f == 0.7 /\
    timeline_pressure f == 0.4.
Proof.
  cbv zeta. split; [reflexivity|].
  unfold explain_features. cbn [get_json project get].
  unfold extract_features_from_project, empty_project.
  cbn [startDate endDate]. unfold progress_block. cbn [truthy andb bind timeline_block].
  do 2 eexists. split; [reflexivity|].
  repeat split; vm_compute; reflexivity.
Qed.

(** X13: a batch of one project answers like [/predict] on that project:
    the same delay, cost and confidence when [/predict] answers with a
    prediction, and the same 500 failure otherwise. *)
Theorem predict_batch_of_one
    (fromisoformat : string -> result datetime) (sqrt : Q -> Q)
    (predictor : TrainModel.ConstructionDelayPredictor) (clk : clock)
    (bp : batch_project) :
  let single := predict_delay fromisoformat sqrt predictor clk
                  (mkRequest (Ok (Some (mkPayload (Some (fields bp)))))) in
  let batch := predict_batch fromisoformat sqrt predictor clk
                 (mkBatchRequest (Ok (Some (mkBatchPayload (Some [bp]))))) in
  match MlApi.json single with
  | PredictionBody d c pct _ _ _ _ =>
      batch = mkResponse 200
                (BatchBody [mkBatchEntry (get (id bp) "unknown") d c pct] 1)
  | MlApi.FailureBody msg =>
      MlApi.status single = 500%Z /\ batch = mkResponse 500 (FailureBody msg)
  | MlApi.ErrorBody _ => False
  end.
Proof.
  cbv zeta. unfold predict_delay, predict_delay_try, predict_batch, predict_batch_try.
  cbn [get_json batch_json bind project projects batch_loop].
  destruct (extract_features_from_project fromisoformat clk (fields bp))
    as [features | e]; cbn [bind MlApi.json]; [| split; reflexivity].
  destruct (TrainModel.predict _ _ _) as [prediction | e]; cbn [bind MlApi.json];
    [reflexivity | split; reflexivity].
Qed.

End MlApiRoutesFacts.

(** ** Label encoders and the row of [predict_delay] *)

Module EncoderFacts.

Import Method DelayPredictor RoundFacts.

Lemma ltb_lt (a b : string) : String.ltb a b = true <-> OrderedTypeEx.String_as_OT.lt a b.
Proof.
  unfold String.ltb. rewrite <- OrderedTypeEx.String_as_OT.cmp_lt.
  change (OrderedTypeEx.String_as_OT.cmp a b) with (String.compare a b).
  destruct (String.compare a b); split; congruence.
Qed.

Lemma string_lt_trans (a b c : string) :
  String.ltb a b = true -> String.ltb b c = true -> String.ltb a c = true.
Proof.
  rewrite !ltb_lt. apply OrderedTypeEx.String_as_OT.lt_trans.
Qed.

Lemma string_lt_total (a b : string) :
  String.eqb a b = false -> String.ltb a b = false -> String.ltb b a = true.
Proof.
  unfold String.ltb. intros Hne Hlt.
  rewrite String.compare_antisym.
  destruct (String.compare a b) eqn:E; try discriminate; [| reflexivity].
  apply String.compare_eq_iff in E. subst b.
  now rewrite String.eqb_refl in Hne.
Qed.

Lemma insert_class_in (x v : string) (l : list string) :
  In v (insert_class x l) <-> v = x \/ In v l.
Proof.
  induction l as [| y l IH]; cbn [insert_class].
  - cbn [In]. intuition.
  - destruct (String.eqb x y) eqn:E.
    + apply String.eqb_eq in E. subst y. cbn [In]. intuition.
    + destruct (String.ltb x y); cbn [In]; [intuition|].
      rewrite IH. intuition.
Qed.

Lemma insert_class_sorted (x : string) (l : list string) :
  StronglySorted (fun a b => String.ltb a b = true) l ->
  StronglySorted (fun a b => String.ltb a b = true) (insert_class x l).
Proof.
  induction 1 as [| y l Hsorted IH Hall]; cbn [insert_class].
  - repeat constructor.
  - destruct (String.eqb x y) eqn:E; [now constructor|].
    destruct (String.ltb x y) eqn:Hlt.
    + constructor; [now constructor|].
      constructor; [exact Hlt|].
      eapply Forall_impl; [| exact Hall].
      intros z Hz. cbv beta in *. now apply string_lt_trans with y.
    + constructor; [exact IH|].
      apply Forall_forall. intros z Hz. apply insert_class_in in Hz.
      destruct Hz as [-> | Hz].
      * now apply string_lt_total.
      * rewrite Forall_forall in Hall. now apply Hall.
Qed.

Lemma index_of_in (v : string) (l : list string) (k : Z) :
  In v l ->
  exists i, index_of v l k = Some i /\ (k <= i)%Z /\
            nth_error l (Z.to_nat (i - k)) = Some v.
Proof.
  revert k. induction l as [| y l IH]; intros k Hin; [contradiction|].
  cbn [index_of]. destruct (String.eqb v y) eqn:E.
  - apply String.eqb_eq in E. subst y. exists k.
    rewrite Z.sub_diag. split; [reflexivity|]. split; [lia | reflexivity].
  - destruct Hin as [-> | Hin]; [now rewrite String.eqb_refl in E|].
    destruct (IH (k + 1)%Z Hin) as (i & Hi & Hle & Hnth).
    exists i. split; [exact Hi|]. split; [lia|].
    replace (Z.to_nat (i - k)) with (S (Z.to_nat (i - (k + 1)))) by lia.
    exact Hnth.
Qed.

Lemma index_of_not_in (v : string) (l : list string) (k : Z) :
  ~ In v l -> index_of v l k = None.
Proof.
  revert k. induction l as [| y l IH]; intros k Hnin; [reflexivity|].
  cbn [index_of]. destruct (String.eqb v y) eqn:E.
  - apply String.eqb_eq in E. subst y. exfalso. apply Hnin. now left.
  - apply IH. intros Hin. apply Hnin. now right.
Qed.

Lemma le_transform_seen (classes_ : LabelEncoder) (values : list string) :
  (forall v, In v values -> In v classes_) ->
  exists codes,
    le_transform classes_ values = Ok codes /\
    Forall2 (fun v code =>
               exists i, code = Num (inject_Z i) /\ (0 <= i)%Z /\
                         nth_error classes_ (Z.to_nat i) = Some v)
            values codes.
Proof.
  induction values as [| v values IH]; intros Hall.
  - exists []. split; [reflexivity | constructor].
  - destruct IH as (codes & Hcodes & Hrel).
    { intros w Hw. apply Hall. now right. }
    destruct (index_of_in v classes_ 0 (Hall v (or_introl eq_refl)))
      as (i & Hi & Hle & Hnth).
    rewrite Z.sub_0_r in Hnth.
    exists (Num (inject_Z i) :: codes). cbn [le_transform].
    rewrite Hi, Hcodes. split; [reflexivity|].
    constructor; [| exact Hrel]. now exists i.
Qed.

Lemma fit_classes_in (values : list string) (v : string) :
  In v (fit_classes values) <-> In v values.
Proof.
  unfold fit_classes. induction values as [| x values IH]; cbn [fold_right In].
  - tauto.
  - rewrite insert_class_in, IH. intuition.
Qed.

(** X14: a label encoder fitted on a column holds the distinct values of
    the column in increasing order, and encoding that column never fails:
    every value gets the position of its class, from which the value is
    read back. *)
Theorem fit_transform_round_trip (values : list string) :
  StronglySorted (fun a b => String.ltb a b = true) (fit_classes values) /\
  (forall v, In v (fit_classes values) <-> In v values) /\
  exists codes,
    le_transform (fit_classes values) values = Ok codes /\
    Forall2 (fun v code =>
               exists i, code = Num (inject_Z i) /\ (0 <= i)%Z /\
                         nth_error (fit_classes values) (Z.to_nat i) = Some v)
            values codes.
Proof.
  split; [| split].
  - unfold fit_classes. induction values as [| x values IH]; cbn [fold_right].
    + constructor.
    + now apply insert_class_sorted.
  - apply fit_classes_in.
  - apply le_transform_seen. intros v Hv. now apply fit_classes_in.
Qed.

Lemma mem_In (x : string) (l : list string) : mem x l = true <-> In x l.
Proof.
  unfold mem. rewrite existsb_exists. split.
  - intros (y & Hy & E). apply String.eqb_eq in E. now subst y.
  - intros H. exists x. split; [exact H | apply String.eqb_refl].
Qed.

Lemma mem_not_In (x : string) (l : list string) : mem x l = false <-> ~ In x l.
Proof.
  rewrite <- mem_In. destruct (mem x l); split; congruence.
Qed.

Section Encoding.

Context {lib : Library}.

(** X15: with an encoder of at least one class, the encoding of a
    categorical value in [predict_delay] never fails: a value whose string
    is a class gets the position of that class, any other value gets 0, the
    position of the first class. With an encoder without classes an unseen
    value raises [IndexError]. *)
Theorem encode_value_fallback (classes_ : LabelEncoder) (v : cell) :
  (classes_ <> [] ->
   exists i,
     encode_value classes_ v = Ok (Num (inject_Z i)) /\ (0 <= i)%Z /\
     (In (astype_str v) classes_ ->
      nth_error classes_ (Z.to_nat i) = Some (astype_str v)) /\
     (~ In (astype_str v) classes_ -> i = 0%Z)) /\
  (classes_ = [] -> exists msg, encode_value classes_ v = Raise (IndexError msg)).
Proof.
  split.
  - intros Hne. unfold encode_value. cbn [le_transform].
    destruct (index_of (astype_str v) classes_ 0) as [i |] eqn:Hi.
    + cbn [Py.bind hd]. exists i.
      assert (Hin : In (astype_str v) classes_).
      { destruct (in_dec string_dec (astype_str v) classes_) as [Hin | Hnin];
          [exact Hin|].
        rewrite (index_of_not_in _ _ 0 Hnin) in Hi. discriminate. }
      destruct (index_of_in _ _ 0 Hin) as (j & Hj & Hle & Hnth).
      rewrite Hi in Hj. injection Hj as <-. rewrite Z.sub_0_r in Hnth.
      split; [reflexivity|]. split; [exact Hle|].
      split; [now intros _ | now intros Hnin].
    + destruct classes_ as [| c rest]; [contradiction|].
      cbn [first_class Py.bind].
      assert (Hnin : ~ In (astype_str v) (c :: rest)).
      { intros Hin. destruct (index_of_in _ _ 0 Hin) as (j & Hj & _).
        rewrite Hi in Hj. discriminate. }
      assert (Hrep : astype_str
                       match v with
                       | Str s => if mem s (c :: rest) then v else Str c
                       | Num _ => Str c
                       end = c).
      { destruct v as [q | s]; [reflexivity|].
        cbn [astype_str] in Hnin. apply mem_not_In in Hnin. now rewrite Hnin. }
      rewrite Hrep. cbn [le_transform index_of]. rewrite String.eqb_refl.
      cbn [Py.bind hd]. exists 0%Z.
      split; [reflexivity|]. split; [lia|].
      split; [now intros Hin | reflexivity].
  - intros ->. unfold encode_value. cbn [le_transform index_of first_class Py.bind].
    eauto.
Qed.

End Encoding.

Lemma encode_value_fallback_witness :
  ["commercial"; "residential"] <> [] /\
  encode_value (lib := Examples.toy_library)
    ["commercial"; "residential"] (Str "industrial") = Ok (Num 0).
Proof.
  assert (Hne : ["commercial"; "residential"] <> @nil string) by discriminate.
  split; [exact Hne|].
  destruct (proj1 (encode_value_fallback (lib := Examples.toy_library)
                     ["commercial"; "residential"] (Str "industrial")) Hne)
    as (i & Henc & _ & _ & Hzero).
  rewrite Henc, Hzero; [reflexivity|].
  cbn. intros [H | [H | H]]; [discriminate H | discriminate H | exact H].
Defined.

End EncoderFacts.

(** ** More on [predict_delay] *)

Module PredictDelayFacts.

Import Method DelayPredictor RoundFacts EncoderFacts.

Lemma lookup_assign_same (A : Type) (k : string) (v : A) (d : list (string * A)) :
  lookup k (assign k v d) = Some v.
Proof.
  induction d as [| [k' v'] d IH]; cbn [assign lookup].
  - now rewrite String.eqb_refl.
  - destruct (String.eqb k' k) eqn:E; cbn [lookup]; rewrite E; [reflexivity | exact IH].
Qed.

Lemma lookup_assign_other (A : Type) (k k' : string) (v : A) (d : list (string * A)) :
  k <> k' -> lookup k' (assign k v d) = lookup k' d.
Proof.
  intros Hne. induction d as [| [k0 v0] d IH]; cbn [assign lookup].
  - destruct (String.eqb k k') eqn:E; [| reflexivity].
    apply String.eqb_eq in E. contradiction.
  - destruct (String.eqb k0 k) eqn:E; cbn [lookup].
    + apply String.eqb_eq in E. subst k0.
      destruct (String.eqb k k') eqn:E'; [| reflexivity].
      apply String.eqb_eq in E'. contradiction.
    + destruct (String.eqb k0 k'); [reflexivity | exact IH].
Qed.

Lemma mem_keys_lookup (A : Type) (k : string) (d : list (string * A)) :
  mem k (map fst d) = false <-> lookup k d = None.
Proof.
  induction d as [| [k0 v0] d IH]; cbn [map fst lookup].
  - unfold mem. cbn. tauto.
  - unfold mem in *. cbn [existsb]. rewrite String.eqb_sym.
    destruct (String.eqb k0 k); cbn [orb]; [split; discriminate | exact IH].
Qed.




Section Predict.

Context {lib : Library}.

Lemma predict_delay_full_inv project_features self r self' :
  DelayPredictor.predict_delay project_features self = (Ok r, self') ->
  exists prediction entry,
    getitem_opt (training_history self) (best_model_name self) = Ok entry /\
    predicted_delay_days r = py_max 0 (py_round prediction 1) /\
    confidence_interval r =
      (py_round (py_max 0 (prediction - cv_mae (scores entry))) 1,
       py_round (prediction + cv_mae (scores entry)) 1) /\
    confidence_percentage r =
      py_round
        (py_max 60
           (py_min 95 (100 - cv_mae (scores entry) / py_max 1 prediction * 100))) 1.
Proof.
  unfold DelayPredictor.predict_delay, Method.bind, gets, lift, ret.
  intros H.
  destruct (best_model self) as [best |]; [| discriminate H].
  destruct (encode_record _ _ _) as [df |]; [| discriminate H].
  destruct (select_row _ _) as [row |]; [| discriminate H].
  assert (Hfinish : forall prediction,
             match getitem_opt (training_history self) (best_model_name self) with
             | Ok entry =>
                 match getitem_opt (feature_importance self) (best_model_name self) with
                 | Ok ranked =>
                     (Ok {| predicted_delay_days := py_max 0 (py_round prediction 1);
                            confidence_interval :=
                              (py_round (fst (py_max 0 (prediction - cv_mae (scores entry)),
                                              prediction + cv_mae (scores entry))) 1,
                               py_round (snd (py_max 0 (prediction - cv_mae (scores entry)),
                                              prediction + cv_mae (scores entry))) 1);
                            confidence_percentage :=
                              py_round
                                (py_max 60
                                   (py_min 95
                                      (100 - cv_mae (scores entry) / py_max 1 prediction * 100)))
                                1;
                            model_used := best_model_name self;
                            model_mae := py_round (cv_mae (scores entry)) 2;
                            top_feature_importance := dict_of (slice_to 10 ranked) |},
                      self)
                 | Raise e => (Raise e, self)
                 end
             | Raise e => (Raise e, self)
             end = (Ok r, self') ->
             exists prediction entry,
               getitem_opt (training_history self) (best_model_name self) = Ok entry /\
               predicted_delay_days r = py_max 0 (py_round prediction 1) /\
               confidence_interval r =
                 (py_round (py_max 0 (prediction - cv_mae (scores entry))) 1,
                  py_round (prediction + cv_mae (scores entry)) 1) /\
               confidence_percentage r =
                 py_round
                   (py_max 60
                      (py_min 95
                         (100 - cv_mae (scores entry) / py_max 1 prediction * 100))) 1).
  { intros prediction Hp.
    destruct (getitem_opt (training_history self) _) as [entry |];
      [| discriminate Hp].
    destruct (getitem_opt (feature_importance self) _) as [ranked |];
      [| discriminate Hp].
    apply pair_equal_spec in Hp. destruct Hp as [Hp _]. apply Ok_inj in Hp.
    subst r. exists prediction, entry. repeat split. }
  destruct (match best_model_name self with
            | Some n => mem n ["random_forest"; "gradient_boost"]
            | None => false
            end).
  - destruct (predict best row) as [prediction |]; [| discriminate H].
    exact (Hfinish prediction H).
  - destruct (transform_row (scaler self) row) as [scaled |]; [| discriminate H].
    destruct (predict best scaled) as [prediction |]; [| discriminate H].
    exact (Hfinish prediction H).
Qed.

(** X17: the confidence percentage that [predict_delay] reports lies
    between 60 and 95, whatever the model predicts and whatever its
    cross-validated error. *)
Theorem predict_delay_confidence_bounds
    (project_features : record) (self self' : ConstructionDelayPredictor)
    (r : delay_prediction) :
  DelayPredictor.predict_delay project_features self = (Ok r, self') ->
  60 <= confidence_percentage r /\ confidence_percentage r <= 95.
Proof.
  intros H. apply predict_delay_full_inv in H.
  destruct H as (prediction & entry & _ & _ & _ & ->). split.
  - apply (py_round_lower 60). apply py_max_lower_l.
  - apply (py_round_upper 95).
    apply py_max_upper; [vm_compute; discriminate | apply py_min_upper_l].
Qed.

(** X18: when the cross-validated errors in the training history are not
    negative, the reported delay is bracketed by the reported interval: the
    lower bound never exceeds the predicted delay, and the predicted delay
    never exceeds an upper bound that is not negative. *)
Theorem predict_delay_interval_brackets
    (project_features : record) (self self' : ConstructionDelayPredictor)
    (r : delay_prediction) :
  (forall name entry,
     lookup name (training_history self) = Some entry ->
     0 <= cv_mae (scores entry)) ->
  DelayPredictor.predict_delay project_features self = (Ok r, self') ->
  fst (confidence_interval r) <= predicted_delay_days r /\
  (0 <= snd (confidence_interval r) ->
   predicted_delay_days r <= snd (confidence_interval r)).
Proof.
  intros Hmae H. apply predict_delay_full_inv in H.
  destruct H as (prediction & entry & Hentry & -> & -> & _). cbn [fst snd].
  assert (Hm : 0 <= cv_mae (scores entry)).
  { unfold getitem_opt, getitem in Hentry.
    destruct (best_model_name self) as [n |]; [| discriminate Hentry].
    destruct (lookup n (training_history self)) as [e |] eqn:E;
      [| discriminate Hentry].
    apply Ok_inj in Hentry. subst e. exact (Hmae n entry E). }
  split.
  - apply Qle_trans with (py_round (py_max 0 prediction) 1).
    + apply py_round_mono. apply py_max_mono_r. lra.
    + unfold py_max at 1. destruct (Qlt_bool 0 prediction) eqn:E.
      * apply py_max_lower_r.
      * apply Qle_trans with 0; [vm_compute; discriminate | apply py_max_lower_l].
  - intros Hup. apply py_max_upper; [exact Hup|].
    apply py_round_mono. lra.
Qed.

End Predict.

Lemma history_errors_nonneg :
  forall name entry,
    lookup name (training_history Examples.loaded_predictor) = Some entry ->
    0 <= cv_mae (scores entry).
Proof.
  intros name entry. cbn [Examples.loaded_predictor training_history lookup].
  destruct (String.eqb "random_forest" name); [| discriminate].
  intros H. injection H as <-. vm_compute. discriminate.
Qed.

Lemma predict_delay_confidence_bounds_witness :
  exists r self',
    DelayPredictor.predict_delay (lib := Examples.toy_library)
      Examples.toy_project Examples.loaded_predictor = (Ok r, self') /\
    60 <= confidence_percentage r /\ confidence_percentage r <= 95.
Proof.
  do 2 eexists. split; [vm_compute; reflexivity|].
  apply (predict_delay_confidence_bounds (lib := Examples.toy_library)
           Examples.toy_project Examples.loaded_predictor
           Examples.loaded_predictor).
  vm_compute. reflexivity.
Defined.

Lemma predict_delay_interval_brackets_witness :
  exists r self',
    (forall name entry,
       lookup name (training_history Examples.loaded_predictor) = Some entry ->
       0 <= cv_mae (scores entry)) /\
    DelayPredictor.predict_delay (lib := Examples.toy_library)
      Examples.toy_project Examples.loaded_predictor = (Ok r, self') /\
    fst (confidence_interval r) <= predicted_delay_days r.
Proof.
  do 2 eexists. split; [exact history_errors_nonneg|].
  split; [vm_compute; reflexivity|].
  apply (predict_delay_interval_brackets (lib := Examples.toy_library)
           Examples.toy_project Examples.loaded_predictor
           Examples.loaded_predictor _ history_errors_nonneg).
  vm_compute. reflexivity.
Defined.

End PredictDelayFacts.

(** ** Training *)

Module TrainingMore.

Import Method DelayPredictor RoundFacts EncoderFacts PredictDelayFacts.





Section Training.

Context {lib : Library}.

Lemma min_scan_spec (rest : list (string * history_entry)) (best : string * history_entry) :
  let m := min_scan best rest in
  In m (best :: rest) /\
  forall x, In x (best :: rest) ->
            cv_mae (scores (snd m)) <= cv_mae (scores (snd x)).
Proof.
  revert best. induction rest as [| y rest IH]; intros best; cbn [min_scan].
  - split; [now left|]. intros x [<- | []]. apply Qle_refl.
  - destruct (Qlt_bool (cv_mae (scores (snd y))) (cv_mae (scores (snd best)))) eqn:E.
    + apply Qlt_bool_true in E. destruct (IH y) as [Hin Hmin]. split.
      * right. exact Hin.
      * intros x [<- | Hx].
        -- apply Qle_trans with (cv_mae (scores (snd y)));
             [apply Hmin; now left | lra].
        -- apply Hmin. exact Hx.
    + apply Qlt_bool_false in E. destruct (IH best) as [Hin Hmin]. split.
      * destruct Hin as [<- | Hin]; [now left | right; now right].
      * intros x [<- | [<- | Hx]].
        -- apply Hmin. now left.
        -- apply Qle_trans with (cv_mae (scores (snd best)));
             [apply Hmin; now left | exact E].
        -- apply Hmin. now right.
Qed.

Lemma keys_assign (A : Type) (k : string) (v : A) (d : list (string * A)) :
  map fst (assign k v d) =
  if mem k (map fst d) then map fst d else (map fst d ++ [k])%list.
Proof.
  induction d as [| [k0 v0] d IH]; cbn [assign map fst].
  - reflexivity.
  - change (mem k (k0 :: map fst d)) with (String.eqb k k0 || mem k (map fst d)).
    rewrite (String.eqb_sym k k0).
    destruct (String.eqb k0 k) eqn:E; cbn [map fst orb]; [reflexivity|].
    rewrite IH. now destruct (mem k (map fst d)).
Qed.

Lemma keys_assign_nodup (A : Type) (k : string) (v : A) (d : list (string * A)) :
  NoDup (map fst d) -> NoDup (map fst (assign k v d)).
Proof.
  intros Hnd. rewrite keys_assign. destruct (mem k (map fst d)) eqn:E; [exact Hnd|].
  apply mem_not_In in E.
  apply (Permutation_NoDup (Permutation_cons_append (map fst d) k)).
  now constructor.
Qed.

Lemma lookup_in_nodup (A : Type) (k : string) (v : A) (d : list (string * A)) :
  NoDup (map fst d) -> In (k, v) d -> lookup k d = Some v.
Proof.
  induction d as [| [k0 v0] d IH]; intros Hnd Hin; [contradiction|].
  cbn [map fst] in Hnd. inversion Hnd as [| ? ? Hnotin Hnd']; subst.
  cbn [lookup]. destruct Hin as [Heq | Hin].
  - injection Heq as -> ->. now rewrite String.eqb_refl.
  - destruct (String.eqb k0 k) eqn:E.
    + apply String.eqb_eq in E. subst k0. exfalso. apply Hnotin.
      change k with (fst (k, v)). now apply in_map.
    + now apply IH.
Qed.

Lemma lookup_some_in (A : Type) (k : string) (v : A) (d : list (string * A)) :
  lookup k d = Some v -> In (k, v) d.
Proof.
  induction d as [| [k0 v0] d IH]; cbn [lookup]; [discriminate|].
  destruct (String.eqb k0 k) eqn:E.
  - apply String.eqb_eq in E. subst k0. intros H. injection H as ->. now left.
  - intros H. right. now apply IH.
Qed.

Lemma bind_ok_inv (S A B : Type) (c : M S A) (k : A -> M S B) s r s' :
  Method.bind c k s = (Ok r, s') ->
  exists a s1, c s = (Ok a, s1) /\ k a s1 = (Ok r, s').
Proof.
  unfold Method.bind. destruct (c s) as [[a | e] s1]; [eauto | discriminate].
Qed.

Lemma lift_ok_inv (S A : Type) (c : result A) (s s1 : S) a :
  lift c s = (Ok a, s1) -> c = Ok a /\ s1 = s.
Proof. unfold lift. intros H. injection H as -> ->. auto. Qed.

Lemma gets_ok_inv (S A : Type) (f : S -> A) (s s1 : S) a :
  gets f s = (Ok a, s1) -> a = f s /\ s1 = s.
Proof. unfold gets. intros H. injection H as <- <-. auto. Qed.

Lemma modify_ok_inv (S : Type) (f : S -> S) (s s1 : S) a :
  modify f s = (Ok a, s1) -> s1 = f s.
Proof. unfold modify. intros H. now injection H as _ <-. Qed.

Ltac mbind H a s1 E :=
  apply bind_ok_inv in H; destruct H as (a & s1 & E & H).

Lemma training_loop_keys items sp Xs Xt results self results' self' :
  training_loop items sp Xs Xt results self = (Ok results', self') ->
  NoDup (map fst results) -> NoDup (map fst results').
Proof.
  revert results self.
  induction items as [| [name unfitted] items IH]; intros results self H Hnd.
  - cbn [training_loop] in H. unfold ret in H. now injection H as <- _.
  - cbn [training_loop] in H.
    destruct (mem name ["random_forest"; "gradient_boost"]).
    + mbind H fitted s1 E1. destruct fitted as [[fitted_model fitted_scores] test_pred].
      mbind H u1 s2 E2. mbind H u2 s3 E3.
      apply (IH _ _ H). now apply keys_assign_nodup.
    + mbind H fitted s1 E1. destruct fitted as [[fitted_model fitted_scores] test_pred].
      mbind H u1 s2 E2. mbind H u2 s3 E3.
      apply (IH _ _ H). now apply keys_assign_nodup.
Qed.

(** X20: when [train_models] returns, the best model is a trained model
    whose cross-validated error is the smallest, and the predictor is left
    consistent: [best_model_name] names an entry of
    [training_history], which is the returned results, and [best_model] is
    the model of that entry. *)
Theorem train_models_selects_minimum
    (X : DataFrame) (y : Series) (self self' : ConstructionDelayPredictor)
    (results : list (string * history_entry)) :
  train_models X y self = (Ok results, self') ->
  exists name entry,
    best_model_name self' = Some name /\
    training_history self' = results /\
    lookup name results = Some entry /\
    best_model self' = Some (model entry) /\
    forall other e, lookup other results = Some e ->
                    cv_mae (scores entry) <= cv_mae (scores e).
Proof.
  unfold train_models. intros H.
  mbind H sp s1 E1. mbind H old_scaler s2 E2. mbind H fitted s3 E3.
  destruct fitted as [fitted_scaler X_train_scaled].
  mbind H u4 s4 E4. mbind H X_test_scaled s5 E5. mbind H items s6 E6.
  mbind H res s7 E7. mbind H best_name s8 E8. mbind H best s9 E9.
  mbind H u10 s10 E10. mbind H u11 s11 E11. mbind H u12 s12 E12.
  unfold ret in H. apply pair_equal_spec in H. destruct H as [H Hs].
  apply Ok_inj in H. subst res. subst self'.
  apply modify_ok_inv in E12, E11, E10. subst s12 s11 s10.
  apply lift_ok_inv in E8, E9. destruct E8 as [E8 ->], E9 as [E9 ->].
  pose proof (training_loop_keys _ _ _ _ _ _ _ _ E7 (NoDup_nil _)) as Hnd.
  unfold min_by_cv_mae in E8. destruct results as [| x rest]; [discriminate E8|].
  apply Ok_inj in E8.
  destruct (min_scan_spec rest x) as [Hin Hmin]. cbv zeta in Hin, Hmin.
  destruct (min_scan x rest) as [mname mentry] eqn:Em. cbn [fst snd] in *.
  subst best_name.
  assert (Hlook : lookup mname (x :: rest) = Some mentry)
    by (now apply lookup_in_nodup).
  unfold getitem in E9. rewrite Hlook in E9. apply Ok_inj in E9. subst best.
  exists mname, mentry.
  cbn [best_model_name training_history best_model set_training_history
       set_best_model_name set_best_model].
  repeat split.
  - exact Hlook.
  - intros other e He. apply lookup_some_in in He.
    exact (Hmin (other, e) He).
Qed.

Lemma set_label_encoders_twice e1 e2 (self : ConstructionDelayPredictor) :
  set_label_encoders e2 (set_label_encoders e1 self) = set_label_encoders e2 self.
Proof. reflexivity. Qed.

Lemma lookup_some_mem (A : Type) (k : string) (v : A) (d : list (string * A)) :
  lookup k d = Some v -> mem k (map fst d) = true.
Proof.
  intros H. destruct (mem k (map fst d)) eqn:E; [reflexivity|].
  apply mem_keys_lookup in E. congruence.
Qed.

Lemma le_transform_fitted (strings : list string) :
  exists codes, le_transform (fit_classes strings) strings = Ok codes.
Proof.
  destruct (le_transform_seen (fit_classes strings) strings) as (codes & H & _).
  - intros v Hv. now apply fit_classes_in.
  - now exists codes.
Qed.

(** The loop over the categorical columns never fails; it keeps the columns
    of the frame and refits the encoder of every categorical column that
    the frame has. *)
Lemma encode_columns_spec (cols : list string) :
  NoDup cols ->
  forall (df : DataFrame) (encoders0 : list (string * LabelEncoder))
         (self : ConstructionDelayPredictor),
  exists df' encoders',
    encode_columns cols df (set_label_encoders encoders0 self)
      = (Ok df', set_label_encoders encoders' self) /\
    map fst df' = map fst df /\
    (forall k, ~ In k cols -> lookup k df' = lookup k df) /\
    (forall col values, In col cols -> lookup col df = Some values ->
       lookup col encoders' = Some (fit_classes (map astype_str values))) /\
    (forall col, ~ In col cols \/ lookup col df = None ->
       lookup col encoders' = lookup col encoders0).
Proof.
  induction 1 as [| col rest Hnotin Hnd IH]; intros df encoders0 self.
  - exists df, encoders0. cbn [encode_columns]. unfold ret.
    repeat split; auto. intros col values [].
  - cbn [encode_columns]. destruct (lookup col df) as [values |] eqn:Hcol.
    + destruct (le_transform_fitted (map astype_str values)) as [codes Hcodes].
      unfold Method.bind at 1. unfold modify at 1.
      cbn [label_encoders set_label_encoders].
      unfold Method.bind at 1. unfold lift at 1. rewrite Hcodes.
      change (mkPredictor (models self) (best_model self) (best_model_name self)
                (scaler self)
                (assign col (fit_classes (map astype_str values)) encoders0)
                (feature_importance self) (feature_names self)
                (training_history self))
        with (set_label_encoders
                (assign col (fit_classes (map astype_str values)) encoders0) self).
      destruct (IH (assign col codes df)
                   (assign col (fit_classes (map astype_str values)) encoders0) self)
        as (df' & encoders' & Hrun & Hkeys & Hother & Hfit & Hsame).
      exists df', encoders'. split; [exact Hrun|].
      assert (Hne : forall k, In k rest -> col <> k).
      { intros k Hk ->. contradiction. }
      split; [| split; [| split]].
      * rewrite Hkeys, keys_assign.
        match goal with
        | |- context [mem ?k ?l] => destruct (mem k l) eqn:E; [reflexivity|]
        end.
        apply mem_keys_lookup in E.
        discriminate (eq_trans (eq_sym Hcol) E).
      * intros k Hk. rewrite Hother.
        -- apply lookup_assign_other. intros ->. apply Hk. now left.
        -- intros Hin. apply Hk. now right.
      * intros c vals [<- | Hc] Hvals.
        -- rewrite Hsame by (now left). rewrite lookup_assign_same. congruence.
        -- apply Hfit; [exact Hc|].
           rewrite lookup_assign_other; [exact Hvals | now apply Hne].
      * intros c Hc.
        assert (Hcc : col <> c).
        { intros <-. destruct Hc as [Hc | Hc]; [apply Hc; now left | congruence]. }
        rewrite Hsame.
        -- now apply lookup_assign_other.
        -- destruct Hc as [Hc | Hc].
           ++ left. intros Hin. apply Hc. now right.
           ++ right. rewrite lookup_assign_other; assumption.
    + destruct (IH df encoders0 self)
        as (df' & encoders' & Hrun & Hkeys & Hother & Hfit & Hsame).
      exists df', encoders'. split; [exact Hrun|].
      split; [exact Hkeys|]. split; [| split].
      * intros k Hk. apply Hother. intros Hin. apply Hk. now right.
      * intros c vals [<- | Hc] Hvals; [congruence | now apply Hfit].
      * intros c [Hc | Hc]; apply Hsame; [left | now right].
        intros Hin. apply Hc. now right.
Qed.

Lemma categorical_cols_nodup : NoDup categorical_cols.
Proof.
  unfold categorical_cols.
  repeat (constructor; [cbn [In]; intros H; repeat destruct H as [H | H];
                        try discriminate H; exact H|]).
  constructor.
Qed.

Lemma self_encoders (self : ConstructionDelayPredictor) :
  self = set_label_encoders (label_encoders self) self.
Proof. now destruct self. Qed.

Lemma load_and_preprocess_data_run (csv_path : string) (df0 : DataFrame)
    (self : ConstructionDelayPredictor) :
  read_csv csv_path = Ok df0 ->
  exists df' encoders',
    map fst df' = map fst df0 /\
    lookup target_col df' = lookup target_col df0 /\
    (forall col values, In col categorical_cols -> lookup col df0 = Some values ->
       lookup col encoders' = Some (fit_classes (map astype_str values))) /\
    load_and_preprocess_data csv_path self =
    match lookup target_col df0 with
    | Some y =>
        let feature_cols :=
          filter (fun col => negb (mem col ["project_id"; target_col]))
                 (map fst df0) in
        (Ok (filter (fun kv => mem (fst kv) feature_cols) df', y, df'),
         set_feature_names feature_cols (set_label_encoders encoders' self))
    | None => (Raise (KeyError target_col), set_label_encoders encoders' self)
    end.
Proof.
  intros Hread.
  destruct (encode_columns_spec categorical_cols categorical_cols_nodup
              df0 (label_encoders self) self)
    as (df' & encoders' & Hrun & Hkeys & Hother & Hfit & _).
  rewrite <- self_encoders in Hrun.
  assert (Htarget : lookup target_col df' = lookup target_col df0).
  { apply Hother. unfold categorical_cols, target_col. cbn [In].
    intros H; repeat destruct H as [H | H]; try discriminate H; exact H. }
  exists df', encoders'. split; [exact Hkeys|]. split; [exact Htarget|].
  split; [exact Hfit|].
  unfold load_and_preprocess_data.
  unfold Method.bind at 1. unfold lift at 1. rewrite Hread.
  unfold Method.bind at 1. rewrite Hrun.
  unfold Method.bind at 1. unfold lift at 1. unfold getitem.
  rewrite Htarget, Hkeys.
  destruct (lookup target_col df0) as [y |]; reflexivity.
Qed.

Lemma keys_filter (A : Type) (f : string -> bool) (d : list (string * A)) :
  map fst (filter (fun kv => f (fst kv)) d) = filter f (map fst d).
Proof.
  induction d as [| [k v] d IH]; [reflexivity|]. cbn [filter map fst].
  destruct (f k); cbn [map fst]; now rewrite IH.
Qed.

(** X21: when [load_and_preprocess_data] returns, the feature names it
    stores are the columns of the file, in order, without [project_id] and
    without the target [actual_delay_days]; the feature frame has exactly
    those columns and the returned target is the target column of the
    file. *)
Theorem load_and_preprocess_data_features
    (csv_path : string) (self self' : ConstructionDelayPredictor)
    (X df : DataFrame) (y : Series) :
  load_and_preprocess_data csv_path self = (Ok (X, y, df), self') ->
  exists df0,
    read_csv csv_path = Ok df0 /\
    feature_names self' =
      filter (fun col => negb (mem col ["project_id"; target_col])) (map fst df0) /\
    map fst X = feature_names self' /\
    lookup target_col df0 = Some y /\
    forall name, In name (feature_names self') ->
                 name <> "project_id" /\ name <> target_col.
Proof.
  intros H.
  destruct (read_csv csv_path) as [df0 | e] eqn:Hread.
  2:{ unfold load_and_preprocess_data, Method.bind, lift in H.
      rewrite Hread in H. discriminate H. }
  destruct (load_and_preprocess_data_run csv_path df0 self Hread)
    as (df' & encoders' & Hkeys & _ & _ & Hrun).
  rewrite Hrun in H.
  destruct (lookup target_col df0) as [y0 |] eqn:Ht; [| discriminate H].
  cbv zeta in H. injection H as <- <- <- <-.
  exists df0. split; [reflexivity|]. split; [reflexivity|].
  cbn [feature_names set_feature_names].
  split; [| split; [exact Ht|]].
  - set (P := fun col => negb (mem col ["project_id"; target_col])).
    transitivity (filter (fun k => mem k (filter P (map fst df0))) (map fst df')).
    + exact (keys_filter _ (fun k => mem k (filter P (map fst df0))) df').
    + rewrite Hkeys. apply filter_ext_in. intros k Hk.
      change (mem k (filter P (map fst df0)) = P k).
      destruct (P k) eqn:Ek.
      * apply mem_In. apply filter_In. now split.
      * apply mem_not_In. rewrite filter_In. intros [_ Hp]. congruence.
  - intros name Hname. apply filter_In in Hname. destruct Hname as [_ Hp].
    apply negb_true_iff in Hp.
    change (mem name ["project_id"; target_col] = false) in Hp.
    apply mem_not_In in Hp.
    split; intros ->; apply Hp; cbn; auto.
Qed.

(** X22: a retraining that fails can leave the predictor changed. When the
    data set file does not exist, [POST /retrain] answers 400 and the
    predictor is as before. When the file lacks the column
    [actual_delay_days], it answers 500 with the [KeyError], after the label
    encoders of the predictor have been replaced by encoders fitted on the
    categorical columns of that file; nothing else is changed. *)
Theorem retrain_failure_modes (self : ConstructionDelayPredictor) (path : string) :
  let req := TrainingApi.PostRetrain
               (Ok (Some (TrainingApi.mkRetrainParams (Some path)))) in
  (path_exists path = false ->
   TrainingApi.handle req (Some self) =
   (TrainingApi.mkResponse 400
      (TrainingApi.ErrorBody ("Dataset file not found: " ++ path)),
    Some self)) /\
  (forall df0,
     path_exists path = true -> read_csv path = Ok df0 ->
     lookup target_col df0 = None ->
     exists encoders',
       TrainingApi.handle req (Some self) =
       (TrainingApi.mkResponse 500 (TrainingApi.FailureBody "'actual_delay_days'"),
        Some (set_label_encoders encoders' self)) /\
       forall col values,
         In col categorical_cols -> lookup col df0 = Some values ->
         lookup col encoders' = Some (fit_classes (map astype_str values))).
Proof.
  cbv zeta. cbn [TrainingApi.handle]. unfold TrainingApi.retrain_model.
  cbn [TrainingApi.dataset_path]. split.
  - intros Hmissing. unfold TrainingApi.try_except.
    unfold Method.bind at 1. unfold lift at 1. cbn [TrainingApi.dataset_path].
    rewrite Hmissing. reflexivity.
  - intros df0 Hexists Hread Htarget.
    destruct (load_and_preprocess_data_run path df0 self Hread)
      as (df' & encoders' & _ & _ & Hfit & Hrun).
    rewrite Htarget in Hrun.
    exists encoders'. split; [| exact Hfit].
    unfold TrainingApi.try_except.
    unfold Method.bind at 1. unfold lift at 1. cbn [TrainingApi.dataset_path].
    rewrite Hexists. cbn [negb].
    unfold Method.bind at 1. rewrite Hrun. reflexivity.
Qed.

Lemma batch_loop_entries (l : list record) (i0 : Z) (self : ConstructionDelayPredictor) :
  exists entries,
    TrainingApi.batch_loop l i0 self = (Ok entries, self) /\
    List.length entries = List.length l /\
    forall i project,
      nth_error l i = Some project ->
      nth_error entries i =
      Some (match fst (DelayPredictor.predict_delay project self) with
            | Ok prediction =>
                TrainingApi.Predicted (i0 + Z.of_nat i)
                  (TrainingApi.project_id project (i0 + Z.of_nat i)) prediction
            | Raise e =>
                TrainingApi.Failed (i0 + Z.of_nat i)
                  (TrainingApi.project_id project (i0 + Z.of_nat i)) (str_of_exn e)
            end).
Proof.
  revert i0. induction l as [| project rest IH]; intros i0.
  - exists []. split; [reflexivity|]. split; [reflexivity|].
    intros [| i] p H; discriminate H.
  - destruct (IH (i0 + 1)%Z) as (entries & Hrun & Hlen & Hnth).
    cbn [TrainingApi.batch_loop]. unfold Method.bind at 1.
    pose proof (TrainingFacts.predict_delay_read_only project self) as Hro.
    destruct (DelayPredictor.predict_delay project self) as [[prediction | e] self1] eqn:Ep;
      cbn [snd] in Hro; subst self1.
    + unfold Method.bind at 1. rewrite Hrun. unfold ret.
      eexists. split; [reflexivity|]. cbn [List.length]. split; [now rewrite Hlen|].
      intros [| i] p Hp; cbn [nth_error] in *.
      * injection Hp as <-. rewrite Ep. cbn [fst]. now rewrite Z.add_0_r.
      * rewrite (Hnth i p Hp).
        now replace (i0 + 1 + Z.of_nat i)%Z with (i0 + Z.of_nat (S i))%Z by lia.
    + unfold Method.bind at 1. rewrite Hrun. unfold ret.
      eexists. split; [reflexivity|]. cbn [List.length]. split; [now rewrite Hlen|].
      intros [| i] p Hp; cbn [nth_error] in *.
      * injection Hp as <-. rewrite Ep. cbn [fst]. now rewrite Z.add_0_r.
      * rewrite (Hnth i p Hp).
        now replace (i0 + 1 + Z.of_nat i)%Z with (i0 + Z.of_nat (S i))%Z by lia.
Qed.

(** X23: [POST /batch-predict] of the training-side service isolates the
    projects. For every list of projects it answers 200 with one entry per
    project, in order and numbered from 0; the entry of a project carries
    what [predict_delay] returns on that project alone, or the message of
    the exception it raises; the predictor is unchanged. *)
Theorem batch_predict_isolates_projects
    (self : ConstructionDelayPredictor) (l : list record) :
  exists entries,
    TrainingApi.handle
      (TrainingApi.PostBatchPredict
         (Ok (Some (TrainingApi.mkBatchPayload (Some (TrainingApi.Projects l))))))
      (Some self) =
    (TrainingApi.mkResponse 200
       (TrainingApi.BatchBody entries (Z.of_nat (List.length l))
          (Z.of_nat (List.length (filter TrainingApi.is_predicted entries)))),
     Some self) /\
    List.length entries = List.length l /\
    forall i project,
      nth_error l i = Some project ->
      nth_error entries i =
      Some (match fst (DelayPredictor.predict_delay project self) with
            | Ok prediction =>
                TrainingApi.Predicted (Z.of_nat i)
                  (TrainingApi.project_id project (Z.of_nat i)) prediction
            | Raise e =>
                TrainingApi.Failed (Z.of_nat i)
                  (TrainingApi.project_id project (Z.of_nat i)) (str_of_exn e)
            end).
Proof.
  destruct (batch_loop_entries l 0 self) as (entries & Hrun & Hlen & Hnth).
  exists entries. split; [| split; [exact Hlen | exact Hnth]].
  cbn [TrainingApi.handle]. unfold TrainingApi.batch_predict, TrainingApi.try_except.
  unfold Method.bind at 1. unfold lift at 1. cbn [TrainingApi.projects].
  unfold Method.bind at 1. rewrite Hrun. reflexivity.
Qed.

End Training.

Lemma load_and_preprocess_data_features_witness :
  exists X y df self',
    load_and_preprocess_data (lib := Examples.toy_library)
      TrainingApi.default_dataset Examples.loaded_predictor
      = (Ok (X, y, df), self') /\
    feature_names self' = ["crew_size"] /\
    map fst X = ["crew_size"].
Proof.
  assert (H : exists X y df self',
             load_and_preprocess_data (lib := Examples.toy_library)
               TrainingApi.default_dataset Examples.loaded_predictor
             = (Ok (X, y, df), self')).
  { do 4 eexists. vm_compute. reflexivity. }
  destruct H as (X & y & df & self' & H).
  destruct (load_and_preprocess_data_features (lib := Examples.toy_library)
              _ _ _ _ _ _ H)
    as (df0 & Hread & Hnames & Hcols & _).
  exists X, y, df, self'. split; [exact H|].
  assert (Hfeat : feature_names self' = ["crew_size"]).
  { rewrite Hnames. vm_compute in Hread. apply Ok_inj in Hread. subst df0.
    vm_compute. reflexivity. }
  split; [exact Hfeat|]. rewrite Hcols. exact Hfeat.
Defined.

Lemma retrain_failure_modes_witness :
  path_exists (Library := Examples.toy_library) "missing.csv" = false /\
  TrainingApi.handle (lib := Examples.toy_library)
    (TrainingApi.PostRetrain
       (Ok (Some (TrainingApi.mkRetrainParams (Some "missing.csv")))))
    (Some Examples.loaded_predictor)
  = (TrainingApi.mkResponse 400
       (TrainingApi.ErrorBody "Dataset file not found: missing.csv"),
     Some Examples.loaded_predictor).
Proof.
  split; [reflexivity|].
  exact (proj1 (retrain_failure_modes (lib := Examples.toy_library)
                  Examples.loaded_predictor "missing.csv") eq_refl).
Defined.

Lemma train_models_selects_minimum_witness :
  exists results self' name entry,
    train_models (lib := Examples.toy_library) MoreExamples.crew_frame
      MoreExamples.crew_delays MoreExamples.initialized_predictor
      = (Ok results, self') /\
    best_model_name self' = Some name /\ name = "random_forest" /\
    lookup name results = Some entry /\
    best_model self' = Some (model entry).
Proof.
  assert (H : exists results self',
             train_models (lib := Examples.toy_library) MoreExamples.crew_frame
               MoreExamples.crew_delays MoreExamples.initialized_predictor
             = (Ok results, self')).
  { do 2 eexists. vm_compute. reflexivity. }
  destruct H as (results & self' & H).
  destruct (train_models_selects_minimum (lib := Examples.toy_library) _ _ _ _ _ H)
    as (name & entry & Hname & Hhist & Hlook & Hbest & _).
  exists results, self', name, entry.
  split; [exact H|]. split; [exact Hname|].
  split; [| split; assumption].
  vm_compute in H. injection H as _ <-. cbn in Hname. congruence.
Defined.

End TrainingMore.

(** ** Saving and loading the model *)

Module ModelFileFacts.

Import Method DelayPredictor.

Section File.

Context {lib : Library}.

Lemma predict_delay_ignores_models
    (project : record) (candidates : list (string * Estimator))
    (self : ConstructionDelayPredictor) :
  fst (DelayPredictor.predict_delay project (set_models candidates self)) =
  fst (DelayPredictor.predict_delay project self).
Proof.
  destruct self as [ms bm bn sc le fi fn th].
  cbv beta iota zeta delta [DelayPredictor.predict_delay Method.bind gets lift ret
                            set_models models best_model best_model_name scaler
                            label_encoders feature_importance feature_names
                            training_history].
  destruct bm as [best |]; [| reflexivity].
  destruct (encode_record categorical_cols le project) as [df |]; [| reflexivity].
  destruct (select_row fn (fill_missing fn df)) as [row |]; [| reflexivity].
  destruct (match bn with
            | Some n => mem n ["random_forest"; "gradient_boost"]
            | None => false
            end).
  - destruct (predict best row) as [prediction |]; [| reflexivity].
    destruct (getitem_opt th bn) as [entry |]; [| reflexivity].
    destruct (getitem_opt fi bn) as [ranked |]; reflexivity.
  - destruct (transform_row sc row) as [scaled |]; [| reflexivity].
    destruct (predict best scaled) as [prediction |]; [| reflexivity].
    destruct (getitem_opt th bn) as [entry |]; [| reflexivity].
    destruct (getitem_opt fi bn) as [ranked |]; reflexivity.
Qed.

(** X24: saving and loading round-trips. If [joblib.load] returns for a
    path what [save_model] pickled from a predictor, then [load_model] on
    any predictor leaves a predictor that has the seven saved attributes of
    the saved one, keeps only its own [models] dictionary, and on which
    [predict_delay] returns, for every project, what it returns on the
    saved predictor. *)
Theorem load_model_round_trip
    (joblib_load : string -> result ModelFile.model_data) (filepath : string)
    (saved self : ConstructionDelayPredictor) :
  joblib_load filepath = Ok (ModelFile.model_data_of saved) ->
  ModelFile.load_model joblib_load filepath self
    = (Ok tt, set_models (models self) saved) /\
  forall project,
    fst (DelayPredictor.predict_delay project
           (snd (ModelFile.load_model joblib_load filepath self)))
    = fst (DelayPredictor.predict_delay project saved).
Proof.
  intros Hload.
  assert (Hrun : ModelFile.load_model joblib_load filepath self
                 = (Ok tt, set_models (models self) saved)).
  { unfold ModelFile.load_model, Method.bind, lift, modify. rewrite Hload.
    destruct saved, self. reflexivity. }
  split; [exact Hrun|].
  intros project. rewrite Hrun. cbn [snd]. apply predict_delay_ignores_models.
Qed.

End File.

Lemma load_model_round_trip_witness :
  (fun _ : string => Ok (ModelFile.model_data_of Examples.loaded_predictor))
    TrainingApi.model_file
  = Ok (ModelFile.model_data_of Examples.loaded_predictor) /\
  ModelFile.load_model (lib := Examples.toy_library)
    (fun _ => Ok (ModelFile.model_data_of Examples.loaded_predictor))
    TrainingApi.model_file MoreExamples.initialized_predictor
  = (Ok tt, MoreExamples.initialized_predictor).
Proof.
  split; [reflexivity|].
  exact (proj1 (load_model_round_trip (lib := Examples.toy_library)
                  (fun _ => Ok (ModelFile.model_data_of Examples.loaded_predictor))
                  TrainingApi.model_file Examples.loaded_predictor
                  MoreExamples.initialized_predictor eq_refl)).
Defined.

End ModelFileFacts.

(** ** The dataset generator *)

Module RealisticDatasetFacts.

Import RealisticDataset.

Lemma project_types_getitem (k : string) :
  In k (map fst project_types) ->
  exists td, DelayPredictor.getitem project_types k = Ok td /\
    (2500000 <= avg_budget td /\ avg_budget td <= 45000000) /\
    (180 <= avg_duration td /\ avg_duration td <= 900) /\
    (1 <= complexity_factor td /\ complexity_factor td <= 3) /\
    (0.5 <= weather_sensitivity td /\ weather_sensitivity td <= 0.9).
Proof.
  intros H. cbn in H.
  repeat (destruct H as [<- | H];
          [eexists; split; [reflexivity | vm_compute; intuition discriminate] |]).
  contradiction.
Qed.

Lemma locations_getitem (k : string) :
  In k (map fst locations) ->
  exists ld, DelayPredictor.getitem locations k = Ok ld /\
    (0.6 <= weather_risk ld /\ weather_risk ld <= 0.9) /\
    (0.7 <= labor_availability ld /\ labor_availability ld <= 0.9).
Proof.
  intros H. cbn in H.
  repeat (destruct H as [<- | H];
          [eexists; split; [reflexivity | vm_compute; intuition discriminate] |]).
  contradiction.
Qed.

Lemma float_div_pos (a b : Q) : 0 < b -> float_div a b = Ok (a / b).
Proof.
  intros Hb. unfold float_div.
  destruct (Qeq_bool b 0) eqn:E; [| reflexivity].
  apply Qeq_bool_eq in E. lra.
Qed.

Lemma round_half_even_near (x : Q) :
  x - (1 # 2) <= inject_Z (round_half_even x) /\
  inject_Z (round_half_even x) <= x + (1 # 2).
Proof.
  pose proof (Qfloor_le x) as Hlo.
  pose proof (Qlt_floor x) as Hhi.
  rewrite inject_Z_plus in Hhi. change (inject_Z 1) with 1 in Hhi.
  unfold round_half_even.
  destruct (Qlt_bool (x - inject_Z (Qfloor x)) (1 # 2)) eqn:E1.
  { apply Qlt_bool_true in E1. split; lra. }
  apply Qlt_bool_false in E1.
  destruct (Qlt_bool (1 # 2) (x - inject_Z (Qfloor x))) eqn:E2.
  { rewrite inject_Z_plus. change (inject_Z 1) with 1. split; lra. }
  apply Qlt_bool_false in E2.
  destruct (Z.even (Qfloor x)).
  - split; lra.
  - rewrite inject_Z_plus. change (inject_Z 1) with 1. split; lra.
Qed.

Lemma py_round_scaled (q : Q) (n : nat) :
  py_round q n * inject_Z (Z.pos (Z.to_pos (10 ^ Z.of_nat n)))
  == inject_Z (round_half_even (q * inject_Z (Z.pos (Z.to_pos (10 ^ Z.of_nat n))))).
Proof.
  unfold py_round.
  set (scale := Z.to_pos (10 ^ Z.of_nat n)).
  set (r := round_half_even (q * inject_Z (Z.pos scale))).
  unfold Qeq, Qmult, inject_Z. cbn [Qnum Qden]. lia.
Qed.

Lemma py_round_1_near (q : Q) :
  q - 0.05 <= py_round q 1 /\ py_round q 1 <= q + 0.05.
Proof.
  pose proof (py_round_scaled q 1) as Hs.
  change (inject_Z (Z.pos (Z.to_pos (10 ^ Z.of_nat 1)))) with 10 in Hs.
  pose proof (round_half_even_near (q * 10)) as [Hlo Hhi].
  split; lra.
Qed.

Lemma py_round_2_near (q : Q) :
  q - 0.005 <= py_round q 2 /\ py_round q 2 <= q + 0.005.
Proof.
  pose proof (py_round_scaled q 2) as Hs.
  change (inject_Z (Z.pos (Z.to_pos (10 ^ Z.of_nat 2)))) with 100 in Hs.
  pose proof (round_half_even_near (q * 100)) as [Hlo Hhi].
  split; lra.
Qed.

(** What one iteration appends, for draws that [random] can return. *)
Lemma generate_project_bounds (i : nat) (d : draws) :
  possible d ->
  exists row, generate_project i d = Ok row /\
    (MlApi.in_unit (progress_efficiency row) /\
     MlApi.in_unit (resource_availability row) /\
     MlApi.in_unit (project_complexity row) /\
     MlApi.in_unit (weather_impact row) /\
     MlApi.in_unit (timeline_pressure row)) /\
    (0 <= delay_days row /\
     delay_days row <= 85.6 /\
     delay_days row <= inject_Z (planned_duration_days row) * 0.5 + 0.3 /\
     0 <= additional_cost_usd row /\
     additional_cost_usd row <= 0.6 * budget row + 0.01).
Proof.
  destruct d as [ty loc b du e m eq c s p el f].
  unfold possible, between.
  cbn [chosen_type chosen_location budget_draw duration_draw efficiency_draw
       material_draw equipment_draw complexity_draw seasonal_draw progress_draw
       elapsed_draw factor_draw].
  intros (Hty & Hloc & Hb & Hdu & He & Hm & Heq & Hc & Hs & Hp & Hel & Hf).
  destruct (project_types_getitem ty Hty) as (td & Htd & Hab & Had & Hcf & Hws).
  destruct (locations_getitem loc Hloc) as (ld & Hld & Hwr & Hla).
  unfold generate_project.
  cbn [chosen_type chosen_location budget_draw duration_draw efficiency_draw
       material_draw equipment_draw complexity_draw seasonal_draw progress_draw
       elapsed_draw factor_draw].
  cbv zeta. rewrite Htd, Hld. cbn [Py.bind].
  set (budget0 := avg_budget td * b).
  set (planned := avg_duration td * du).
  set (pe := e * labor_availability ld).
  set (ra := labor_availability ld * 0.4 + m * 0.3 + eq * 0.3).
  set (bc := py_min 1 (budget0 / 50000000)).
  set (pc := (complexity_factor td * 0.4 + bc * 0.3 + c * 0.3) / 3).
  set (wi := (weather_risk ld * 0.6 + weather_sensitivity td * 0.4) * s).
  set (tp := py_min 1 (py_max 0 (- (p - el)) + (if Qlt_bool 0.7 el then 0.3 else 0))).
  set (base := 0 + py_max 0 (1 - pe) * 30 + py_max 0 (1 - ra) * 25 + pc * 20
               + wi * 15 + tp * 10).
  set (ad := py_min (py_max 0 (base * f)) (planned * 0.5)).
  assert (Hbudget : 0 < budget0) by (unfold budget0; nra).
  assert (Hplanned : 144 <= planned) by (unfold planned; nra).
  assert (Hpe : 0.42 <= pe /\ pe <= 0.9) by (unfold pe; split; nra).
  assert (Hra : 0.67 <= ra /\ ra <= 0.945) by (unfold ra; split; lra).
  assert (Hbc : 0 <= bc /\ bc <= 1).
  { unfold bc. split.
    - apply py_min_lower; [lra|]. apply Qle_shift_div_l; lra.
    - apply py_min_upper_l. }
  assert (Hpc : 0 <= pc /\ pc <= 0.6).
  { unfold pc. split.
    - apply Qle_shift_div_l; lra.
    - apply Qle_shift_div_r; lra. }
  assert (Hwi : 0 <= wi /\ wi <= 0.9) by (unfold wi; split; nra).
  assert (Htp : 0 <= tp /\ tp <= 1).
  { unfold tp. split.
    - apply py_min_lower; [lra|].
      pose proof (py_max_lower_l 0 (- (p - el))).
      destruct (Qlt_bool 0.7 el); lra.
    - apply py_min_upper_l. }
  assert (Hine : 0 <= py_max 0 (1 - pe) /\ py_max 0 (1 - pe) <= 0.58).
  { split; [apply py_max_lower_l | apply py_max_upper; lra]. }
  assert (Hsho : 0 <= py_max 0 (1 - ra) /\ py_max 0 (1 - ra) <= 0.33).
  { split; [apply py_max_lower_l | apply py_max_upper; lra]. }
  assert (Hbase : 0 <= base /\ base <= 61.15) by (unfold base; split; lra).
  assert (Had0 : 0 <= ad /\ ad <= 85.61 /\ ad <= planned * 0.5).
  { unfold ad. split; [| split].
    - apply py_min_lower; [apply py_max_lower_l | lra].
    - apply Qle_trans with (py_max 0 (base * f)); [apply py_min_upper_l|].
      apply py_max_upper; [lra | nra].
    - apply py_min_upper_r. }
  rewrite (float_div_pos budget0 planned) by lra. cbn [Py.bind].
  eexists. split; [reflexivity|].
  cbn [progress_efficiency resource_availability project_complexity weather_impact
       timeline_pressure delay_days planned_duration_days additional_cost_usd
       budget].
  set (dc := budget0 / planned).
  assert (Hdc : dc * planned == budget0).
  { unfold dc. field. lra. }
  assert (Hdc0 : 0 <= dc).
  { unfold dc. apply Qle_shift_div_l; lra. }
  assert (Hcost : 0 <= ad * dc * 1.2 /\ ad * dc * 1.2 <= 0.6 * budget0).
  { split; nra. }
  split.
  - unfold MlApi.in_unit.
    repeat split;
      first [ apply py_round_nonneg; lra | apply py_round_le_1; lra ].
  - split; [apply py_round_nonneg; lra|].
    split.
    { apply Qle_trans with (py_round 85.61 1).
      - apply RoundFacts.py_round_mono; lra.
      - vm_compute; discriminate. }
    split.
    { pose proof (py_round_1_near ad) as [_ Hr].
      pose proof (round_half_even_near planned) as [Hn _]. lra. }
    split; [apply py_round_nonneg; lra|].
    pose proof (py_round_2_near (ad * dc * 1.2)) as [_ Hr].
    pose proof (py_round_2_near budget0) as [Hn _]. lra.
Qed.

Lemma generate_loop_Forall (P : project -> Prop) (rng : nat -> draws) :
  (forall j d row, possible d -> generate_project j d = Ok row -> P row) ->
  forall remaining i projects,
    (forall j, (i <= j < i + remaining)%nat -> possible (rng j)) ->
    Forall P projects ->
    exists rows,
      generate_loop rng remaining i projects = Ok rows /\
      List.length rows = (List.length projects + remaining)%nat /\
      Forall P rows.
Proof.
  intros Hrow. induction remaining as [| remaining IH]; intros i projects Hrng Hacc.
  - exists projects. cbn [generate_loop]. repeat split; [lia | exact Hacc].
  - cbn [generate_loop].
    assert (Hi : possible (rng i)) by (apply Hrng; lia).
    destruct (generate_project_bounds i (rng i) Hi) as (row & Hgen & _).
    rewrite Hgen. cbn [Py.bind].
    destruct (IH (S i) (projects ++ [row])%list) as (rows & Hrows & Hlen & Hall).
    + intros j Hj. apply Hrng. lia.
    + apply Forall_app. split; [exact Hacc|].
      constructor; [| constructor]. exact (Hrow i (rng i) row Hi Hgen).
    + exists rows. split; [exact Hrows|]. split; [| exact Hall].
      rewrite Hlen, length_app. cbn [List.length]. lia.
Qed.

Lemma alternating_possible (i : nat) : possible (MoreExamples.alternating i).
Proof.
  unfold MoreExamples.alternating.
  destruct (Nat.even i); unfold possible, between; cbn;
    repeat split; try (vm_compute; discriminate); tauto.
Qed.

(** X25: the generator returns, never raising, as many rows as asked for,
    and in every row the five model features (progress efficiency,
    resource availability, project complexity, weather impact, timeline
    pressure) lie between 0 and 1, whatever values [random.choice] and
    [random.uniform] return for the calls that the loop makes. *)
Theorem generated_features_in_unit_interval (rng : nat -> draws) (num_projects : nat) :
  (forall i, (i < num_projects)%nat -> possible (rng i)) ->
  exists rows,
    generate_realistic_construction_dataset rng num_projects = Ok rows /\
    List.length rows = num_projects /\
    Forall (fun row =>
              MlApi.in_unit (progress_efficiency row) /\
              MlApi.in_unit (resource_availability row) /\
              MlApi.in_unit (project_complexity row) /\
              MlApi.in_unit (weather_impact row) /\
              MlApi.in_unit (timeline_pressure row)) rows.
Proof.
  intros Hrng. unfold generate_realistic_construction_dataset.
  apply (generate_loop_Forall _ rng) with (i := 0%nat) (projects := []).
  - intros j d row Hd Hgen.
    destruct (generate_project_bounds j d Hd) as (row' & Hgen' & Hunit & _).
    rewrite Hgen in Hgen'. apply Ok_inj in Hgen'. subst row'. exact Hunit.
  - intros j Hj. apply Hrng. lia.
  - constructor.
Qed.

(** X26: in every row that the generator returns, the delay is not
    negative, is at most 85.6 days and at most half the planned duration of
    the row (up to 0.3 day of rounding), and the additional cost is not
    negative and at most 60% of the budget of the row (up to a cent of
    rounding). *)
Theorem generated_delay_and_cost_bounds (rng : nat -> draws) (num_projects : nat) :
  (forall i, (i < num_projects)%nat -> possible (rng i)) ->
  exists rows,
    generate_realistic_construction_dataset rng num_projects = Ok rows /\
    Forall (fun row =>
              0 <= delay_days row /\
              delay_days row <= 85.6 /\
              delay_days row <= inject_Z (planned_duration_days row) * 0.5 + 0.3 /\
              0 <= additional_cost_usd row /\
              additional_cost_usd row <= 0.6 * budget row + 0.01) rows.
Proof.
  intros Hrng. unfold generate_realistic_construction_dataset.
  destruct (generate_loop_Forall
              (fun row =>
                 0 <= delay_days row /\
                 delay_days row <= 85.6 /\
                 delay_days row <= inject_Z (planned_duration_days row) * 0.5 + 0.3 /\
                 0 <= additional_cost_usd row /\
                 additional_cost_usd row <= 0.6 * budget row + 0.01)
              rng) with (remaining := num_projects) (i := 0%nat) (projects := @nil project)
    as (rows & Hrows & _ & Hall).
  - intros j d row Hd Hgen.
    destruct (generate_project_bounds j d Hd) as (row' & Hgen' & _ & Hbounds).
    rewrite Hgen in Hgen'. apply Ok_inj in Hgen'. subst row'. exact Hbounds.
  - intros j Hj. apply Hrng. lia.
  - constructor.
  - exists rows. split; [exact Hrows | exact Hall].
Qed.

Lemma generated_features_in_unit_interval_witness :
  exists rows,
    generate_realistic_construction_dataset MoreExamples.alternating 3 = Ok rows /\
    List.length rows = 3%nat /\
    Forall (fun row =>
              MlApi.in_unit (progress_efficiency row) /\
              MlApi.in_unit (resource_availability row) /\
              MlApi.in_unit (project_complexity row) /\
              MlApi.in_unit (weather_impact row) /\
              MlApi.in_unit (timeline_pressure row)) rows.
Proof.
  apply (generated_features_in_unit_interval MoreExamples.alternating 3).
  intros i _. apply alternating_possible.
Defined.

Lemma generated_delay_and_cost_bounds_witness :
  exists rows,
    generate_realistic_construction_dataset MoreExamples.alternating 2 = Ok rows /\
    Forall (fun row =>
              0 <= delay_days row /\
              delay_days row <= 85.6 /\
              delay_days row <= inject_Z (planned_duration_days row) * 0.5 + 0.3 /\
              0 <= additional_cost_usd row /\
              additional_cost_usd row <= 0.6 * budget row + 0.01) rows.
Proof.
  apply (generated_delay_and_cost_bounds MoreExamples.alternating 2).
  intros i _. apply alternating_possible.
Defined.

End RealisticDatasetFacts.
